(** * pyatecc: the ATECCx08A driver's protocol layer

    A shallow embedding of [src/pyatecc/atecc.py]: the checksum, the
    command packet framing, the response polling and validation, and the
    device operations built on them.  Python integers are [Z]; byte
    buffers ([bytes], [bytearray], [list(r_msg)]) are [list Z] with the
    range checks of [bytearray] written out; the I2C bus is an explicit
    world threaded through a state-and-exception monad. *)

From Stdlib Require Import ZArith Lia Bool Ascii.
From stdpp Require Import base numbers list strings.

Local Open Scope Z_scope.

(** ** Python helpers *)

(** [range(start, stop, step)] for a positive [step]. *)
Definition range3 (start stop step : Z) : list Z :=
  (fun k : nat => start + step * Z.of_nat k) <$>
    seq 0 (Z.to_nat ((stop - start + step - 1) / step)).

(** [range(n)] *)
Definition range (n : Z) : list Z := range3 0 n 1.

(** Truth value of a Python list/bytes object. *)
Definition truthy {A} (l : list A) : bool :=
  match l with [] => false | _ => true end.

(** ** ChecksumEngine *)
Module Checksum.

Definition polynom : Z := 0x8005.

(** Body of the inner loop of [_at_crc]: one data bit of byte [b]. *)
Definition crc_shift (b : Z) (crc shift : Z) : Z :=
  let data_bit := if Z.land b (Z.shiftl 1 shift) =? 0 then 0 else 1 in
  let crc_bit := Z.land (Z.shiftr crc 15) 0x1 in
  let crc := Z.shiftl crc 1 in
  let crc := Z.land crc 0xFFFF in
  if negb (data_bit =? crc_bit)
  then Z.land (Z.lxor crc polynom) 0xFFFF
  else crc.

(** Body of the outer loop: [for shift in range(8)]. *)
Definition crc_byte (crc b : Z) : Z :=
  fold_left (crc_shift b) (range 8) crc.

(** [ATECC._at_crc(data, length=None)].  The [length] argument only
    takes part in the early return; the loop runs over all of [data]. *)
Definition _at_crc (data : list Z) (length : option Z) : Z :=
  let length :=
    match length with
    | None => Z.of_nat (List.length data)
    | Some n => n
    end in
  if negb (truthy data) || (length =? 0) then 0
  else Z.land (fold_left crc_byte data 0x0) 0xFFFF.

(** The checksum as the specification words it: a bit-serial feedback
    register over the bits of the input, least significant bit of each
    byte first. *)
Definition reference_bit (acc : Z) (bit : bool) : Z :=
  let shifted := Z.shiftl acc 1 mod 2 ^ 16 in
  if xorb (Z.testbit acc 15) bit then Z.lxor shifted 0x8005 else shifted.

Definition bits_lsb_first (b : Z) : list bool :=
  Z.testbit b <$> [0; 1; 2; 3; 4; 5; 6; 7].

Definition reference_checksum (data : list Z) : Z :=
  fold_left reference_bit (data ≫= bits_lsb_first) 0.

End Checksum.

(** ** The bus and the driver's effects *)
Module Bus.

(** Python exceptions the driver raises or meets. [OSError] stands for
    the class and its subclasses (what [except OSError] catches);
    [OtherError] for any other exception a transport may raise. *)
Inductive exn : Type :=
| OSError
| RuntimeError (msg : string)
| AssertionError (msg : string)
| IndexError
| ValueError
| KeyError
| StructError
| OtherError (tag : Z).

Inductive result (A : Type) : Type :=
| Ok (a : A)
| Err (e : exn).
Global Arguments Ok {A} a.
Global Arguments Err {A} e.

Definition rbind {A B} (r : result A) (k : A -> result B) : result B :=
  match r with
  | Ok a => k a
  | Err e => Err e
  end.

(** What the driver does to the outside, in program order.  Sleeps are
    recorded in milliseconds ([time.sleep(0.001)] is [Sleep 1]). *)
Inductive event : Type :=
| WriteByteData (addr reg val : Z)
| I2cWrite (addr : Z) (buf : list Z)
| I2cRead (addr len : Z)
| Sleep (ms : Z)
| Print (label : string) (args : list Z).

(** What the transport answers to one bus operation. *)
Inductive outcome : Type :=
| Done (data : list Z)
| Raise (e : exn).

(** The world: the events so far, the number of bus operations so far,
    and the transport's answer to the n-th bus operation. *)
Record world : Type := World {
  trace : list event;
  tick : nat;
  env : nat -> outcome
}.

Definition M (A : Type) : Type := world -> result A * world.

Definition ret {A} (a : A) : M A := fun w => (Ok a, w).

Definition raise {A} (e : exn) : M A := fun w => (Err e, w).

Definition bind {A B} (m : M A) (k : A -> M B) : M B :=
  fun w =>
    match m w with
    | (Ok a, w') => k a w'
    | (Err e, w') => (Err e, w')
    end.

Definition lift {A} (r : result A) : M A := fun w => (r, w).

(** [try: m  except <handler applies>: handler] *)
Definition try_except {A} (m : M A) (handler : exn -> option (M A)) : M A :=
  fun w =>
    match m w with
    | (Ok a, w') => (Ok a, w')
    | (Err e, w') =>
        match handler e with
        | Some h => h w'
        | None => (Err e, w')
        end
    end.

Definition log (e : event) : M unit :=
  fun w => (Ok tt, World (trace w ++ [e]) (tick w) (env w)).

(** One bus operation: recorded, then answered by the transport. *)
Definition bus (e : event) : M (list Z) :=
  fun w =>
    let w' := World (trace w ++ [e]) (S (tick w)) (env w) in
    match env w (tick w) with
    | Done d => (Ok d, w')
    | Raise x => (Err x, w')
    end.

Definition time_sleep (ms : Z) : M unit := log (Sleep ms).

(** The world after the further events [evs], [k] of them bus
    operations. *)
Definition after (w : world) (evs : list event) (k : nat) : world :=
  World (trace w ++ evs) (k + tick w) (env w).

Definition print (label : string) (args : list Z) : M unit :=
  log (Print label args).

(** The command packets handed to the bus, oldest first. *)
Definition packets (t : list event) : list (list Z) :=
  omap (fun e => match e with I2cWrite _ buf => Some buf | _ => None end) t.

(** The block reads asked of the bus, oldest first. *)
Definition is_read (e : event) : bool :=
  match e with I2cRead _ _ => true | _ => false end.

Definition reads (t : list event) : list event := List.filter is_read t.

End Bus.

Declare Scope atecc_scope.
Notation "'let*' x ':=' m 'in' k" := (Bus.bind m (fun x => k))
  (at level 10, x name, m at level 100, k at level 200) : atecc_scope.
Notation "'let+' x ':=' r 'in' k" := (Bus.rbind r (fun x => k))
  (at level 10, x name, r at level 100, k at level 200) : atecc_scope.
Notation "m ';;;' k" := (Bus.bind m (fun _ => k))
  (at level 100, k at level 200, right associativity) : atecc_scope.
Local Open Scope atecc_scope.

(** ** Byte buffers *)
Module Buffer.
Import Bus.

Definition len {A} (l : list A) : Z := Z.of_nat (length l).

(** [bytearray(n)] *)
Definition bytearray (n : Z) : list Z := replicate (Z.to_nat n) 0.

(** [b[i] = v] on a bytearray: the value must be a byte, and the index,
    counted from the end when negative, must be in range. *)
Definition setitem (b : list Z) (i v : Z) : result (list Z) :=
  if negb ((0 <=? v) && (v <? 256)) then Err ValueError
  else
    let i := if i <? 0 then i + len b else i in
    if negb ((0 <=? i) && (i <? len b)) then Err IndexError
    else Ok (<[Z.to_nat i := v]> b).

(** [l[i]] *)
Definition getitem (l : list Z) (i : Z) : result Z :=
  let i := if i <? 0 then i + len l else i in
  if negb ((0 <=? i) && (i <? len l)) then Err IndexError
  else
    match l !! Z.to_nat i with
    | Some v => Ok v
    | None => Err IndexError
    end.

(** Bound of a slice: counted from the end when negative, then clamped. *)
Definition clamp (n i : Z) : Z :=
  let i := if i <? 0 then i + n else i in
  Z.max 0 (Z.min n i).

(** [l[lo:hi]] *)
Definition slice {A} (l : list A) (lo hi : Z) : list A :=
  let lo := clamp (len l) lo in
  let hi := clamp (len l) hi in
  take (Z.to_nat (hi - lo)) (drop (Z.to_nat lo) l).

(** [enumerate(l)] *)
Fixpoint enumerate_from {A} (i : Z) (l : list A) : list (Z * A) :=
  match l with
  | [] => []
  | x :: l' => (i, x) :: enumerate_from (i + 1) l'
  end.

Definition enumerate {A} (l : list A) : list (Z * A) := enumerate_from 0 l.

Definition is_byte (v : Z) : Prop := 0 <= v < 256.

End Buffer.

(** ** The driver *)
Module Driver.
Import Bus Buffer Checksum.

Definition _REG_ATECC_ADDR : Z := 0xC0.
Definition _REG_ATECC_DEVICE_ADDR : Z := Z.shiftr _REG_ATECC_ADDR 1.

Definition OP_COUNTER : Z := 0x24.
Definition OP_INFO : Z := 0x30.
Definition OP_NONCE : Z := 0x16.
Definition OP_RANDOM : Z := 0x1B.
Definition OP_SHA : Z := 0x47.
Definition OP_LOCK : Z := 0x17.
Definition OP_GEN_KEY : Z := 0x40.
Definition OP_SIGN : Z := 0x41.
Definition OP_WRITE : Z := 0x12.

(** Maximum execution times, in milliseconds. *)
Definition EXEC_TIME : list (Z * Z) :=
  [ (OP_COUNTER, 20); (OP_INFO, 1); (OP_NONCE, 7); (OP_RANDOM, 23);
    (OP_SHA, 47); (OP_LOCK, 32); (OP_GEN_KEY, 115); (OP_SIGN, 70);
    (OP_WRITE, 26) ].

(** [time.sleep(EXEC_TIME[op] / 1000)] *)
Definition exec_sleep (op : Z) : M unit :=
  match snd <$> list_find (fun kv => fst kv = op) EXEC_TIME with
  | Some (_, ms) => time_sleep ms
  | None => raise KeyError
  end.

(** The fields of an [ATECC] object other than the bus handle. *)
(** The labels of the debug output: the two lines that show bytes start
    with a tab ([print("\tSending:", ...)], [print("\tReceived: ", ...)]). *)
Definition TAB : Ascii.ascii := Ascii.ascii_of_nat 9.
Definition SENDING : string := String TAB "Sending:".
Definition RECEIVED : string := String TAB "Received: ".

Record ATECC : Type := Device {
  _debug : bool;
  _address : Z
}.

Section Methods.
Variable self : ATECC.

(** [wakeup]: the write is expected to fail; every exception is
    swallowed. *)
Definition wakeup : M unit :=
  try_except (bus (WriteByteData 0x00 0 0x00) ;;; ret tt)
             (fun _ => Some (ret tt)) ;;;
  time_sleep 1.

Definition idle : M unit :=
  bus (WriteByteData (_address self) 0 0x02) ;;;
  time_sleep 1.

Definition sleep : M unit :=
  bus (WriteByteData (_address self) 0 0x01) ;;;
  time_sleep 1.

(** The loop [for i, cmd in enumerate(data): command_packet[6 + i] = cmd]. *)
Fixpoint fill_data (command_packet : list Z) (items : list (Z * Z))
  : result (list Z) :=
  match items with
  | [] => Ok command_packet
  | (i, cmd) :: rest =>
      let+ command_packet := setitem command_packet (6 + i) cmd in
      fill_data command_packet rest
  end.

(** The assembling part of [_send_command]: the value of
    [command_packet] when it is handed to the bus. *)
Definition command_packet (opcode param_1 param_2 : Z) (data : list Z)
  : result (list Z) :=
  let command_packet := bytearray (8 + len data) in
  let+ command_packet := setitem command_packet 0 0x03 in
  let+ command_packet := setitem command_packet 1 (len command_packet - 1) in
  let+ command_packet := setitem command_packet 2 opcode in
  let+ command_packet := setitem command_packet 3 param_1 in
  let+ command_packet := setitem command_packet 4 (Z.land param_2 0xFF) in
  let+ command_packet := setitem command_packet 5 (Z.shiftr param_2 8) in
  let+ command_packet := fill_data command_packet (enumerate data) in
  let crc := _at_crc (slice command_packet 1 (-2)) None in
  let+ command_packet := setitem command_packet (-1) (Z.shiftr crc 8) in
  let+ command_packet := setitem command_packet (-2) (Z.land crc 0xFF) in
  Ok command_packet.

(** [_send_command(opcode, param_1, param_2=0x00, data="")] *)
Definition _send_command (opcode param_1 param_2 : Z) (data : list Z)
  : M unit :=
  let* command_packet := lift (command_packet opcode param_1 param_2 data) in
  (if _debug self
   then print "Command Packet Sz: " [len command_packet] ;;;
        print SENDING command_packet
   else ret tt) ;;;
  wakeup ;;;
  bus (I2cWrite (_address self) command_packet) ;;;
  time_sleep 1.

(** The polling loop of [_get_response]: [for _ in range(retries)]
    with its [break], its [except OSError: pass] and its [else]. *)
Fixpoint poll (length : Z) (attempts : list Z) : M (list Z) :=
  match attempts with
  | [] => raise (RuntimeError "Failed to read data from chip")
  | _ :: rest =>
      try_except (bus (I2cRead (_address self) (length + 3)))
                 (fun e => match e with
                           | OSError => Some (poll length rest)
                           | _ => None
                           end)
  end.

(** The validating part of [_get_response], after the loop. *)
Definition check_response (response : list Z) : result (list Z) :=
  let+ lo := getitem response (-2) in
  let+ hi := getitem response (-1) in
  let crc := Z.lor lo (Z.shiftl hi 8) in
  let crc2 := _at_crc (slice response 0 (-2)) None in
  if negb (crc =? crc2) then Err (RuntimeError "CRC Mismatch")
  else Ok (slice response 1 (-2)).

(** [_get_response(length, retries=20)] *)
Definition _get_response (length retries : Z) : M (list Z) :=
  wakeup ;;;
  let* response := poll length (range retries) in
  (if _debug self then print RECEIVED response else ret tt) ;;;
  lift (check_response response).

Definition default_retries : Z := 20.

(** [counter(counter=0, increment_counter=True)] *)
Definition counter (counter : Z) (increment_counter : bool) : M (list Z) :=
  let counter := 0x00 in
  wakeup ;;;
  let counter := if counter =? 1 then 0x01 else counter in
  (if increment_counter
   then _send_command OP_COUNTER 0x01 counter []
   else _send_command OP_COUNTER 0x00 counter []) ;;;
  exec_sleep OP_COUNTER ;;;
  let* count := _get_response 4 default_retries in
  idle ;;;
  ret count.

(** The [while data_len:] loop of [_random]; [fuel] bounds the number
    of iterations, and [len data] iterations are always enough. *)
Fixpoint random_loop (fuel : nat) (data : list Z) (data_len : Z)
  : M (list Z) :=
  match fuel with
  | O => ret data
  | S fuel =>
      if data_len =? 0 then ret data
      else
        _send_command OP_RANDOM 0x00 0x0000 [] ;;;
        exec_sleep OP_RANDOM ;;;
        let* resp := _get_response 32 default_retries in
        let copy_len := Z.min 32 data_len in
        let data := slice resp 0 copy_len in
        let data_len := data_len - copy_len in
        random_loop fuel data data_len
  end.

(** [_random(data)] *)
Definition _random (data : list Z) : M (list Z) :=
  wakeup ;;;
  let data_len := len data in
  let* data := random_loop (length data) data data_len in
  idle ;;;
  ret data.

(** [random(rnd_min=0, rnd_max=0)] *)
Definition random (rnd_min rnd_max : Z) : M Z :=
  let rnd_min := if negb (rnd_max =? 0) then 0 else rnd_min in
  if rnd_min >=? rnd_max then ret rnd_min
  else
    let delta := rnd_max - rnd_min in
    let r := bytearray 16 in
    let* r := _random r in
    let* data :=
      lift (fold_left
              (fun acc i => let+ data := acc in
                            let+ x := getitem r (fst i) in
                            Ok (data + x))
              (enumerate r) (Ok 0)) in
    let data := if data <? 0 then - data else data in
    let data := data mod delta in
    ret (data + rnd_min).

(** The argument of [sha_digest]: [None], an object with an [append]
    method (a bytearray), a [bytes] object, or an integer. *)
Inductive message : Type :=
| MNone
| MByteArray (b : list Z)
| MBytes (b : list Z)
| MInt (n : Z).

Definition hasattr_append (m : message) : bool :=
  match m with MByteArray _ => true | _ => false end.

Definition is_not_None (m : message) : bool :=
  match m with MNone => false | _ => true end.

(** [pack("B", message)]: one unsigned byte from an integer. *)
Definition pack_B (m : message) : result message :=
  match m with
  | MInt n => if (0 <=? n) && (n <=? 255) then Ok (MBytes [n])
              else Err StructError
  | _ => Err StructError
  end.

(** Truth value and bytes of a message. *)
Definition message_bytes (m : message) : list Z :=
  match m with
  | MByteArray b | MBytes b => b
  | _ => []
  end.

Definition message_truthy (m : message) : bool :=
  match m with
  | MNone => false
  | MByteArray b | MBytes b => truthy b
  | MInt n => negb (n =? 0)
  end.

(** [sha_digest(message=None)] *)
Definition sha_digest (message : message) : M (list Z) :=
  let* message :=
    if negb (hasattr_append message) && is_not_None message
    then lift (pack_B message)
    else ret message in
  wakeup ;;;
  (if message_truthy message
   then _send_command OP_SHA 0x02 (len (message_bytes message))
                      (message_bytes message)
   else _send_command OP_SHA 0x02 0x00 []) ;;;
  exec_sleep OP_SHA ;;;
  let* digest := _get_response 32 default_retries in
  (if negb (len digest =? 32)
   then raise (AssertionError
                 "SHA response length does not match expected length.")
   else ret tt) ;;;
  idle ;;;
  ret digest.

(** [_write(zone, address, buffer)] *)
Definition _write (zone address : Z) (buffer : list Z) : M unit :=
  wakeup ;;;
  (if negb ((len buffer =? 4) || (len buffer =? 32))
   then raise (RuntimeError "Only 4 or 32-byte writes supported.")
   else ret tt) ;;;
  let zone := if len buffer =? 32 then Z.lor zone 0x80 else zone in
  _send_command 0x12 zone address buffer ;;;
  time_sleep 26 ;;;
  let* status := _get_response 1 default_retries in
  idle.

(** The loop of [write_config] over its offsets. *)
Fixpoint write_words (data : list Z) (offsets : list Z) : M unit :=
  match offsets with
  | [] => ret tt
  | i :: rest =>
      (if i =? 84 then ret tt
       else _write 0 (i / 4) (slice data i (i + 4))) ;;;
      write_words data rest
  end.

(** [write_config(data)] *)
Definition write_config (data : list Z) : M unit :=
  write_words data (range3 16 128 4).

End Methods.

End Driver.

(** ** Wire formats and the schedule of configuration writes *)
Module Wire.
Import Bus Buffer Checksum Driver.

(** The bytes the checksum of a command covers: the count byte, the
    opcode, the parameters and the data. *)
Definition command_body (opcode param_1 param_2 : Z) (data : list Z) : list Z :=
  (7 + len data) :: opcode :: param_1 ::
  Z.land param_2 0xFF :: Z.shiftr param_2 8 :: data.

(** The command packet on the wire. *)
Definition wire_packet (opcode param_1 param_2 : Z) (data : list Z) : list Z :=
  let crc := _at_crc (command_body opcode param_1 param_2 data) None in
  0x03 :: command_body opcode param_1 param_2 data ++
    [Z.land crc 0xFF; Z.shiftr crc 8].



(** The final chunk [sha_digest] sends for its argument. *)
Definition final_chunk (m : message) : list Z :=
  match m with
  | MNone => []
  | MByteArray b | MBytes b => b
  | MInt n => [n]
  end.

(** The arguments [sha_digest] accepts: [None], a bytearray that fits a
    packet, or an integer that fits a byte. *)
Definition accepted (m : message) : Prop :=
  match m with
  | MNone => True
  | MByteArray b => Forall is_byte b /\ len b <= 248
  | MInt n => is_byte n
  | MBytes _ => False
  end.

Definition sum_bytes (l : list Z) : Z := foldr Z.add 0 l.

(** The range [random] draws from once [rnd_min] has been forced. *)
Definition effective_min (rnd_min rnd_max : Z) : Z :=
  if rnd_max =? 0 then rnd_min else 0.

(** A response carrying [payload] behind the count byte, with the
    checksum [_at_crc] gives, low byte first. *)
Definition framed (payload : list Z) : list Z :=
  let body := (len payload + 3) :: payload in
  let crc := _at_crc body None in
  body ++ [Z.land crc 0xFF; Z.shiftr crc 8].

(** The debug output of [_send_command]. *)
Definition send_prints (self : ATECC) (pkt : list Z) : list event :=
  if _debug self
  then [Print "Command Packet Sz: " [len pkt]; Print SENDING pkt]
  else [].

(** The events of [_send_command] up to and with the bus write. *)
Definition send_events (self : ATECC) (pkt : list Z) : list event :=
  send_prints self pkt ++
  [WriteByteData 0x00 0 0x00; Sleep 1; I2cWrite (_address self) pkt].

(** Operations that put no command packet on the bus. *)
Definition quiet {A} (m : M A) : Prop :=
  forall w, packets (trace (snd (m w))) = packets (trace w)
            /\ env (snd (m w)) = env w.

(** The events of one exchange that reads a response at the first
    attempt: the command, the wait, the read. *)
Definition exchange_events (self : ATECC) (pkt : list Z) (ms length : Z)
           (response : list Z) : list event :=
  (send_events self pkt ++ [Sleep 1]) ++ [Sleep ms] ++
  [WriteByteData 0x00 0 0x00; Sleep 1] ++
  replicate 1 (I2cRead (_address self) (length + 3)) ++
  (if _debug self then [Print RECEIVED response] else []).

(** [sha_digest] from the wake-up on, for the chunk it sends. *)
Definition sha_tail (self : ATECC) (chunk : list Z) : M (list Z) :=
  wakeup ;;;
  _send_command self OP_SHA 0x02 (len chunk) chunk ;;;
  exec_sleep OP_SHA ;;;
  let* digest := _get_response self 32 default_retries in
  (if negb (len digest =? 32)
   then raise (AssertionError
                 "SHA response length does not match expected length.")
   else ret tt) ;;;
  idle self ;;;
  ret digest.

(** Whatever a run returns satisfies [P]; a run may also raise. *)
Definition returns_only {A} (P : A -> Prop) (m : M A) : Prop :=
  forall w, match fst (m w) with Ok a => P a | Err _ => True end.


(** The words a list of offsets asks for lie inside the buffer. *)
Definition in_buffer (data : list Z) (i : Z) : Prop :=
  0 <= i /\ i + 4 <= len data /\ i / 4 < 2 ^ 16.

(** A device on the default address and a transport that answers every
    bus operation with the same bytes. *)
Definition device : ATECC := Device false _REG_ATECC_DEVICE_ADDR.

Definition steady (answer : list Z) : world :=
  World [] 0 (fun _ => Done answer).

(** A transport on which every bus operation fails with [OSError]. *)
Definition dead : world := World [] 0 (fun _ => Raise OSError).


(** The events of the idle call when the transport takes its write. *)
Definition idle_events (self : ATECC) : list event :=
  [WriteByteData (_address self) 0 0x02; Sleep 1].

End Wire.

(** ** Text helpers of the serial number *)
Module Text.
Import Bus Buffer.

(** [bytes(l)]: every item must be a byte. *)
Definition to_bytes (l : list Z) : result (list Z) :=
  if forallb (fun v => (0 <=? v) && (v <? 256)) l then Ok l else Err ValueError.

Definition hexdigit (n : Z) : Ascii.ascii :=
  match String.get (Z.to_nat n) "0123456789abcdef" with
  | Some c => c
  | None => "0"%char
  end.

(** [str(hexlify(b), "utf-8")]: two lowercase hexadecimal digits for each
    byte, the high one first. *)
Fixpoint hexlify (b : list Z) : string :=
  match b with
  | [] => EmptyString
  | x :: b' => String (hexdigit (x / 16)) (String (hexdigit (x mod 16)) (hexlify b'))
  end.

Definition upper_char (c : Ascii.ascii) : Ascii.ascii :=
  let n := Ascii.nat_of_ascii c in
  if (97 <=? n)%nat && (n <=? 122)%nat then Ascii.ascii_of_nat (n - 32) else c.

(** [s.upper()] on ASCII text. *)
Fixpoint upper (s : string) : string :=
  match s with
  | EmptyString => EmptyString
  | String c s' => String (upper_char c) (upper s')
  end.

(** The value of an uppercase hexadecimal digit. *)
Definition digit_value (c : Ascii.ascii) : option Z :=
  let n := Z.of_nat (Ascii.nat_of_ascii c) in
  if (48 <=? n) && (n <=? 57) then Some (n - 48)
  else if (65 <=? n) && (n <=? 70) then Some (n - 55)
  else None.

(** Reading a string of uppercase hexadecimal digit pairs back as bytes. *)
Fixpoint unhex (s : string) : option (list Z) :=
  match s with
  | EmptyString => Some []
  | String hi (String lo s') =>
      match digit_value hi, digit_value lo, unhex s' with
      | Some h, Some l, Some rest => Some (16 * h + l :: rest)
      | _, _, _ => None
      end
  | String _ EmptyString => None
  end.

End Text.

(** ** The driver: the other operations *)
Module Operations.
Import Bus Buffer Checksum Driver Text.

(** [assert cond, msg] *)
Definition assert_ (cond : bool) (msg : string) : M unit :=
  if cond then ret tt else raise (AssertionError msg).

Section Methods.
Variable self : ATECC.

(** [lock(zone)] *)
Definition lock (zone : Z) : M unit :=
  wakeup ;;;
  _send_command self 0x17 (Z.lor 0x80 zone) 0x0000 [] ;;;
  exec_sleep OP_LOCK ;;;
  let* res := _get_response self 1 default_retries in
  let* res0 := lift (getitem res 0) in
  assert_ (res0 =? 0x00) "Failed locking ATECC!" ;;;
  idle self.

(** [lock_all_zones()] *)
Definition lock_all_zones : M unit :=
  lock 0 ;;;
  lock 1.

(** [info(mode, param=None)]; [not param] holds for [None] and for 0. *)
Definition info (mode : Z) (param : option Z) : M (list Z) :=
  wakeup ;;;
  (if match param with None => true | Some p => p =? 0 end
   then _send_command self OP_INFO mode 0x00 []
   else _send_command self OP_INFO mode (default 0 param) []) ;;;
  exec_sleep OP_INFO ;;;
  let* info_out := _get_response self 4 default_retries in
  idle self ;;;
  ret info_out.

(** [nonce(data, mode=0, zero=0x0000)] *)
Definition nonce (data : list Z) (mode zero : Z) : M (list Z) :=
  wakeup ;;;
  let* calculated_nonce_len :=
    if (mode =? 0x00) || (mode =? 0x01) then
      (if zero =? 0x00
       then assert_ (len data =? 20) "Data value must be 20 bytes long."
       else ret tt) ;;;
      _send_command self OP_NONCE mode zero data ;;;
      ret 32
    else if mode =? 0x03 then
      assert_ (len data =? 32) "Data value must be 32 bytes long." ;;;
      _send_command self OP_NONCE mode zero data ;;;
      ret 1
    else raise (RuntimeError "Invalid mode specified!") in
  exec_sleep OP_NONCE ;;;
  let* calculated_nonce := _get_response self calculated_nonce_len default_retries in
  time_sleep 1 ;;;
  (if mode =? 0x03
   then let* c0 := lift (getitem calculated_nonce 0) in
        assert_ (c0 =? 0x00) "Incorrectly calculated nonce in pass-thru mode"
   else ret tt) ;;;
  idle self ;;;
  ret calculated_nonce.

(** [sha_start()] *)
Definition sha_start : M (list Z) :=
  wakeup ;;;
  _send_command self OP_SHA 0x00 0x00 [] ;;;
  exec_sleep OP_SHA ;;;
  let* status := _get_response self 1 default_retries in
  let* status0 := lift (getitem status 0) in
  assert_ (status0 =? 0x00) "Error during sha_start." ;;;
  idle self ;;;
  ret status.

(** [sha_update(message)] *)
Definition sha_update (message : list Z) : M (list Z) :=
  wakeup ;;;
  _send_command self OP_SHA 0x01 64 message ;;;
  exec_sleep OP_SHA ;;;
  let* status := _get_response self 1 default_retries in
  let* status0 := lift (getitem status 0) in
  assert_ (status0 =? 0x00) "Error during SHA Update" ;;;
  idle self ;;;
  ret status.

(** [gen_key(slot_num, private_key=False)] *)
Definition gen_key (slot_num : Z) (private_key : bool) : M (list Z) :=
  assert_ ((0 <=? slot_num) && (slot_num <=? 4))
          "Provided slot must be between 0 and 4." ;;;
  wakeup ;;;
  (if private_key
   then _send_command self OP_GEN_KEY 0x04 slot_num []
   else _send_command self OP_GEN_KEY 0x00 slot_num []) ;;;
  exec_sleep OP_GEN_KEY ;;;
  let* key := _get_response self 64 default_retries in
  time_sleep 1 ;;;
  idle self ;;;
  ret key.

(** [sign(slot_id)] *)
Definition sign (slot_id : Z) : M (list Z) :=
  wakeup ;;;
  _send_command self 0x41 0x80 slot_id [] ;;;
  exec_sleep OP_SIGN ;;;
  let* signature := _get_response self 64 default_retries in
  idle self ;;;
  ret signature.

(** [ecdsa_sign(slot, message)] *)
Definition ecdsa_sign (slot : Z) (message : list Z) : M (list Z) :=
  nonce message 0x03 0x0000 ;;;
  let* sig := sign slot in
  ret sig.

(** [_read(zone, address, length)] *)
Definition _read (zone address length : Z) : M (list Z) :=
  wakeup ;;;
  (if negb ((length =? 4) || (length =? 32))
   then raise (RuntimeError "Only 4 and 32 byte reads supported")
   else ret tt) ;;;
  let zone := if length =? 32 then Z.lor zone 0x80 else zone in
  _send_command self 2 zone address [] ;;;
  time_sleep 5 ;;;
  let* buffer := _get_response self length default_retries in
  time_sleep 1 ;;;
  idle self ;;;
  ret buffer.

(** The property [locked]; [and] evaluates [config[3]] only when
    [config[2]] is 0. *)
Definition locked : M bool :=
  let* config := _read 0x00 0x15 4 in
  time_sleep 1 ;;;
  let* c2 := lift (getitem config 2) in
  if c2 =? 0x0
  then let* c3 := lift (getitem config 3) in ret (c3 =? 0x00)
  else ret false.

(** The property [serial_number]. *)
Definition serial_number : M string :=
  let* serial_num := _read 0 0x00 4 in
  time_sleep 1 ;;;
  let* part := _read 0 0x02 4 in
  let serial_num := serial_num ++ part in
  time_sleep 1 ;;;
  let* part := _read 0 0x03 4 in
  let serial_num := serial_num ++ slice part 0 1 in
  time_sleep 1 ;;;
  let* raw := lift (to_bytes serial_num) in
  let serial_num := hexlify raw in
  let serial_num := upper serial_num in
  ret serial_num.

(** The property [version]. *)
Definition version : M Z :=
  wakeup ;;;
  idle self ;;;
  let* vers := info 0x00 None in
  let* v2 := lift (getitem vers 2) in
  let* v3 := lift (getitem vers 3) in
  ret (Z.lor (Z.shiftl v2 8) v3).

End Methods.

Definition _ATECC_508_VER : Z := 0x50.
Definition _ATECC_608_VER : Z := 0x60.

(** [ATECC.__init__(i2c_no, address, debug)], on the bus that
    [SMBus(i2c_no)] has opened: the world. *)
Definition __init__ (address : Z) (debug : bool) : M ATECC :=
  let self := Device debug address in
  wakeup ;;;
  let* v := version self in
  if negb ((Z.shiftr v 8 =? _ATECC_508_VER) || (Z.shiftr v 8 =? _ATECC_608_VER))
  then raise (RuntimeError
                "Failed to find 608 or 508 chip. Please check your wiring.")
  else ret self.

End Operations.

(** ** Statement-level definitions for the other operations *)
Module Frames.
Import Bus Buffer Checksum Driver Wire Text Operations.

(** The arguments [_send_command] can put in a packet. *)
Definition valid_command (opcode param_1 param_2 : Z) (data : list Z) : Prop :=
  is_byte opcode /\ is_byte param_1 /\ 0 <= param_2 < 2 ^ 16 /\
  Forall is_byte data /\ len data <= 248.

(** The byte test of [bytearray] item assignment. *)
Definition byte_b (v : Z) : bool := (0 <=? v) && (v <? 256).

(** The events of the wake-up probe. *)
Definition probe : list event := [WriteByteData 0x00 0 0x00; Sleep 1].

(** A buffer with bit [k] of its item [i] flipped. *)
Definition flip_bit (data : list Z) (i : nat) (k : Z) : list Z :=
  match data !! i with
  | Some b => <[i := Z.lxor b (2 ^ k)]> data
  | None => data
  end.

(** The transport takes the [n]-th bus operation from now. *)
Definition takes (w : world) (n : nat) : Prop :=
  exists d, env w (n + tick w)%nat = Done d.

(** The transport answers the [n]-th bus operation from now with [r]. *)
Definition answers (w : world) (n : nat) (r : list Z) : Prop :=
  env w (n + tick w)%nat = Done r.

(** The Lock command for a zone. *)
Definition lock_packet (zone : Z) : list Z :=
  wire_packet 0x17 (Z.lor 0x80 zone) 0 [].

(** The bytes a status response carries for status [st]. *)
Definition status_response (st : Z) : list Z := framed [st].

End Frames.

(** ** Checksum proofs *)
Module ChecksumProofs.
Import Checksum.

Lemma range_8 : range 8 = [0; 1; 2; 3; 4; 5; 6; 7].
Proof. reflexivity. Qed.

Lemma land_single_bit (b s : Z) :
  0 <= s -> (Z.land b (Z.shiftl 1 s) =? 0) = negb (Z.testbit b s).
Proof.
  intros Hs. rewrite Z.shiftl_1_l.
  destruct (Z.testbit b s) eqn:Hb; simpl.
  - apply Z.eqb_neq. intros H0.
    assert (Hbit : Z.testbit (Z.land b (2 ^ s)) s = true).
    { rewrite Z.land_spec, Hb, Z.pow2_bits_true by lia. reflexivity. }
    rewrite H0, Z.bits_0 in Hbit. discriminate.
  - apply Z.eqb_eq, Z.bits_inj'. intros n Hn.
    rewrite Z.land_spec, Z.bits_0, Z.pow2_bits_eqb by lia.
    destruct (Z.eqb_spec s n) as [->|]; [rewrite Hb|]; auto using andb_false_r.
Qed.

Lemma crc_bit_testbit (crc : Z) :
  Z.land (Z.shiftr crc 15) 1 = Z.b2z (Z.testbit crc 15).
Proof.
  change 1 with (Z.ones 1). rewrite Z.land_ones by lia.
  change (2 ^ 1) with 2. rewrite <- Z.bit0_mod, Z.shiftr_spec by lia.
  reflexivity.
Qed.

Lemma mask16_small (x : Z) : 0 <= x < 2 ^ 16 -> Z.land x 0xFFFF = x.
Proof.
  intros Hx. change 0xFFFF with (Z.ones 16).
  rewrite Z.land_ones by lia. apply Z.mod_small. exact Hx.
Qed.

Lemma lxor_16bit (x y : Z) :
  0 <= x < 2 ^ 16 -> 0 <= y < 2 ^ 16 -> 0 <= Z.lxor x y < 2 ^ 16.
Proof.
  intros Hx Hy.
  assert (Hnn : 0 <= Z.lxor x y) by (apply Z.lxor_nonneg; lia).
  split; [exact Hnn|].
  destruct (Z.eq_dec (Z.lxor x y) 0) as [->|Hne]; [lia|].
  apply Z.log2_lt_pow2; [lia|].
  eapply Z.le_lt_trans; [apply Z.log2_lxor; lia|].
  destruct (Z.eq_dec x 0) as [->|]; destruct (Z.eq_dec y 0) as [->|];
    simpl; try lia.
  - apply Z.max_lub_lt; [simpl; lia|]. apply Z.log2_lt_pow2; lia.
  - apply Z.max_lub_lt; [|simpl; lia]. apply Z.log2_lt_pow2; lia.
  - apply Z.max_lub_lt; apply Z.log2_lt_pow2; lia.
Qed.

Lemma reference_bit_range (acc : Z) (bit : bool) :
  0 <= reference_bit acc bit < 2 ^ 16.
Proof.
  unfold reference_bit.
  assert (H : 0 <= Z.shiftl acc 1 mod 2 ^ 16 < 2 ^ 16)
    by (apply Z.mod_pos_bound; lia).
  destruct (xorb _ _); [apply lxor_16bit; [exact H | lia] | exact H].
Qed.

Lemma crc_shift_reference (b crc s : Z) :
  0 <= s -> crc_shift b crc s = reference_bit crc (Z.testbit b s).
Proof.
  intros Hs. unfold crc_shift, reference_bit, polynom.
  rewrite land_single_bit, crc_bit_testbit by exact Hs.
  change 0xFFFF with (Z.ones 16). rewrite !Z.land_ones by lia.
  assert (H : 0 <= Z.shiftl crc 1 mod 2 ^ 16 < 2 ^ 16)
    by (apply Z.mod_pos_bound; lia).
  destruct (Z.testbit b s), (Z.testbit crc 15); simpl; try reflexivity.
  - apply Z.mod_small, lxor_16bit; [exact H | lia].
  - apply Z.mod_small, lxor_16bit; [exact H | lia].
Qed.

Lemma crc_byte_reference (crc b : Z) :
  crc_byte crc b = fold_left reference_bit (bits_lsb_first b) crc.
Proof.
  unfold crc_byte. rewrite range_8. unfold bits_lsb_first. simpl.
  rewrite !crc_shift_reference by lia. reflexivity.
Qed.

Lemma fold_crc_reference (data : list Z) (crc : Z) :
  fold_left crc_byte data crc =
  fold_left reference_bit (data ≫= bits_lsb_first) crc.
Proof.
  revert crc. induction data as [|b data IH]; intros crc; [reflexivity|].
  cbn [fold_left]. rewrite bind_cons, fold_left_app, IH, crc_byte_reference.
  reflexivity.
Qed.

Lemma fold_reference_range (bits : list bool) (acc : Z) :
  0 <= acc < 2 ^ 16 -> 0 <= fold_left reference_bit bits acc < 2 ^ 16.
Proof.
  revert acc. induction bits as [|bit bits IH]; intros acc Hacc; [exact Hacc|].
  simpl. apply IH, reference_bit_range.
Qed.

Lemma reference_checksum_range (data : list Z) :
  0 <= reference_checksum data < 2 ^ 16.
Proof. apply fold_reference_range. lia. Qed.

Lemma at_crc_reference (data : list Z) :
  _at_crc data None = reference_checksum data.
Proof.
  unfold _at_crc. destruct data as [|b data]; [reflexivity|].
  cbn [truthy negb orb List.length].
  destruct (Z.eqb_spec (Z.of_nat (S (List.length data))) 0) as [H0|_]; [lia|].
  rewrite fold_crc_reference. apply mask16_small.
  apply (reference_checksum_range (b :: data)).
Qed.

Lemma at_crc_range (data : list Z) (len : option Z) :
  0 <= _at_crc data len < 2 ^ 16.
Proof.
  unfold _at_crc. destruct (_ || _); [lia|].
  change 0xFFFF with (Z.ones 16). rewrite Z.land_ones by lia.
  apply Z.mod_pos_bound. lia.
Qed.

(** C1: for every byte sequence [_at_crc] is the reference bit-serial
    checksum (accumulator 0, bits of each byte least significant first,
    shift left masked to 16 bits, XOR of 0x8005 exactly when bit 15 of
    the accumulator before the shift differs from the data bit); the
    result is a 16-bit value, the empty input gives 0, and the result is
    a function of the input bytes alone. *)
Theorem at_crc_is_reference_checksum :
  (forall data : list Z, _at_crc data None = reference_checksum data) /\
  (forall data : list Z, 0 <= _at_crc data None < 2 ^ 16) /\
  _at_crc [] None = 0 /\
  (forall d1 d2 : list Z, d1 = d2 -> _at_crc d1 None = _at_crc d2 None).
Proof.
  split; [exact at_crc_reference|].
  split; [intros data; apply at_crc_range|].
  split; [reflexivity|].
  intros d1 d2 ->. reflexivity.
Qed.

Lemma at_crc_is_reference_checksum_witness :
  _at_crc [0x07; 0x30; 0; 0; 0] None
  = reference_checksum [0x07; 0x30; 0; 0; 0] /\
  _at_crc [0x07; 0x30; 0; 0; 0] None = _at_crc [0x07; 0x30; 0; 0; 0] None.
Proof.
  destruct at_crc_is_reference_checksum as (Href & _ & _ & Hsame).
  split; [apply Href | apply Hsame; reflexivity].
Defined.

End ChecksumProofs.

(** ** Byte buffer lemmas *)
Module BufferProofs.
Import Bus Buffer.

Lemma len_app {A} (l k : list A) : len (l ++ k) = len l + len k.
Proof. unfold len. rewrite length_app. lia. Qed.

Lemma len_cons {A} (x : A) (l : list A) : len (x :: l) = 1 + len l.
Proof. unfold len. cbn [length]. lia. Qed.

Lemma len_nonneg {A} (l : list A) : 0 <= len l.
Proof. unfold len. lia. Qed.

Lemma is_byte_test (v : Z) :
  is_byte v -> negb ((0 <=? v) && (v <? 256)) = false.
Proof.
  intros [H0 H1]. apply negb_false_iff, andb_true_iff.
  split; [apply Z.leb_le | apply Z.ltb_lt]; lia.
Qed.

(** Writing a byte right after a prefix [l]. *)
Lemma setitem_at_length (l : list Z) (old v : Z) (k : list Z) :
  is_byte v -> setitem (l ++ old :: k) (len l) v = Ok (l ++ v :: k).
Proof.
  intros Hv. unfold setitem. rewrite (is_byte_test v Hv).
  pose proof (len_nonneg l) as Hl.
  destruct (Z.ltb_spec (len l) 0) as [?|_]; [lia|].
  rewrite len_app, len_cons.
  pose proof (len_nonneg k) as Hk.
  destruct (Z.leb_spec 0 (len l)) as [_|?]; [|lia].
  destruct (Z.ltb_spec (len l) (len l + (1 + len k))) as [_|?]; [|lia].
  cbn [andb negb]. f_equal. unfold len. rewrite Nat2Z.id.
  rewrite insert_app_r_alt by lia.
  rewrite Nat.sub_diag. reflexivity.
Qed.

Lemma setitem_nonneg (l : list Z) (i v : Z) :
  is_byte v -> 0 <= i < len l -> setitem l i v = Ok (<[Z.to_nat i := v]> l).
Proof.
  intros Hv Hi. unfold setitem. rewrite (is_byte_test v Hv).
  destruct (Z.ltb_spec i 0) as [?|_]; [lia|].
  destruct (Z.leb_spec 0 i) as [_|?]; [|lia].
  destruct (Z.ltb_spec i (len l)) as [_|?]; [|lia].
  reflexivity.
Qed.

Lemma setitem_last (l : list Z) (a b v : Z) :
  is_byte v -> setitem (l ++ [a; b]) (-1) v = Ok (l ++ [a; v]).
Proof.
  intros Hv. unfold setitem. rewrite (is_byte_test v Hv).
  cbn [Z.ltb Z.compare]. rewrite len_app.
  pose proof (len_nonneg l) as Hl. change (len [a; b]) with 2.
  destruct (Z.leb_spec 0 (-1 + (len l + 2))) as [_|?]; [|lia].
  destruct (Z.ltb_spec (-1 + (len l + 2)) (len l + 2)) as [_|?]; [|lia].
  cbn [andb negb]. f_equal.
  replace (Z.to_nat (-1 + (len l + 2))) with (length l + 1)%nat
    by (unfold len; lia).
  rewrite insert_app_r. reflexivity.
Qed.

Lemma setitem_last_but_one (l : list Z) (a b v : Z) :
  is_byte v -> setitem (l ++ [a; b]) (-2) v = Ok (l ++ [v; b]).
Proof.
  intros Hv. unfold setitem. rewrite (is_byte_test v Hv).
  cbn [Z.ltb Z.compare]. rewrite len_app.
  pose proof (len_nonneg l) as Hl. change (len [a; b]) with 2.
  destruct (Z.leb_spec 0 (-2 + (len l + 2))) as [_|?]; [|lia].
  destruct (Z.ltb_spec (-2 + (len l + 2)) (len l + 2)) as [_|?]; [|lia].
  cbn [andb negb]. f_equal.
  replace (Z.to_nat (-2 + (len l + 2))) with (length l + 0)%nat
    by (unfold len; lia).
  rewrite insert_app_r. reflexivity.
Qed.

Lemma getitem_last (l : list Z) (a b : Z) : getitem (l ++ [a; b]) (-1) = Ok b.
Proof.
  unfold getitem. cbn [Z.ltb Z.compare]. rewrite len_app.
  pose proof (len_nonneg l) as Hl. change (len [a; b]) with 2.
  destruct (Z.leb_spec 0 (-1 + (len l + 2))) as [_|?]; [|lia].
  destruct (Z.ltb_spec (-1 + (len l + 2)) (len l + 2)) as [_|?]; [|lia].
  cbn [andb negb].
  replace (Z.to_nat (-1 + (len l + 2))) with (length l + 1)%nat
    by (unfold len; lia).
  rewrite lookup_app_r by lia.
  replace (length l + 1 - length l)%nat with 1%nat by lia. reflexivity.
Qed.

Lemma getitem_last_but_one (l : list Z) (a b : Z) :
  getitem (l ++ [a; b]) (-2) = Ok a.
Proof.
  unfold getitem. cbn [Z.ltb Z.compare]. rewrite len_app.
  pose proof (len_nonneg l) as Hl. change (len [a; b]) with 2.
  destruct (Z.leb_spec 0 (-2 + (len l + 2))) as [_|?]; [|lia].
  destruct (Z.ltb_spec (-2 + (len l + 2)) (len l + 2)) as [_|?]; [|lia].
  cbn [andb negb].
  replace (Z.to_nat (-2 + (len l + 2))) with (length l + 0)%nat
    by (unfold len; lia).
  rewrite lookup_app_r by lia.
  replace (length l + 0 - length l)%nat with 0%nat by lia. reflexivity.
Qed.

(** A buffer too short to hold a checksum has no last-but-one item. *)
Lemma getitem_short (l : list Z) :
  (length l < 2)%nat -> getitem l (-2) = Err IndexError.
Proof.
  intros Hl. unfold getitem. cbn [Z.ltb Z.compare].
  destruct (Z.leb_spec 0 (-2 + len l)) as [H|_]; [unfold len in H; lia|].
  reflexivity.
Qed.

(** [l[0:-2]] drops a two-byte trailer. *)
Lemma slice_drop_trailer {A} (l : list A) (a b : A) :
  slice (l ++ [a; b]) 0 (-2) = l.
Proof.
  unfold slice, clamp. cbn [Z.ltb Z.compare]. rewrite len_app.
  pose proof (len_nonneg l) as Hl. change (len [a; b]) with 2.
  rewrite (Z.min_r (len l + 2) 0), Z.max_id by lia.
  rewrite (Z.min_r (len l + 2) (-2 + (len l + 2))) by lia.
  rewrite Z.max_r by lia. cbn [Z.to_nat drop].
  replace (Z.to_nat (-2 + (len l + 2) - 0)) with (length l)
    by (unfold len; lia).
  apply take_app_length.
Qed.

(** [l[1:-2]] drops the first byte and a two-byte trailer. *)
Lemma slice_inner {A} (x : A) (l : list A) (a b : A) :
  slice (x :: l ++ [a; b]) 1 (-2) = l.
Proof.
  unfold slice, clamp. cbn [Z.ltb Z.compare]. rewrite len_cons, len_app.
  pose proof (len_nonneg l) as Hl. change (len [a; b]) with 2.
  rewrite (Z.min_r (1 + (len l + 2)) 1), (Z.max_r 0 1) by lia.
  rewrite (Z.min_r (1 + (len l + 2)) (-2 + (1 + (len l + 2)))) by lia.
  rewrite Z.max_r by lia.
  change (Z.to_nat 1) with 1%nat. cbn [drop].
  replace (Z.to_nat (-2 + (1 + (len l + 2)) - 1)) with (length l)
    by (unfold len; lia).
  apply take_app_length.
Qed.

(** [l[1:-2]] of a response without a first byte is empty. *)
Lemma slice_inner_nil {A} (a b : A) : slice [a; b] 1 (-2) = [].
Proof. reflexivity. Qed.

Lemma split_trailer {A} (l : list A) :
  (2 <= length l)%nat -> exists body a b, l = body ++ [a; b].
Proof.
  intros Hl. exists (take (length l - 2) l).
  destruct (drop (length l - 2) l) as [|a [|b [|c rest]]] eqn:Hd.
  - apply (f_equal length) in Hd. rewrite length_drop in Hd. simpl in Hd. lia.
  - apply (f_equal length) in Hd. rewrite length_drop in Hd. simpl in Hd. lia.
  - exists a, b. rewrite <- Hd. symmetry. apply take_drop.
  - apply (f_equal length) in Hd. rewrite length_drop in Hd. simpl in Hd. lia.
Qed.

End BufferProofs.

(** ** PacketFramer: the command packet and the response check *)
Module FramingProofs.
Import Bus Buffer Checksum Driver Wire BufferProofs ChecksumProofs.

Lemma low_byte_is_byte (x : Z) : is_byte (Z.land x 0xFF).
Proof.
  unfold is_byte. change 0xFF with (Z.ones 8).
  rewrite Z.land_ones by lia. apply Z.mod_pos_bound. lia.
Qed.

Lemma high_byte_is_byte (x : Z) : 0 <= x < 2 ^ 16 -> is_byte (Z.shiftr x 8).
Proof.
  intros Hx. unfold is_byte. rewrite Z.shiftr_div_pow2 by lia.
  change (2 ^ 8) with 256. change (2 ^ 16) with 65536 in Hx.
  split; [apply Z.div_pos; lia | apply Z.div_lt_upper_bound; lia].
Qed.

Lemma fill_data_spec (data prefix tail : list Z) :
  Forall is_byte data ->
  fill_data (prefix ++ replicate (length data) 0 ++ tail)
            (enumerate_from (len prefix - 6) data)
  = Ok (prefix ++ data ++ tail).
Proof.
  revert prefix. induction data as [|x data IH]; intros prefix Hdata.
  - reflexivity.
  - inversion Hdata as [|? ? Hx Hrest]; subst.
    cbn [enumerate_from fill_data length replicate].
    replace (6 + (len prefix - 6)) with (len prefix) by lia.
    rewrite <- app_comm_cons, setitem_at_length by exact Hx.
    cbn [rbind].
    replace (len prefix - 6 + 1) with (len (prefix ++ [x]) - 6)
      by (rewrite len_app; change (len [x]) with 1; lia).
    change (prefix ++ x :: replicate (length data) 0 ++ tail)
      with (prefix ++ [x] ++ replicate (length data) 0 ++ tail).
    rewrite (app_assoc prefix [x]), IH by exact Hrest.
    rewrite <- app_assoc. reflexivity.
Qed.

Lemma bytearray_8 (data : list Z) :
  bytearray (8 + len data) =
  [0; 0; 0; 0; 0; 0] ++ replicate (length data) 0 ++ [0; 0].
Proof.
  unfold bytearray, len.
  replace (Z.to_nat (8 + Z.of_nat (length data))) with (6 + (length data + 2))%nat
    by lia.
  rewrite !replicate_add. reflexivity.
Qed.

Lemma command_packet_layout (opcode param_1 param_2 : Z) (data : list Z) :
  is_byte opcode -> is_byte param_1 -> 0 <= param_2 < 2 ^ 16 ->
  Forall is_byte data -> len data <= 248 ->
  command_packet opcode param_1 param_2 data
  = Ok (wire_packet opcode param_1 param_2 data).
Proof.
  intros Hop Hp1 Hp2 Hdata Hlen.
  pose proof (len_nonneg data) as Hnn.
  assert (Hcount : is_byte (7 + len data)) by (unfold is_byte; lia).
  assert (Hlo : is_byte (Z.land param_2 0xFF)) by apply low_byte_is_byte.
  assert (Hhi : is_byte (Z.shiftr param_2 8)) by (apply high_byte_is_byte; lia).
  unfold command_packet. rewrite bytearray_8.
  set (rest := replicate (length data) 0 ++ [0; 0]).
  assert (Hfull : forall a b c d e f : Z,
             len (a :: b :: c :: d :: e :: f :: rest) = 8 + len data).
  { intros. unfold rest, len. cbn [length].
    rewrite length_app, length_replicate. cbn [length]. lia. }
  cbn [app].
  rewrite setitem_nonneg by (rewrite ?Hfull; unfold is_byte; lia).
  cbn [rbind]. change (<[Z.to_nat 0:=0x03]> (0 :: 0 :: 0 :: 0 :: 0 :: 0 :: rest))
    with (0x03 :: 0 :: 0 :: 0 :: 0 :: 0 :: rest).
  rewrite Hfull. replace (8 + len data - 1) with (7 + len data) by lia.
  rewrite setitem_nonneg by (rewrite ?Hfull; unfold is_byte; lia).
  cbn [rbind].
  change (<[Z.to_nat 1:=7 + len data]> (0x03 :: 0 :: 0 :: 0 :: 0 :: 0 :: rest))
    with (0x03 :: 7 + len data :: 0 :: 0 :: 0 :: 0 :: rest).
  rewrite setitem_nonneg by (rewrite ?Hfull; unfold is_byte in *; lia).
  cbn [rbind].
  change (<[Z.to_nat 2:=opcode]> (0x03 :: 7 + len data :: 0 :: 0 :: 0 :: 0 :: rest))
    with (0x03 :: 7 + len data :: opcode :: 0 :: 0 :: 0 :: rest).
  rewrite setitem_nonneg by (rewrite ?Hfull; unfold is_byte in *; lia).
  cbn [rbind].
  change (<[Z.to_nat 3:=param_1]>
            (0x03 :: 7 + len data :: opcode :: 0 :: 0 :: 0 :: rest))
    with (0x03 :: 7 + len data :: opcode :: param_1 :: 0 :: 0 :: rest).
  rewrite setitem_nonneg by (rewrite ?Hfull; unfold is_byte in *; lia).
  cbn [rbind].
  change (<[Z.to_nat 4:=Z.land param_2 0xFF]>
            (0x03 :: 7 + len data :: opcode :: param_1 :: 0 :: 0 :: rest))
    with (0x03 :: 7 + len data :: opcode :: param_1 ::
          Z.land param_2 0xFF :: 0 :: rest).
  rewrite setitem_nonneg by (rewrite ?Hfull; unfold is_byte in *; lia).
  cbn [rbind].
  change (<[Z.to_nat 5:=Z.shiftr param_2 8]>
            (0x03 :: 7 + len data :: opcode :: param_1 ::
             Z.land param_2 0xFF :: 0 :: rest))
    with (0x03 :: 7 + len data :: opcode :: param_1 ::
          Z.land param_2 0xFF :: Z.shiftr param_2 8 :: rest).
  unfold rest, enumerate.
  set (prefix := [0x03; 7 + len data; opcode; param_1;
                  Z.land param_2 0xFF; Z.shiftr param_2 8]).
  change (0x03 :: 7 + len data :: opcode :: param_1 :: Z.land param_2 0xFF ::
          Z.shiftr param_2 8 :: replicate (length data) 0 ++ [0; 0])
    with (prefix ++ replicate (length data) 0 ++ [0; 0]).
  change 0 with (len prefix - 6) at 1.
  rewrite fill_data_spec by exact Hdata.
  cbn [rbind].
  change (prefix ++ data ++ [0; 0])
    with (0x03 :: command_body opcode param_1 param_2 data ++ [0; 0]).
  rewrite slice_inner.
  set (crc := _at_crc (command_body opcode param_1 param_2 data) None).
  assert (Hcrc : 0 <= crc < 2 ^ 16) by apply at_crc_range.
  change (0x03 :: command_body opcode param_1 param_2 data ++ [0; 0])
    with ((0x03 :: command_body opcode param_1 param_2 data) ++ [0; 0]).
  rewrite setitem_last by (apply high_byte_is_byte; exact Hcrc).
  cbn [rbind].
  rewrite setitem_last_but_one by apply low_byte_is_byte.
  reflexivity.
Qed.

(** What [check_response] computes on a response with a trailer. *)
Lemma check_response_trailer (body : list Z) (lo hi : Z) :
  check_response (body ++ [lo; hi]) =
  if negb (Z.lor lo (Z.shiftl hi 8) =? _at_crc body None)
  then Err (RuntimeError "CRC Mismatch")
  else Ok (drop 1 body).
Proof.
  unfold check_response.
  rewrite getitem_last_but_one, getitem_last. cbn [rbind].
  rewrite slice_drop_trailer.
  destruct (negb _); [reflexivity|]. f_equal.
  destruct body as [|x body]; [reflexivity|].
  rewrite <- app_comm_cons, slice_inner. reflexivity.
Qed.

(** Two bytes are the little-endian halves of a 16-bit value exactly
    when they combine to it. *)
Lemma combine_bytes (lo hi crc : Z) :
  is_byte lo -> is_byte hi -> 0 <= crc < 2 ^ 16 ->
  Z.lor lo (Z.shiftl hi 8) = crc <->
  lo = Z.land crc 0xFF /\ hi = Z.shiftr crc 8.
Proof.
  unfold is_byte. intros Hlo Hhi Hcrc.
  assert (Hland : Z.land lo (hi * 2 ^ 8) = 0).
  { apply Z.bits_inj'. intros n Hn. rewrite Z.land_spec, Z.bits_0.
    destruct (Z.ltb_spec n 8).
    - rewrite Z.mul_pow2_bits_low by lia. apply andb_false_r.
    - destruct (Z.eq_dec lo 0) as [->|Hne]; [rewrite Z.bits_0; reflexivity|].
      rewrite (Z.bits_above_log2 lo n); [reflexivity|lia|].
      apply Z.lt_le_trans with 8; [|lia].
      apply Z.log2_lt_pow2; lia. }
  assert (Hor : Z.lor lo (Z.shiftl hi 8) = lo + 256 * hi).
  { rewrite Z.shiftl_mul_pow2 by lia.
    rewrite <- (Z.lxor_lor _ _ Hland), <- (Z.add_nocarry_lxor _ _ Hland).
    change (2 ^ 8) with 256. lia. }
  rewrite Hor. change 0xFF with (Z.ones 8).
  rewrite Z.land_ones, Z.shiftr_div_pow2 by lia. change (2 ^ 8) with 256.
  change (2 ^ 16) with 65536 in Hcrc.
  split.
  - intros <-. split.
    + apply (Z.mod_unique _ _ hi); [left; lia | lia].
    + apply (Z.div_unique _ _ _ lo); [left; lia | lia].
  - intros [-> ->]. rewrite Z.add_comm. symmetry. apply Z.div_mod. lia.
Qed.

End FramingProofs.

(** ** Running the driver's effects *)
Module RunProofs.
Import Bus Buffer Checksum Driver Wire BufferProofs ChecksumProofs FramingProofs.

Lemma bind_ok {A B} (m : M A) (k : A -> M B) (w w' : world) (a : A) :
  m w = (Ok a, w') -> bind m k w = k a w'.
Proof. intros H. unfold bind. rewrite H. reflexivity. Qed.

Lemma bind_err {A B} (m : M A) (k : A -> M B) (w w' : world) (e : exn) :
  m w = (Err e, w') -> bind m k w = (Err e, w').
Proof. intros H. unfold bind. rewrite H. reflexivity. Qed.

Lemma after_after (w : world) (e1 e2 : list event) (k1 k2 : nat) :
  after (after w e1 k1) e2 k2 = after w (e1 ++ e2) (k2 + k1).
Proof.
  unfold after. cbn [trace tick env]. rewrite <- app_assoc.
  f_equal. lia.
Qed.

Lemma after_nil (w : world) : after w [] 0 = w.
Proof. destruct w. unfold after. cbn. rewrite app_nil_r. reflexivity. Qed.

Lemma packets_app (t1 t2 : list event) :
  packets (t1 ++ t2) = packets t1 ++ packets t2.
Proof. apply omap_app. Qed.

Lemma reads_app (t1 t2 : list event) : reads (t1 ++ t2) = reads t1 ++ reads t2.
Proof. apply List.filter_app. Qed.

Lemma time_sleep_run (ms : Z) (w : world) :
  time_sleep ms w = (Ok tt, after w [Sleep ms] 0).
Proof. reflexivity. Qed.

Lemma bus_run (e : event) (w : world) :
  bus e w =
  (match env w (tick w) with Done d => Ok d | Raise x => Err x end,
   after w [e] 1).
Proof. unfold bus, after. destruct (env w (tick w)); reflexivity. Qed.

(** The wake-up probe never fails, whatever the transport answers. *)
Lemma wakeup_run (w : world) :
  wakeup w = (Ok tt, after w [WriteByteData 0x00 0 0x00; Sleep 1] 1).
Proof.
  unfold wakeup, bind, try_except. rewrite bus_run.
  destruct (env w (tick w)); cbn; unfold after, time_sleep, log; cbn;
    rewrite <- app_assoc; reflexivity.
Qed.

Lemma idle_ok (self : ATECC) (w : world) (d : list Z) :
  env w (tick w) = Done d ->
  idle self w = (Ok tt, after w [WriteByteData (_address self) 0 0x02; Sleep 1] 1).
Proof.
  intros H. unfold idle, bind. rewrite bus_run, H, time_sleep_run, after_after.
  reflexivity.
Qed.

Lemma exec_sleep_run (op ms : Z) (w : world) :
  In (op, ms) [(OP_COUNTER, 20); (OP_RANDOM, 23); (OP_SHA, 47)] ->
  exec_sleep op w = (Ok tt, after w [Sleep ms] 0).
Proof.
  intros [H|[H|[H|[]]]]; inversion H; subst; reflexivity.
Qed.

Lemma send_command_run (self : ATECC) (op p1 p2 : Z) (data pkt : list Z)
      (w : world) :
  command_packet op p1 p2 data = Ok pkt ->
  _send_command self op p1 p2 data w =
  match env w (S (tick w)) with
  | Done _ => (Ok tt, after w (send_events self pkt ++ [Sleep 1]) 2)
  | Raise x => (Err x, after w (send_events self pkt) 2)
  end.
Proof.
  intros Hpkt. unfold _send_command, lift, send_events, send_prints.
  rewrite Hpkt.
  assert (Hprints :
    (if _debug self
     then print "Command Packet Sz: " [len pkt];;; print SENDING pkt
     else ret tt) w =
    (Ok tt, after w (if _debug self
                     then [Print "Command Packet Sz: " [len pkt];
                           Print SENDING pkt]
                     else []) 0)).
  { destruct (_debug self).
    - unfold bind, print, log, after. cbn. rewrite <- app_assoc. reflexivity.
    - unfold ret. rewrite after_nil. reflexivity. }
  rewrite (bind_ok _ _ w w pkt) by reflexivity.
  rewrite (bind_ok _ _ _ _ _ Hprints).
  rewrite (bind_ok _ _ _ _ _ (wakeup_run _)), after_after.
  unfold bind at 1. rewrite bus_run, after_after.
  cbn [after env tick Nat.add].
  destruct (env w (S (tick w))).
  - rewrite time_sleep_run. unfold after. cbn [trace tick env].
    rewrite <- !app_assoc. reflexivity.
  - unfold after. cbn [trace tick env]. rewrite <- !app_assoc. reflexivity.
Qed.

Lemma send_command_refused (self : ATECC) (op p1 p2 : Z) (data : list Z)
      (e : exn) (w : world) :
  command_packet op p1 p2 data = Err e ->
  _send_command self op p1 p2 data w = (Err e, w).
Proof.
  intros Hpkt. unfold _send_command, lift. rewrite Hpkt. reflexivity.
Qed.

(** Whatever the transport does, a command whose packet assembles puts
    exactly that packet on the bus. *)
Lemma send_command_packets (self : ATECC) (op p1 p2 : Z) (data pkt : list Z)
      (w : world) :
  command_packet op p1 p2 data = Ok pkt ->
  packets (trace (snd (_send_command self op p1 p2 data w)))
  = packets (trace w) ++ [pkt]
  /\ env (snd (_send_command self op p1 p2 data w)) = env w.
Proof.
  intros Hpkt. rewrite (send_command_run _ _ _ _ _ _ _ Hpkt).
  assert (Hev : packets (send_events self pkt) = [pkt]).
  { unfold send_events, send_prints. destruct (_debug self); reflexivity. }
  destruct (env w (S (tick w))); cbn [snd after trace env];
    rewrite ?packets_app, Hev, ?app_nil_r; split; reflexivity.
Qed.

Lemma quiet_ret {A} (a : A) : quiet (ret a).
Proof. intros w. split; reflexivity. Qed.

Lemma quiet_raise {A} (e : exn) : quiet (@raise A e).
Proof. intros w. split; reflexivity. Qed.

Lemma quiet_lift {A} (r : result A) : quiet (lift r).
Proof. intros w. split; reflexivity. Qed.

Lemma quiet_log (e : event) :
  (forall a b, e <> I2cWrite a b) -> quiet (log e).
Proof.
  intros He w. unfold log. cbn [snd trace env]. rewrite packets_app.
  split; [|reflexivity].
  destruct e; try (cbn; apply app_nil_r). exfalso. eapply He. reflexivity.
Qed.

Lemma quiet_bus (e : event) :
  (forall a b, e <> I2cWrite a b) -> quiet (bus e).
Proof.
  intros He w. rewrite bus_run. cbn [snd after trace env]. rewrite packets_app.
  split; [|reflexivity].
  destruct e; try (cbn; apply app_nil_r). exfalso. eapply He. reflexivity.
Qed.

Lemma quiet_bind {A B} (m : M A) (k : A -> M B) :
  quiet m -> (forall a, quiet (k a)) -> quiet (bind m k).
Proof.
  intros Hm Hk w. unfold bind. destruct (Hm w) as [Hp He].
  destruct (m w) as [[a|e] w'] eqn:Hmw; cbn [snd] in *.
  - destruct (Hk a w') as [Hp' He']. rewrite Hp', He', Hp, He.
    split; reflexivity.
  - split; assumption.
Qed.

Lemma quiet_try {A} (m : M A) (h : exn -> option (M A)) :
  quiet m -> (forall e m', h e = Some m' -> quiet m') -> quiet (try_except m h).
Proof.
  intros Hm Hh w. unfold try_except. destruct (Hm w) as [Hp He].
  destruct (m w) as [[a|e] w'] eqn:Hmw; cbn [snd] in *.
  - split; assumption.
  - destruct (h e) as [m'|] eqn:Hhe.
    + destruct (Hh e m' Hhe w') as [Hp' He']. rewrite Hp', He', Hp, He.
      split; reflexivity.
    + split; assumption.
Qed.

Lemma quiet_wakeup : quiet wakeup.
Proof. intros w. rewrite wakeup_run. split; [|reflexivity]. cbn [snd after trace].
  rewrite packets_app. apply app_nil_r. Qed.

Lemma quiet_sleep (ms : Z) : quiet (time_sleep ms).
Proof. apply quiet_log. discriminate. Qed.

Lemma quiet_idle (self : ATECC) : quiet (idle self).
Proof.
  apply quiet_bind; [apply quiet_bus; discriminate|].
  intros _. apply quiet_sleep.
Qed.

Lemma quiet_poll (self : ATECC) (length : Z) (attempts : list Z) :
  quiet (poll self length attempts).
Proof.
  induction attempts as [|x rest IH]; cbn [poll].
  - apply quiet_raise.
  - apply quiet_try; [apply quiet_bus; discriminate|].
    intros e m'. destruct e; try discriminate.
    intros [= <-]. exact IH.
Qed.

Lemma quiet_get_response (self : ATECC) (length retries : Z) :
  quiet (_get_response self length retries).
Proof.
  unfold _get_response.
  apply quiet_bind; [apply quiet_wakeup|]. intros _.
  apply quiet_bind; [apply quiet_poll|]. intros response.
  apply quiet_bind; [|intros _; apply quiet_lift].
  destruct (_debug self); [apply quiet_log; discriminate | apply quiet_ret].
Qed.

(** A command followed by quiet operations puts its one packet on the
    bus, however the run ends. *)
Lemma send_then_quiet {B} (self : ATECC) (op p1 p2 : Z) (data pkt : list Z)
      (k : unit -> M B) (w : world) :
  command_packet op p1 p2 data = Ok pkt ->
  (forall u, quiet (k u)) ->
  packets (trace (snd (bind (_send_command self op p1 p2 data) k w)))
  = packets (trace w) ++ [pkt]
  /\ env (snd (bind (_send_command self op p1 p2 data) k w)) = env w.
Proof.
  intros Hpkt Hk. unfold bind.
  destruct (send_command_packets self op p1 p2 data pkt w Hpkt) as [Hp He].
  destruct (_send_command self op p1 p2 data w) as [[u|e] w'];
    cbn [snd] in *.
  - destruct (Hk u w') as [Hp' He']. rewrite Hp', He', Hp, He.
    split; reflexivity.
  - split; assumption.
Qed.

End RunProofs.

(** ** PacketFramer claims *)
Module FramingClaims.
Import Bus Buffer Checksum Driver Wire.
Import BufferProofs ChecksumProofs FramingProofs RunProofs.

(** C2 (as the code has it): for bytes [opcode] and [param_1], a 16-bit
    [param_2] and a payload of at most 248 bytes, [_send_command] hands
    the bus the packet: marker 0x03, count byte, opcode, param1, param2
    low byte, param2 high byte, the data, checksum low byte, checksum
    high byte; the checksum covers the count byte through the last data
    byte; the count byte is 1 (itself) + 4 (opcode, param1 and the two
    bytes of param2) + len(data) + 2 (checksum), that is every byte of
    the packet but the marker. *)
Theorem send_command_packet_layout
        (self : ATECC) (opcode param_1 param_2 : Z) (data : list Z) (w : world) :
  is_byte opcode -> is_byte param_1 -> 0 <= param_2 < 2 ^ 16 ->
  Forall is_byte data -> len data <= 248 ->
  let count := 1 + 4 + len data + 2 in
  let covered :=
    count :: opcode :: param_1 :: Z.land param_2 0xFF :: Z.shiftr param_2 8 ::
    data in
  let crc := _at_crc covered None in
  let pkt := 0x03 :: covered ++ [Z.land crc 0xFF; Z.shiftr crc 8] in
  command_packet opcode param_1 param_2 data = Ok pkt /\
  packets (trace (snd (_send_command self opcode param_1 param_2 data w)))
  = packets (trace w) ++ [pkt] /\
  pkt !! 1%nat = Some count /\
  count = len pkt - 1.
Proof.
  intros Hop Hp1 Hp2 Hdata Hlen count covered crc pkt.
  assert (Hpkt : command_packet opcode param_1 param_2 data = Ok pkt).
  { rewrite command_packet_layout by assumption.
    unfold wire_packet, command_body, pkt, crc, covered, count.
    replace (1 + 4 + len data + 2) with (7 + len data) by lia.
    reflexivity. }
  split; [exact Hpkt|].
  split; [apply (send_command_packets self _ _ _ _ _ w Hpkt)|].
  split; [reflexivity|].
  unfold pkt, covered, count, len. cbn [length].
  rewrite length_app. cbn [length]. lia.
Qed.

Lemma send_command_packet_layout_witness :
  command_packet 0x30 0 0 [] = Ok [0x03; 7; 0x30; 0; 0; 0; 0x03; 0x5D].
Proof.
  assert (Hb0 : is_byte 0) by (unfold is_byte; lia).
  assert (Hb : is_byte 0x30) by (unfold is_byte; lia).
  assert (Hp : 0 <= 0 < 2 ^ 16) by lia.
  assert (Hl : len ([] : list Z) <= 248) by (unfold len; simpl; lia).
  destruct (send_command_packet_layout device 0x30 0 0 [] (steady [])
              Hb Hb0 Hp (Forall_nil_2 is_byte) Hl) as [H _].
  exact H.
Defined.

(** C2 as worded fails: the count byte of a command without data is 7,
    not 3 + 0 + 2. *)
Lemma count_byte_is_not_five :
  exists pkt : list Z,
    command_packet 0x30 0 0 [] = Ok pkt /\
    pkt !! 1%nat = Some 7 /\
    7 <> 3 + len ([] : list Z) + 2.
Proof.
  exists [0x03; 7; 0x30; 0; 0; 0; 0x03; 0x5D].
  split; [reflexivity|]. split; [reflexivity|]. unfold len. simpl. lia.
Qed.

(** C3 (as the code has it): a response too short to hold a checksum
    has no item to compare; for every other response the checksum is
    recomputed over all bytes but the trailing two, the leading count
    byte included, and a checksum-mismatch error is raised exactly when
    it differs from the transmitted one (low byte, then high byte); a
    response of bytes whose last two are not the recomputed checksum is
    rejected whatever its payload, and an accepted response is returned
    without its leading byte and its trailing checksum. *)
Theorem check_response_validates (response : list Z) :
  ((length response < 2)%nat -> check_response response = Err IndexError) /\
  (forall (body : list Z) (lo hi : Z),
      response = body ++ [lo; hi] ->
      let crc2 := _at_crc body None in
      (check_response response = Err (RuntimeError "CRC Mismatch")
       <-> Z.lor lo (Z.shiftl hi 8) <> crc2) /\
      (Z.lor lo (Z.shiftl hi 8) = crc2 ->
       check_response response = Ok (drop 1 body)) /\
      (is_byte lo -> is_byte hi ->
       [lo; hi] <> [Z.land crc2 0xFF; Z.shiftr crc2 8] ->
       check_response response = Err (RuntimeError "CRC Mismatch")) /\
      (forall payload, check_response response = Ok payload ->
                       payload = slice response 1 (-2))).
Proof.
  split.
  - intros Hshort. unfold check_response.
    rewrite getitem_short by exact Hshort. reflexivity.
  - intros body lo hi -> crc2. rewrite check_response_trailer. fold crc2.
    destruct (Z.eqb_spec (Z.lor lo (Z.shiftl hi 8)) crc2) as [Heq|Hne];
      cbn [negb].
    + split; [split; [discriminate | intros H; contradiction]|].
      split; [reflexivity|].
      split.
      * intros Hlo Hhi Hbytes. exfalso. apply Hbytes.
        apply combine_bytes in Heq; [|assumption|assumption|apply at_crc_range].
        destruct Heq as [-> ->]. reflexivity.
      * intros payload [= <-]. destruct body as [|x body]; [reflexivity|].
        rewrite <- app_comm_cons, slice_inner. reflexivity.
    + split; [split; [intros _; exact Hne | reflexivity]|].
      split; [intros H; contradiction|].
      split; [reflexivity | discriminate].
Qed.

Lemma check_response_validates_witness :
  check_response [4; 0; 0x03; 0x40] = Ok [0] /\
  check_response [4; 0; 0x03; 0x41] = Err (RuntimeError "CRC Mismatch").
Proof.
  destruct (check_response_validates [4; 0; 0x03; 0x40]) as [_ Hgood].
  destruct (Hgood [4; 0] 0x03 0x40 eq_refl) as (_ & Hok & _).
  destruct (check_response_validates [4; 0; 0x03; 0x41]) as [_ Hbad].
  destruct (Hbad [4; 0] 0x03 0x41 eq_refl) as (_ & _ & Hrej & _).
  split.
  - apply Hok. reflexivity.
  - apply Hrej; [unfold is_byte; lia | unfold is_byte; lia | discriminate].
Defined.

(** C3 as worded fails: the response [4; 0; 0; 0] transmits the
    checksum of its bytes without the count byte and the trailer, and is
    rejected; [4; 0; 0x03; 0x40] does not, and is accepted. *)
Lemma count_byte_is_checksummed :
  Z.lor 0 (Z.shiftl 0 8) = _at_crc (slice [4; 0; 0; 0] 1 (-2)) None /\
  check_response [4; 0; 0; 0] = Err (RuntimeError "CRC Mismatch") /\
  Z.lor 0x03 (Z.shiftl 0x40 8) <> _at_crc (slice [4; 0; 0x03; 0x40] 1 (-2)) None /\
  check_response [4; 0; 0x03; 0x40] = Ok [0].
Proof.
  split; [reflexivity|]. split; [reflexivity|].
  split; [discriminate | reflexivity].
Qed.

End FramingClaims.

(** ** CommandExecutor: polling for the response *)
Module PollingProofs.
Import Bus Buffer Checksum Driver Wire.
Import BufferProofs ChecksumProofs FramingProofs RunProofs.

Lemma after_eq (w : world) (e1 e2 : list event) (k1 k2 : nat) :
  e1 = e2 -> k1 = k2 -> after w e1 k1 = after w e2 k2.
Proof. intros -> ->. reflexivity. Qed.

Lemma reads_replicate (n : nat) (addr len : Z) :
  reads (replicate n (I2cRead addr len)) = replicate n (I2cRead addr len).
Proof. induction n as [|n IH]; [reflexivity|]. cbn. f_equal. exact IH. Qed.

(** Every attempt fails with [OSError]: the loop runs out. *)
Lemma poll_exhausted (self : ATECC) (length : Z) (attempts : list Z) (w : world) :
  (forall k, (k < List.length attempts)%nat ->
             env w (k + tick w)%nat = Raise OSError) ->
  poll self length attempts w =
  (Err (RuntimeError "Failed to read data from chip"),
   after w (replicate (List.length attempts)
                      (I2cRead (_address self) (length + 3)))
         (List.length attempts)).
Proof.
  revert w. induction attempts as [|x rest IH]; intros w Hfail.
  - cbn [poll List.length replicate]. rewrite after_nil. reflexivity.
  - cbn [poll List.length replicate]. unfold try_except.
    assert (H0 := Hfail 0%nat ltac:(cbn; lia)). cbn [Nat.add] in H0.
    rewrite bus_run, H0.
    rewrite IH.
    + rewrite after_after. f_equal. apply after_eq; [reflexivity | lia].
    + intros k Hk. cbn [after env tick].
      replace (k + (1 + tick w))%nat with (S k + tick w)%nat by lia.
      apply Hfail. cbn. lia.
Qed.

(** Attempt [j] is the first that does not fail with [OSError]: its
    outcome ends the loop. *)
Lemma poll_settles (self : ATECC) (length : Z) (j : nat) (attempts : list Z)
      (w : world) (o : outcome) :
  (j < List.length attempts)%nat ->
  (forall k, (k < j)%nat -> env w (k + tick w)%nat = Raise OSError) ->
  env w (j + tick w)%nat = o -> o <> Raise OSError ->
  poll self length attempts w =
  (match o with Done d => Ok d | Raise e => Err e end,
   after w (replicate (S j) (I2cRead (_address self) (length + 3))) (S j)).
Proof.
  revert attempts w. induction j as [|j IH]; intros attempts w Hj Hfail Ho Hne.
  - destruct attempts as [|x rest]; [cbn in Hj; lia|].
    cbn [poll]. unfold try_except. rewrite bus_run.
    cbn [Nat.add] in Ho. rewrite Ho.
    destruct o as [d|e]; [reflexivity|].
    destruct e; try reflexivity. contradiction.
  - destruct attempts as [|x rest]; [cbn in Hj; lia|].
    cbn [poll]. unfold try_except.
    assert (H0 := Hfail 0%nat ltac:(lia)). cbn [Nat.add] in H0.
    rewrite bus_run, H0.
    rewrite (IH rest (after w [I2cRead (_address self) (length + 3)] 1)).
    + rewrite after_after. f_equal. apply after_eq; [reflexivity | lia].
    + cbn in Hj. lia.
    + intros k Hk. cbn [after env tick].
      replace (k + (1 + tick w))%nat with (S k + tick w)%nat by lia.
      apply Hfail. lia.
    + cbn [after env tick].
      replace (j + (1 + tick w))%nat with (S j + tick w)%nat by lia.
      exact Ho.
    + exact Hne.
Qed.

Lemma range_length (n : nat) : List.length (range (Z.of_nat n)) = n.
Proof.
  unfold range, range3. rewrite length_fmap, length_seq.
  replace ((Z.of_nat n - 0 + 1 - 1) / 1) with (Z.of_nat n)
    by (rewrite Z.div_1_r; lia).
  apply Nat2Z.id.
Qed.

(** The debug output of [_get_response]. *)
Lemma received_print_run (self : ATECC) (response : list Z) (w : world) :
  (if _debug self then print RECEIVED response else ret tt) w =
  (Ok tt, after w (if _debug self then [Print RECEIVED response] else []) 0).
Proof.
  destruct (_debug self); [reflexivity|].
  unfold ret. rewrite after_nil. reflexivity.
Qed.

Lemma reads_received (self : ATECC) (response : list Z) :
  reads (if _debug self then [Print RECEIVED response] else []) = [].
Proof. destruct (_debug self); reflexivity. Qed.

(** [_get_response] when attempt [j] settles the polling. *)
Lemma get_response_settles (self : ATECC) (length : Z) (retries j : nat)
      (w : world) (o : outcome) :
  (j < retries)%nat ->
  (forall k, (k < j)%nat -> env w (S k + tick w)%nat = Raise OSError) ->
  env w (S j + tick w)%nat = o -> o <> Raise OSError ->
  _get_response self length (Z.of_nat retries) w =
  match o with
  | Done d =>
      (check_response d,
       after w ([WriteByteData 0x00 0 0x00; Sleep 1] ++
                replicate (S j) (I2cRead (_address self) (length + 3)) ++
                (if _debug self then [Print RECEIVED d] else []))
             (S (S j)))
  | Raise e =>
      (Err e,
       after w ([WriteByteData 0x00 0 0x00; Sleep 1] ++
                replicate (S j) (I2cRead (_address self) (length + 3)))
             (S (S j)))
  end.
Proof.
  intros Hj Hfail Ho Hne. unfold _get_response.
  rewrite (bind_ok _ _ _ _ _ (wakeup_run w)).
  assert (Hpoll := poll_settles self length j (range (Z.of_nat retries))
                     (after w [WriteByteData 0x00 0 0x00; Sleep 1] 1) o).
  rewrite range_length in Hpoll. specialize (Hpoll Hj).
  cbn [after env tick] in Hpoll.
  assert (Hshift : forall k, (k + (1 + tick w))%nat = (S k + tick w)%nat)
    by (intros; lia).
  rewrite Hshift in Hpoll.
  specialize (Hpoll (fun k Hk => eq_trans (f_equal _ (Hshift k)) (Hfail k Hk))
                    Ho Hne).
  fold (after w [WriteByteData 0x00 0 0x00; Sleep 1] 1) in Hpoll.
  destruct o as [d|e].
  - rewrite (bind_ok _ _ _ _ _ Hpoll), after_after.
    rewrite (bind_ok _ _ _ _ _ (received_print_run self d _)), after_after.
    unfold lift. f_equal. apply after_eq; [|lia].
    rewrite <- app_assoc. reflexivity.
  - rewrite (bind_err _ _ _ _ _ Hpoll), after_after.
    f_equal. apply after_eq; [reflexivity | lia].
Qed.

(** [_get_response] when every attempt fails with [OSError]. *)
Lemma get_response_exhausted (self : ATECC) (length : Z) (retries : nat)
      (w : world) :
  (forall k, (k < retries)%nat -> env w (S k + tick w)%nat = Raise OSError) ->
  _get_response self length (Z.of_nat retries) w =
  (Err (RuntimeError "Failed to read data from chip"),
   after w ([WriteByteData 0x00 0 0x00; Sleep 1] ++
            replicate retries (I2cRead (_address self) (length + 3)))
         (S retries)).
Proof.
  intros Hfail. unfold _get_response.
  rewrite (bind_ok _ _ _ _ _ (wakeup_run w)).
  assert (Hpoll := poll_exhausted self length (range (Z.of_nat retries))
                     (after w [WriteByteData 0x00 0 0x00; Sleep 1] 1)).
  rewrite range_length in Hpoll.
  assert (Hshift : forall k, (k < retries)%nat ->
            env (after w [WriteByteData 0x00 0 0x00; Sleep 1] 1)
                (k + tick (after w [WriteByteData 0x00 0 0x00; Sleep 1] 1))%nat
            = Raise OSError).
  { intros k Hk. cbn [after env tick].
    replace (k + (1 + tick w))%nat with (S k + tick w)%nat by lia.
    apply Hfail, Hk. }
  rewrite (bind_err _ _ _ _ _ (Hpoll Hshift)).
  rewrite after_after. f_equal. apply after_eq; [reflexivity | lia].
Qed.

(** C9: [_get_response] with its default of 20 retries reads
    [length + 3] bytes at each attempt; an attempt that fails with
    [OSError] is followed by the next one; the first attempt that ends
    otherwise ends the polling, with the bytes read going to validation
    and any other exception propagating at once; when all 20 attempts
    fail with [OSError] the call raises the device-unresponsive error
    after exactly 20 reads. *)
Theorem get_response_polls_twenty_times (self : ATECC) (length : Z) (w : world) :
  let read := I2cRead (_address self) (length + 3) in
  let run := _get_response self length default_retries w in
  (forall (j : nat) (o : outcome),
      (j < 20)%nat ->
      (forall k, (k < j)%nat -> env w (S k + tick w)%nat = Raise OSError) ->
      env w (S j + tick w)%nat = o -> o <> Raise OSError ->
      fst run = match o with
                | Done d => check_response d
                | Raise e => Err e
                end /\
      reads (trace (snd run)) = reads (trace w) ++ replicate (S j) read) /\
  ((forall k, (k < 20)%nat -> env w (S k + tick w)%nat = Raise OSError) ->
   fst run = Err (RuntimeError "Failed to read data from chip") /\
   reads (trace (snd run)) = reads (trace w) ++ replicate 20 read).
Proof.
  intros read run. split.
  - intros j o Hj Hfail Ho Hne. unfold run.
    change default_retries with (Z.of_nat 20).
    rewrite (get_response_settles self length 20 j w o Hj Hfail Ho Hne).
    destruct o as [d|e]; cbn [fst snd after trace];
      rewrite !reads_app, ?reads_received, reads_replicate, ?app_nil_r;
      split; reflexivity.
  - intros Hfail. unfold run. change default_retries with (Z.of_nat 20).
    rewrite (get_response_exhausted self length 20 w Hfail).
    cbn [fst snd after trace]. rewrite !reads_app, reads_replicate.
    split; reflexivity.
Qed.

Lemma get_response_polls_twenty_times_witness :
  fst (_get_response device 4 default_retries dead)
  = Err (RuntimeError "Failed to read data from chip") /\
  reads (trace (snd (_get_response device 4 default_retries dead)))
  = replicate 20 (I2cRead _REG_ATECC_DEVICE_ADDR 7) /\
  fst (_get_response device 1 default_retries (steady [4; 0; 0x03; 0x40]))
  = Ok [0].
Proof.
  destruct (get_response_polls_twenty_times device 4 dead) as [_ Hdead].
  destruct (Hdead (fun k _ => eq_refl)) as [Hres Hreads].
  destruct (get_response_polls_twenty_times device 1 (steady [4; 0; 0x03; 0x40]))
    as [Hlive _].
  destruct (Hlive 0%nat (Done [4; 0; 0x03; 0x40]) ltac:(lia)
                  (fun k Hk => ltac:(lia)) eq_refl ltac:(discriminate))
    as [Hok _].
  split; [exact Hres|]. split; [exact Hreads | exact Hok].
Defined.

End PollingProofs.

(** ** DeviceOperations: random numbers and counters *)
Module OperationProofs.
Import Bus Buffer Checksum Driver Wire.
Import BufferProofs ChecksumProofs FramingProofs RunProofs PollingProofs.

(** One exchange on a transport that takes the command and answers the
    first read with [response]. *)
Lemma exchange_run {B} (self : ATECC) (op p1 p2 : Z) (data pkt : list Z)
      (opx ms length : Z) (k : list Z -> M B) (w : world)
      (d response : list Z) :
  command_packet op p1 p2 data = Ok pkt ->
  In (opx, ms) [(OP_COUNTER, 20); (OP_RANDOM, 23); (OP_SHA, 47)] ->
  env w (1 + tick w)%nat = Done d ->
  env w (3 + tick w)%nat = Done response ->
  bind (_send_command self op p1 p2 data)
       (fun _ => bind (exec_sleep opx)
                      (fun _ => bind (_get_response self length default_retries) k)) w
  = match check_response response with
    | Ok payload =>
        k payload (after w (exchange_events self pkt ms length response) 4)
    | Err e =>
        (Err e, after w (exchange_events self pkt ms length response) 4)
    end.
Proof.
  intros Hpkt Hms Hd Hresp.
  assert (Hsend := send_command_run self op p1 p2 data pkt w Hpkt).
  cbn [Nat.add] in Hd. rewrite Hd in Hsend.
  rewrite (bind_ok _ _ _ _ _ Hsend).
  rewrite (bind_ok _ _ _ _ _ (exec_sleep_run opx ms _ Hms)), after_after.
  cbn [Nat.add].
  assert (Hget := get_response_settles self length 20 0
                    (after w ((send_events self pkt ++ [Sleep 1]) ++ [Sleep ms]) 2)
                    (Done response) ltac:(lia) (fun k Hk => ltac:(lia))
                    Hresp ltac:(discriminate)).
  change (Z.of_nat 20) with default_retries in Hget.
  cbv beta iota in Hget. rewrite after_after in Hget.
  unfold exchange_events.
  replace (((send_events self pkt ++ [Sleep 1]) ++ [Sleep ms]) ++
           [WriteByteData 0 0 0; Sleep 1] ++
           replicate 1 (I2cRead (_address self) (length + 3)) ++
           (if _debug self then [Print RECEIVED response] else []))
    with ((send_events self pkt ++ [Sleep 1]) ++ [Sleep ms] ++
          [WriteByteData 0 0 0; Sleep 1] ++
          replicate 1 (I2cRead (_address self) (length + 3)) ++
          (if _debug self then [Print RECEIVED response] else []))
    in Hget by (rewrite <- !app_assoc; reflexivity).
  change (2 + 2)%nat with 4%nat in Hget.
  destruct (check_response response) as [payload|e] eqn:Hcheck.
  - apply (bind_ok _ _ _ _ _ Hget).
  - apply (bind_err _ _ _ _ _ Hget).
Qed.

(** One exchange with any settle delay between command and read. *)
Lemma exchange_with {B} (self : ATECC) (op p1 p2 : Z) (data pkt : list Z)
      (pause : M unit) (ms length : Z) (k : list Z -> M B) (w : world)
      (d response : list Z) :
  command_packet op p1 p2 data = Ok pkt ->
  (forall w', pause w' = (Ok tt, after w' [Sleep ms] 0)) ->
  env w (1 + tick w)%nat = Done d ->
  env w (3 + tick w)%nat = Done response ->
  bind (_send_command self op p1 p2 data)
       (fun _ => bind pause
                      (fun _ => bind (_get_response self length default_retries) k)) w
  = match check_response response with
    | Ok payload =>
        k payload (after w (exchange_events self pkt ms length response) 4)
    | Err e =>
        (Err e, after w (exchange_events self pkt ms length response) 4)
    end.
Proof.
  intros Hpkt Hpause Hd Hresp.
  assert (Hsend := send_command_run self op p1 p2 data pkt w Hpkt).
  cbn [Nat.add] in Hd. rewrite Hd in Hsend.
  rewrite (bind_ok _ _ _ _ _ Hsend).
  rewrite (bind_ok _ _ _ _ _ (Hpause _)), after_after.
  cbn [Nat.add].
  assert (Hget := get_response_settles self length 20 0
                    (after w ((send_events self pkt ++ [Sleep 1]) ++ [Sleep ms]) 2)
                    (Done response) ltac:(lia) (fun k Hk => ltac:(lia))
                    Hresp ltac:(discriminate)).
  change (Z.of_nat 20) with default_retries in Hget.
  cbv beta iota in Hget. rewrite after_after in Hget.
  unfold exchange_events.
  replace (((send_events self pkt ++ [Sleep 1]) ++ [Sleep ms]) ++
           [WriteByteData 0 0 0; Sleep 1] ++
           replicate 1 (I2cRead (_address self) (length + 3)) ++
           (if _debug self then [Print RECEIVED response] else []))
    with ((send_events self pkt ++ [Sleep 1]) ++ [Sleep ms] ++
          [WriteByteData 0 0 0; Sleep 1] ++
          replicate 1 (I2cRead (_address self) (length + 3)) ++
          (if _debug self then [Print RECEIVED response] else []))
    in Hget by (rewrite <- !app_assoc; reflexivity).
  change (2 + 2)%nat with 4%nat in Hget.
  destruct (check_response response) as [payload|e] eqn:Hcheck.
  - apply (bind_ok _ _ _ _ _ Hget).
  - apply (bind_err _ _ _ _ _ Hget).
Qed.

(** [_write] of a 4- or 32-byte buffer on a transport that takes the
    command, answers the first read with a valid response and takes the
    idle: the whole run. *)
Lemma write_run (self : ATECC) (zone address : Z) (buffer : list Z) (w : world)
      (d1 response payload d2 : list Z) :
  len buffer = 4 \/ len buffer = 32 -> Forall is_byte buffer ->
  is_byte (if len buffer =? 32 then Z.lor zone 0x80 else zone) ->
  0 <= address < 2 ^ 16 ->
  env w (2 + tick w)%nat = Done d1 ->
  env w (4 + tick w)%nat = Done response ->
  check_response response = Ok payload ->
  env w (5 + tick w)%nat = Done d2 ->
  _write self zone address buffer w =
  (Ok tt,
   after w ([WriteByteData 0x00 0 0x00; Sleep 1] ++
            exchange_events self
              (wire_packet 0x12 (if len buffer =? 32 then Z.lor zone 0x80 else zone)
                           address buffer) 26 1 response ++
            idle_events self) 6).
Proof.
  intros Hlen Hbytes Hzone Haddr Hd1 Hresp Hcheck Hd2. unfold _write.
  rewrite (bind_ok _ _ _ _ _ (wakeup_run w)).
  assert (Hguard : negb ((len buffer =? 4) || (len buffer =? 32)) = false)
    by (destruct Hlen as [-> | ->]; reflexivity).
  rewrite Hguard. rewrite (bind_ok _ _ _ _ tt eq_refl). cbv zeta.
  assert (Hpkt : command_packet 0x12
                   (if len buffer =? 32 then Z.lor zone 0x80 else zone)
                   address buffer
                 = Ok (wire_packet 0x12
                         (if len buffer =? 32 then Z.lor zone 0x80 else zone)
                         address buffer)).
  { apply command_packet_layout; try assumption; [unfold is_byte; lia|].
    destruct Hlen as [-> | ->]; lia. }
  rewrite (exchange_with self 0x12 _ address buffer _ (time_sleep 26) 26 1 _
             (after w [WriteByteData 0x00 0 0x00; Sleep 1] 1) d1 response
             Hpkt (time_sleep_run 26) Hd1 Hresp).
  rewrite Hcheck, after_after.
  set (W := after w _ _).
  assert (HW : env W (tick W) = Done d2) by exact Hd2.
  rewrite (idle_ok self W d2 HW). unfold W, idle_events.
  rewrite after_after, <- !app_assoc. reflexivity.
Qed.

Lemma packets_exchange (self : ATECC) (pkt : list Z) (ms length : Z)
      (response : list Z) :
  packets (exchange_events self pkt ms length response) = [pkt].
Proof.
  unfold exchange_events, send_events, send_prints.
  destruct (_debug self); reflexivity.
Qed.

Lemma reads_exchange (self : ATECC) (pkt : list Z) (ms length : Z)
      (response : list Z) :
  reads (exchange_events self pkt ms length response)
  = [I2cRead (_address self) (length + 3)].
Proof.
  unfold exchange_events, send_events, send_prints.
  destruct (_debug self); reflexivity.
Qed.

(** [l[0:k]] is the first [k] items. *)
Lemma slice_prefix {A} (l : list A) (k : Z) :
  0 <= k -> slice l 0 k = take (Z.to_nat k) l.
Proof.
  intros Hk. unfold slice, clamp. pose proof (len_nonneg l) as Hl.
  cbn [Z.ltb Z.compare]. rewrite (Z.min_r (len l) 0), Z.max_id by lia.
  destruct (Z.ltb_spec k 0) as [?|_]; [lia|].
  change (drop (Z.to_nat 0) l) with l. rewrite Z.sub_0_r, Z.max_r by lia.
  destruct (Z.le_ge_cases (len l) k) as [Hle|Hge].
  - rewrite Z.min_l by lia. unfold len in *. rewrite Nat2Z.id.
    rewrite firstn_all. symmetry. apply take_ge. lia.
  - rewrite Z.min_r by lia. reflexivity.
Qed.

(** [l[i:i+4]] inside the buffer is the four items from [i]. *)
Lemma slice_word {A} (l : list A) (i : Z) :
  0 <= i -> i + 4 <= len l ->
  slice l i (i + 4) = take 4 (drop (Z.to_nat i) l).
Proof.
  intros Hi Hlen. unfold slice, clamp.
  destruct (Z.ltb_spec i 0) as [?|_]; [lia|].
  destruct (Z.ltb_spec (i + 4) 0) as [?|_]; [lia|].
  rewrite (Z.min_r (len l) i), (Z.max_r 0 i) by lia.
  rewrite (Z.min_r (len l) (i + 4)), (Z.max_r 0 (i + 4)) by lia.
  replace (Z.to_nat (i + 4 - i)) with 4%nat by lia. reflexivity.
Qed.

Lemma getitem_at_length (l : list Z) (x : Z) (k : list Z) :
  getitem (l ++ x :: k) (len l) = Ok x.
Proof.
  unfold getitem. pose proof (len_nonneg l) as Hl. pose proof (len_nonneg k) as Hk.
  destruct (Z.ltb_spec (len l) 0) as [?|_]; [lia|].
  rewrite len_app, len_cons.
  destruct (Z.leb_spec 0 (len l)) as [_|?]; [|lia].
  destruct (Z.ltb_spec (len l) (len l + (1 + len k))) as [_|?]; [|lia].
  cbn [andb negb]. unfold len. rewrite Nat2Z.id.
  rewrite lookup_app_r by lia. rewrite Nat.sub_diag. reflexivity.
Qed.

(** The summing loop of [random]. *)
Lemma sum_loop (done rest : list Z) (acc : Z) :
  fold_left (fun acc i => let+ data := acc in
                          let+ x := getitem (done ++ rest) (fst i) in
                          Ok (data + x))
            (enumerate_from (len done) rest) (Ok acc)
  = Ok (acc + sum_bytes rest).
Proof.
  revert done acc. induction rest as [|x rest IH]; intros done acc.
  - cbn. f_equal. lia.
  - cbn [enumerate_from fold_left fst rbind].
    rewrite getitem_at_length. cbn [rbind].
    replace (len done + 1) with (len (done ++ [x]))
      by (rewrite len_app; reflexivity).
    change (done ++ x :: rest) with (done ++ [x] ++ rest).
    rewrite (app_assoc done [x] rest), IH.
    f_equal. cbn [sum_bytes foldr]. unfold sum_bytes. lia.
Qed.

Lemma sum_all (r : list Z) :
  fold_left (fun acc i => let+ data := acc in
                          let+ x := getitem r (fst i) in
                          Ok (data + x))
            (enumerate r) (Ok 0)
  = Ok (sum_bytes r).
Proof. exact (sum_loop [] r 0). Qed.

Lemma sum_bytes_nonneg (l : list Z) : Forall is_byte l -> 0 <= sum_bytes l.
Proof.
  induction 1 as [|x l Hx _ IH]; [cbn; lia|].
  cbn [sum_bytes foldr]. unfold sum_bytes in IH. unfold is_byte in Hx. lia.
Qed.

Lemma random_packet :
  command_packet OP_RANDOM 0x00 0x0000 [] = Ok (wire_packet OP_RANDOM 0 0 []).
Proof. reflexivity. Qed.

Lemma random_loop_step (self : ATECC) (fuel : nat) (data : list Z) (data_len : Z) :
  random_loop self (S fuel) data data_len =
  if data_len =? 0 then ret data
  else
    _send_command self OP_RANDOM 0x00 0x0000 [] ;;;
    exec_sleep OP_RANDOM ;;;
    let* resp := _get_response self 32 default_retries in
    random_loop self fuel (slice resp 0 (Z.min 32 data_len))
                (data_len - Z.min 32 data_len).
Proof. reflexivity. Qed.

Lemma random_loop_done (self : ATECC) (fuel : nat) (data : list Z) :
  random_loop self fuel data 0 = ret data.
Proof. destruct fuel; reflexivity. Qed.

(** [_random] for the 16-byte buffer [random] passes: one exchange. *)
Lemma random_block_run (self : ATECC) (w : world) (d1 response payload d2 : list Z) :
  env w (2 + tick w)%nat = Done d1 ->
  env w (4 + tick w)%nat = Done response ->
  check_response response = Ok payload ->
  env w (5 + tick w)%nat = Done d2 ->
  _random self (bytearray 16) w =
  (Ok (take 16 payload),
   after w ([WriteByteData 0x00 0 0x00; Sleep 1] ++
            exchange_events self (wire_packet OP_RANDOM 0 0 []) 23 32 response ++
            [WriteByteData (_address self) 0 0x02; Sleep 1]) 6).
Proof.
  intros Hd1 Hresp Hcheck Hd2. unfold _random.
  rewrite (bind_ok _ _ _ _ _ (wakeup_run w)).
  change (length (bytearray 16)) with 16%nat.
  change (len (bytearray 16)) with 16.
  erewrite (bind_ok (random_loop _ _ _ _)).
  2:{ rewrite random_loop_step. change (16 =? 0) with false. cbv iota.
      rewrite (exchange_run self OP_RANDOM 0 0 [] _ OP_RANDOM 23 32 _
                 (after w [WriteByteData 0x00 0 0x00; Sleep 1] 1) d1 response
                 random_packet ltac:(cbn; auto) Hd1 Hresp).
      rewrite Hcheck. change (Z.min 32 16) with 16.
      change (16 - 16) with 0. rewrite random_loop_done.
      unfold ret. reflexivity. }
  rewrite after_after.
  erewrite (bind_ok (idle self)); [|eapply idle_ok; exact Hd2].
  rewrite after_after, slice_prefix by lia. unfold ret.
  rewrite <- app_assoc. reflexivity.
Qed.

End OperationProofs.

(** ** DeviceOperations claims: random *)
Module RandomClaims.
Import Bus Buffer Checksum Driver Wire.
Import BufferProofs ChecksumProofs FramingProofs RunProofs PollingProofs.
Import OperationProofs.

Lemma bind_ext {A B} (m : M A) (k1 k2 : A -> M B) (w : world) :
  (forall a w', k1 a w' = k2 a w') -> bind m k1 w = bind m k2 w.
Proof.
  intros Hk. unfold bind. destruct (m w) as [[a|e] w']; [apply Hk | reflexivity].
Qed.

(** The fuel of the [while] loop of [_random] is never used up: one
    more unit changes nothing once it covers the bytes still wanted. *)
Lemma random_loop_fuel (self : ATECC) (fuel : nat) (data : list Z)
      (data_len : Z) (w : world) :
  0 <= data_len <= Z.of_nat fuel ->
  random_loop self fuel data data_len w
  = random_loop self (S fuel) data data_len w.
Proof.
  revert data data_len w. induction fuel as [|fuel IH]; intros data data_len w H.
  - replace data_len with 0 by lia. rewrite !random_loop_done. reflexivity.
  - rewrite (random_loop_step self (S fuel)), (random_loop_step self fuel).
    destruct (Z.eqb_spec data_len 0) as [_|Hne]; [reflexivity|].
    apply bind_ext. intros _ w1. apply bind_ext. intros _ w2.
    apply bind_ext. intros resp w3. apply IH. lia.
Qed.

Lemma random_start (self : ATECC) (rnd_min rnd_max : Z) :
  random self rnd_min rnd_max =
  let lo := effective_min rnd_min rnd_max in
  if lo >=? rnd_max then ret lo
  else
    let* r := _random self (bytearray 16) in
    let* data :=
      lift (fold_left
              (fun acc i => let+ data := acc in
                            let+ x := getitem r (fst i) in
                            Ok (data + x))
              (enumerate r) (Ok 0)) in
    let data := if data <? 0 then - data else data in
    ret (data mod (rnd_max - lo) + lo).
Proof.
  unfold random, effective_min. destruct (rnd_max =? 0); reflexivity.
Qed.




(** C5 (as the code has it): with [lo] the forced [rnd_min] (0 when
    [rnd_max] is nonzero) and [lo < rnd_max], on a transport that takes
    the command and answers the first read with a valid response,
    [random] sends one Random command, reads one 35-byte response, sums
    the first 16 bytes of its 32-byte payload as exact integers, reduces
    the sum modulo [rnd_max - lo] and adds [lo]. *)
Theorem random_sum_mod (self : ATECC) (rnd_min rnd_max : Z) (w : world)
        (d1 response payload d2 : list Z) :
  let lo := effective_min rnd_min rnd_max in
  let run := random self rnd_min rnd_max w in
  lo < rnd_max ->
  env w (2 + tick w)%nat = Done d1 ->
  env w (4 + tick w)%nat = Done response ->
  check_response response = Ok payload ->
  Forall is_byte payload ->
  env w (5 + tick w)%nat = Done d2 ->
  fst run = Ok (sum_bytes (take 16 payload) mod (rnd_max - lo) + lo) /\
  packets (trace (snd run))
  = packets (trace w) ++ [[0x03; 7; 0x1B; 0; 0; 0; 0x24; 0xCD]] /\
  reads (trace (snd run)) = reads (trace w) ++ [I2cRead (_address self) 35].
Proof.
  intros lo run Hlt Hd1 Hresp Hcheck Hbytes Hd2. unfold run.
  rewrite random_start. cbv zeta. fold lo.
  destruct (Z.geb_spec lo rnd_max) as [?|_]; [lia|].
  rewrite (bind_ok _ _ _ _ _
             (random_block_run self w d1 response payload d2 Hd1 Hresp Hcheck Hd2)).
  cbv beta. rewrite sum_all. unfold lift, bind, ret.
  cbn [fst snd after trace].
  assert (Hsum : 0 <= sum_bytes (take 16 payload)).
  { apply sum_bytes_nonneg, Forall_take, Hbytes. }
  destruct (Z.ltb_spec (sum_bytes (take 16 payload)) 0) as [?|_]; [lia|].
  rewrite !packets_app, !reads_app, packets_exchange, reads_exchange.
  split; [reflexivity|]. split; reflexivity.
Qed.

Lemma random_sum_mod_witness :
  fst (random device 0 10 (steady (framed (replicate 32 0x01)))) = Ok (16 mod 10) /\
  16 mod 10 = 6.
Proof.
  assert (Hcheck : check_response (framed (replicate 32 0x01))
                   = Ok (replicate 32 0x01)) by reflexivity.
  assert (Hbytes : Forall is_byte (replicate 32 0x01)).
  { apply Forall_replicate. unfold is_byte. lia. }
  destruct (random_sum_mod device 0 10 (steady (framed (replicate 32 0x01)))
              (framed (replicate 32 0x01)) (framed (replicate 32 0x01))
              (replicate 32 0x01) (framed (replicate 32 0x01))
              ltac:(unfold effective_min; simpl; lia) eq_refl eq_refl
              Hcheck Hbytes eq_refl) as [H _].
  split; [exact H | reflexivity].
Defined.

(** C5 as worded fails: [random(3, 10)] on a random block of all 0x01
    bytes returns 16 mod 10, not 16 mod (10 - 3) + 3. *)
Lemma random_3_10_ignores_rnd_min :
  fst (random device 3 10 (steady (framed (replicate 32 0x01)))) = Ok 6 /\
  sum_bytes (replicate 16 0x01) mod (10 - 3) + 3 = 5.
Proof. vm_compute. split; reflexivity. Qed.

End RandomClaims.

(** ** DeviceOperations claims: counter and SHA digest *)
Module DigestClaims.
Import Bus Buffer Checksum Driver Wire.
Import BufferProofs ChecksumProofs FramingProofs RunProofs PollingProofs.
Import OperationProofs.

Lemma quiet_exec_sleep (op : Z) : quiet (exec_sleep op).
Proof.
  unfold exec_sleep. destruct (snd <$> list_find _ EXEC_TIME) as [[k ms]|].
  - apply quiet_sleep.
  - apply quiet_raise.
Qed.

Lemma counter_packet (increment_counter : bool) :
  command_packet OP_COUNTER (if increment_counter then 0x01 else 0x00) 0 []
  = Ok (0x03 :: 7 :: 0x24 :: (if increment_counter then 1 else 0) :: 0 :: 0 ::
        (if increment_counter then [0x0F; 0x77] else [0x0C; 0xFD])).
Proof. destruct increment_counter; reflexivity. Qed.

Lemma counter_start (self : ATECC) (counter_id : Z) (increment_counter : bool) :
  counter self counter_id increment_counter =
  (wakeup ;;;
   _send_command self OP_COUNTER (if increment_counter then 0x01 else 0x00) 0 [] ;;;
   exec_sleep OP_COUNTER ;;;
   let* count := _get_response self 4 default_retries in
   idle self ;;;
   ret count).
Proof. unfold counter. destruct increment_counter; reflexivity. Qed.

(** C8: the counter id passed to [counter] has no effect: two calls
    that differ only in the id give the same result and leave the same
    world; the one command sent is the Counter command with param1 1
    when incrementing and 0 otherwise and param2 0; and on a transport
    that takes the command and answers the first read with a valid
    response, the value bytes of that response (4 of the 7 read) are
    returned as they are. *)
Theorem counter_ignores_id
        (self : ATECC) (id1 id2 : Z) (increment_counter : bool) (w : world) :
  let run := counter self id1 increment_counter w in
  let param1 := if increment_counter then 1 else 0 in
  counter self id1 increment_counter w = counter self id2 increment_counter w /\
  packets (trace (snd run))
  = packets (trace w) ++
    [0x03 :: 7 :: 0x24 :: param1 :: 0 :: 0 ::
     (if increment_counter then [0x0F; 0x77] else [0x0C; 0xFD])] /\
  (forall (d1 d2 value : list Z) (cnt lo hi : Z),
      env w (2 + tick w)%nat = Done d1 ->
      env w (4 + tick w)%nat = Done (cnt :: value ++ [lo; hi]) ->
      Z.lor lo (Z.shiftl hi 8) = _at_crc (cnt :: value) None ->
      env w (5 + tick w)%nat = Done d2 ->
      fst run = Ok value /\
      reads (trace (snd run)) = reads (trace w) ++ [I2cRead (_address self) 7]).
Proof.
  intros run param1. split; [reflexivity|]. split.
  - unfold run. rewrite counter_start.
    rewrite (bind_ok _ _ _ _ _ (wakeup_run w)).
    destruct (send_then_quiet self OP_COUNTER
                (if increment_counter then 0x01 else 0x00) 0 [] _
                (fun _ => exec_sleep OP_COUNTER ;;;
                          let* count := _get_response self 4 default_retries in
                          idle self ;;; ret count)
                (after w [WriteByteData 0x00 0 0x00; Sleep 1] 1)
                (counter_packet increment_counter)) as [Hp _].
    + intros _. apply quiet_bind; [apply quiet_exec_sleep|]. intros _.
      apply quiet_bind; [apply quiet_get_response|]. intros count.
      apply quiet_bind; [apply quiet_idle|]. intros _. apply quiet_ret.
    + rewrite Hp. cbn [after trace]. rewrite packets_app.
      cbn [packets omap]. rewrite app_nil_r. reflexivity.
  - intros d1 d2 value cnt lo hi Hd1 Hresp Hcrc Hd2. unfold run.
    rewrite counter_start.
    rewrite (bind_ok _ _ _ _ _ (wakeup_run w)).
    rewrite (exchange_run self OP_COUNTER _ 0 [] _ OP_COUNTER 20 4 _
               (after w [WriteByteData 0x00 0 0x00; Sleep 1] 1) d1
               (cnt :: value ++ [lo; hi])
               (counter_packet increment_counter) ltac:(cbn; auto) Hd1 Hresp).
    change (cnt :: value ++ [lo; hi]) with ((cnt :: value) ++ [lo; hi]).
    rewrite check_response_trailer.
    destruct (Z.eqb_spec (Z.lor lo (Z.shiftl hi 8)) (_at_crc (cnt :: value) None))
      as [_|Hne]; [|contradiction].
    cbn [negb drop]. rewrite after_after.
    erewrite (bind_ok (idle self)); [|eapply idle_ok; exact Hd2].
    unfold ret. cbn [fst snd after trace].
    rewrite !reads_app, reads_exchange, <- app_assoc.
    split; reflexivity.
Qed.

Lemma counter_ignores_id_witness :
  fst (counter device 1 true (steady (framed [0x2A; 0; 0; 0])))
  = Ok [0x2A; 0; 0; 0] /\
  counter device 1 true (steady (framed [0x2A; 0; 0; 0]))
  = counter device 0 true (steady (framed [0x2A; 0; 0; 0])).
Proof.
  destruct (counter_ignores_id device 1 0 true (steady (framed [0x2A; 0; 0; 0])))
    as (Hsame & _ & Hvalue).
  destruct (Hvalue (framed [0x2A; 0; 0; 0]) (framed [0x2A; 0; 0; 0])
                   [0x2A; 0; 0; 0] 7 0x1B 0xBD eq_refl eq_refl eq_refl eq_refl)
    as [H _].
  split; [exact H | exact Hsame].
Defined.


Lemma returns_only_bind {A B} (P : B -> Prop) (m : M A) (k : A -> M B) :
  (forall a, returns_only P (k a)) -> returns_only P (bind m k).
Proof.
  intros Hk w. unfold bind. destruct (m w) as [[a|e] w']; [apply Hk | exact I].
Qed.

Lemma returns_only_raise {A} (P : A -> Prop) (e : exn) :
  returns_only P (raise e).
Proof. intros w. exact I. Qed.

(** The end of [sha_digest]: the length check, the idle, the return. *)
Lemma digest_tail_returns_32 (self : ATECC) (digest : list Z) :
  returns_only (fun d => length d = 32%nat)
    ((if negb (len digest =? 32)
      then raise (AssertionError
                    "SHA response length does not match expected length.")
      else ret tt) ;;;
     idle self ;;;
     ret digest).
Proof.
  destruct (Z.eqb_spec (len digest) 32) as [Hlen|Hne]; cbn [negb].
  - apply returns_only_bind. intros _. apply returns_only_bind. intros _.
    intros w. cbn. unfold len in Hlen. lia.
  - intros w. exact I.
Qed.

Lemma sha_digest_returns_32 (self : ATECC) (msg : message) :
  returns_only (fun d => length d = 32%nat) (sha_digest self msg).
Proof.
  unfold sha_digest.
  apply returns_only_bind. intros message.
  apply returns_only_bind. intros _.
  apply returns_only_bind. intros _.
  apply returns_only_bind. intros _.
  apply returns_only_bind. intros digest.
  apply digest_tail_returns_32.
Qed.

(** What [sha_digest] does with an argument it accepts. *)
Lemma sha_digest_accepted (self : ATECC) (msg : message) (w : world) :
  accepted msg ->
  sha_digest self msg w = sha_tail self (final_chunk msg) w.
Proof.
  intros Hacc. unfold sha_digest, sha_tail.
  destruct msg as [|b|b|n]; cbn [accepted] in Hacc.
  - reflexivity.
  - destruct b; reflexivity.
  - contradiction.
  - cbn [hasattr_append is_not_None negb andb pack_B].
    unfold is_byte in Hacc.
    destruct (Z.leb_spec 0 n) as [_|?]; [|lia].
    destruct (Z.leb_spec n 255) as [_|?]; [|lia].
    reflexivity.
Qed.

Lemma sha_packet (msg : message) :
  accepted msg ->
  command_packet OP_SHA 0x02 (len (final_chunk msg)) (final_chunk msg)
  = Ok (wire_packet OP_SHA 0x02 (len (final_chunk msg)) (final_chunk msg)).
Proof.
  intros Hacc.
  assert (Hchunk : Forall is_byte (final_chunk msg) /\ len (final_chunk msg) <= 248).
  { destruct msg as [|b|b|n]; cbn [accepted final_chunk] in *.
    - split; [constructor | unfold len; cbn; lia].
    - exact Hacc.
    - contradiction.
    - split; [constructor; [exact Hacc | constructor] | unfold len; cbn; lia]. }
  destruct Hchunk as [Hbytes Hlen].
  pose proof (len_nonneg (final_chunk msg)) as Hnn.
  apply command_packet_layout; try assumption; unfold is_byte, OP_SHA; lia.
Qed.

(** C6: whatever its argument and whatever the transport does,
    [sha_digest] either raises or returns exactly 32 bytes; on a
    transport that takes the command and answers the first read with a
    valid response, a payload of another length raises the length
    error, and a payload of 32 bytes is returned once the chip is put
    to idle. *)
Theorem sha_digest_32_bytes_or_error (self : ATECC) (msg : message) (w : world) :
  let run := sha_digest self msg w in
  match fst run with
  | Ok digest => length digest = 32%nat
  | Err _ => True
  end /\
  (forall d1 d2 response payload : list Z,
      accepted msg ->
      env w (2 + tick w)%nat = Done d1 ->
      env w (4 + tick w)%nat = Done response ->
      check_response response = Ok payload ->
      (length payload <> 32%nat ->
       fst run = Err (AssertionError
                        "SHA response length does not match expected length.")) /\
      (length payload = 32%nat -> env w (5 + tick w)%nat = Done d2 ->
       fst run = Ok payload)).
Proof.
  intros run. split; [apply sha_digest_returns_32|].
  intros d1 d2 response payload Hacc Hd1 Hresp Hcheck. unfold run.
  rewrite (sha_digest_accepted self msg w Hacc). unfold sha_tail.
  rewrite (bind_ok _ _ _ _ _ (wakeup_run w)).
  rewrite (exchange_run self OP_SHA 0x02 _ _ _ OP_SHA 47 32 _
             (after w [WriteByteData 0x00 0 0x00; Sleep 1] 1) d1 response
             (sha_packet msg Hacc) ltac:(cbn; auto) Hd1 Hresp).
  rewrite Hcheck, after_after. split.
  - intros Hlen.
    destruct (Z.eqb_spec (len payload) 32) as [H32|_];
      [unfold len in H32; lia|].
    reflexivity.
  - intros Hlen Hd2.
    destruct (Z.eqb_spec (len payload) 32) as [_|H32];
      [|unfold len in H32; lia].
    cbn [negb]. rewrite (bind_ok _ _ _ _ tt eq_refl).
    erewrite (bind_ok (idle self)); [|eapply idle_ok; exact Hd2].
    reflexivity.
Qed.

Lemma sha_digest_32_bytes_or_error_witness :
  fst (sha_digest device MNone (steady (framed (replicate 32 0xAB))))
  = Ok (replicate 32 0xAB) /\
  fst (sha_digest device MNone (steady (framed (replicate 31 0xAB))))
  = Err (AssertionError "SHA response length does not match expected length.").
Proof.
  destruct (sha_digest_32_bytes_or_error device MNone
              (steady (framed (replicate 32 0xAB)))) as [_ Hfull].
  destruct (Hfull (framed (replicate 32 0xAB)) (framed (replicate 32 0xAB))
                  (framed (replicate 32 0xAB)) (replicate 32 0xAB)
                  I eq_refl eq_refl eq_refl) as [_ Hok].
  destruct (sha_digest_32_bytes_or_error device MNone
              (steady (framed (replicate 31 0xAB)))) as [_ Hshort].
  destruct (Hshort (framed (replicate 31 0xAB)) (framed (replicate 31 0xAB))
                   (framed (replicate 31 0xAB)) (replicate 31 0xAB)
                   I eq_refl eq_refl eq_refl) as [Herr _].
  split; [apply Hok; reflexivity | apply Herr; discriminate].
Defined.

(** C10: [sha_digest] accepts [None] (nothing is folded in), a
    bytearray (sent as the final chunk) and an integer that fits a byte
    (sent as a one-byte chunk): the one command put on the bus is the
    SHA command in mode 2 with the chunk's length and the chunk; for
    every [bytes] object, empty or not, it raises the packing error
    before anything happens: the world is untouched. *)
Theorem sha_digest_argument (self : ATECC) (w : world) :
  (forall b : list Z, sha_digest self (MBytes b) w = (Err StructError, w)) /\
  (forall msg : message,
      accepted msg ->
      let chunk := final_chunk msg in
      command_packet OP_SHA 0x02 (len chunk) chunk
      = Ok (wire_packet OP_SHA 0x02 (len chunk) chunk) /\
      packets (trace (snd (sha_digest self msg w)))
      = packets (trace w) ++ [wire_packet OP_SHA 0x02 (len chunk) chunk]) /\
  final_chunk MNone = [] /\
  (forall b, final_chunk (MByteArray b) = b) /\
  (forall n, final_chunk (MInt n) = [n]).
Proof.
  split; [intros b; reflexivity|].
  split; [|repeat split].
  intros msg Hacc chunk. split; [apply sha_packet, Hacc|].
  rewrite (sha_digest_accepted self msg w Hacc). unfold sha_tail.
  rewrite (bind_ok _ _ _ _ _ (wakeup_run w)).
  destruct (send_then_quiet self OP_SHA 0x02 (len chunk) chunk _
              (fun _ => exec_sleep OP_SHA ;;;
                        let* digest := _get_response self 32 default_retries in
                        (if negb (len digest =? 32)
                         then raise (AssertionError
                                "SHA response length does not match expected length.")
                         else ret tt) ;;;
                        idle self ;;; ret digest)
              (after w [WriteByteData 0x00 0 0x00; Sleep 1] 1)
              (sha_packet msg Hacc)) as [Hp _].
  - intros _. apply quiet_bind; [apply quiet_exec_sleep|]. intros _.
    apply quiet_bind; [apply quiet_get_response|]. intros digest.
    apply quiet_bind; [destruct (negb _); [apply quiet_raise | apply quiet_ret]|].
    intros _. apply quiet_bind; [apply quiet_idle|]. intros _. apply quiet_ret.
  - fold chunk. rewrite Hp. cbn [after trace]. rewrite packets_app.
    cbn [packets omap]. rewrite app_nil_r. reflexivity.
Qed.

Lemma sha_digest_argument_witness :
  sha_digest device (MBytes [0x61; 0x62; 0x63]) (steady [])
  = (Err StructError, steady []) /\
  packets (trace (snd (sha_digest device (MInt 0x61) (steady []))))
  = [[0x03; 8; 0x47; 0x02; 1; 0; 0x61; 0xEB; 0x24]].
Proof.
  destruct (sha_digest_argument device (steady [])) as (Hbytes & Hacc & _).
  destruct (Hacc (MInt 0x61) ltac:(unfold accepted, is_byte; lia)) as [_ Hp].
  split; [apply Hbytes | exact Hp].
Defined.

End DigestClaims.

(** ** DeviceOperations claims: configuration writes *)
Module ConfigClaims.
Import Bus Buffer Checksum Driver Wire.
Import BufferProofs ChecksumProofs FramingProofs RunProofs PollingProofs.
Import OperationProofs.





Lemma config_offsets_in_buffer (data : list Z) :
  len data = 128 -> Forall (in_buffer data) (range3 16 128 4).
Proof.
  intros Hlen. unfold in_buffer. rewrite Hlen.
  change (range3 16 128 4)
    with [16; 20; 24; 28; 32; 36; 40; 44; 48; 52; 56; 60; 64; 68; 72; 76; 80;
          84; 88; 92; 96; 100; 104; 108; 112; 116; 120; 124].
  repeat (constructor; [split; [lia | split; [lia | reflexivity]] |]).
  constructor.
Qed.





End ConfigClaims.

(** ** More on the checksum *)
Module ChecksumMore.
Import Bus Buffer Checksum Driver Wire Frames.
Import ChecksumProofs BufferProofs FramingProofs.

Lemma land_lxor (a b c : Z) :
  Z.land (Z.lxor a b) c = Z.lxor (Z.land a c) (Z.land b c).
Proof.
  apply Z.bits_inj'. intros n Hn.
  rewrite !Z.land_spec, !Z.lxor_spec, !Z.land_spec.
  destruct (Z.testbit a n), (Z.testbit b n), (Z.testbit c n); reflexivity.
Qed.

Lemma lxor_swap (u v c d : Z) :
  Z.lxor (Z.lxor u v) (Z.lxor c d) = Z.lxor (Z.lxor u c) (Z.lxor v d).
Proof.
  apply Z.bits_inj'. intros n Hn. rewrite !Z.lxor_spec.
  destruct (Z.testbit u n), (Z.testbit v n), (Z.testbit c n), (Z.testbit d n);
    reflexivity.
Qed.

(** The feedback of one step, as a value to XOR in. *)
Lemma reference_bit_feedback (acc : Z) (bit : bool) :
  reference_bit acc bit
  = Z.lxor (Z.land (Z.shiftl acc 1) (Z.ones 16))
           (if xorb (Z.testbit acc 15) bit then 0x8005 else 0).
Proof.
  unfold reference_bit. rewrite Z.land_ones by lia.
  destruct (xorb _ _); [reflexivity | rewrite Z.lxor_0_r; reflexivity].
Qed.

(** One step of the checksum is linear over XOR. *)
Lemma reference_bit_xor (a b : Z) (x y : bool) :
  reference_bit (Z.lxor a b) (xorb x y)
  = Z.lxor (reference_bit a x) (reference_bit b y).
Proof.
  rewrite !reference_bit_feedback.
  rewrite Z.shiftl_lxor, land_lxor, Z.lxor_spec, <- lxor_swap. f_equal.
  destruct (Z.testbit a 15), (Z.testbit b 15), x, y; reflexivity.
Qed.

Lemma fold_reference_xor (l1 l2 : list bool) (a b : Z) :
  length l1 = length l2 ->
  fold_left reference_bit (zip_with xorb l1 l2) (Z.lxor a b)
  = Z.lxor (fold_left reference_bit l1 a) (fold_left reference_bit l2 b).
Proof.
  revert l2 a b. induction l1 as [|x l1 IH]; intros [|y l2] a b Hlen;
    try discriminate; [reflexivity|].
  cbn [zip_with fold_left]. rewrite reference_bit_xor. apply IH.
  cbn in Hlen. lia.
Qed.

Lemma bits_xor (x y : Z) :
  bits_lsb_first (Z.lxor x y)
  = zip_with xorb (bits_lsb_first x) (bits_lsb_first y).
Proof.
  unfold bits_lsb_first. cbn [fmap list_fmap zip_with].
  rewrite !Z.lxor_spec. reflexivity.
Qed.

Lemma bits_length (x : Z) : length (bits_lsb_first x) = 8%nat.
Proof. reflexivity. Qed.

Lemma bind_bits_length (d : list Z) :
  length (d ≫= bits_lsb_first) = (8 * length d)%nat.
Proof.
  induction d as [|x d IH]; [reflexivity|].
  rewrite bind_cons, length_app, IH, bits_length. cbn [length]. lia.
Qed.

Lemma bind_bits_xor (d1 d2 : list Z) :
  length d1 = length d2 ->
  zip_with Z.lxor d1 d2 ≫= bits_lsb_first
  = zip_with xorb (d1 ≫= bits_lsb_first) (d2 ≫= bits_lsb_first).
Proof.
  revert d2. induction d1 as [|x d1 IH]; intros [|y d2] Hlen;
    try discriminate; [reflexivity|].
  cbn [zip_with]. rewrite !bind_cons, IH by (cbn in Hlen; lia).
  rewrite bits_xor. symmetry. apply zip_with_app. reflexivity.
Qed.

Lemma reference_checksum_xor (d1 d2 : list Z) :
  length d1 = length d2 ->
  reference_checksum (zip_with Z.lxor d1 d2)
  = Z.lxor (reference_checksum d1) (reference_checksum d2).
Proof.
  intros Hlen. unfold reference_checksum.
  rewrite bind_bits_xor by exact Hlen.
  change 0 with (Z.lxor 0 0) at 1.
  apply fold_reference_xor. rewrite !bind_bits_length. lia.
Qed.

(** X1: the checksum is linear over XOR: for two byte sequences of the
    same length, the checksum of their bytewise XOR is the XOR of their
    checksums. *)
Theorem at_crc_xor (d1 d2 : list Z) :
  length d1 = length d2 ->
  _at_crc (zip_with Z.lxor d1 d2) None
  = Z.lxor (_at_crc d1 None) (_at_crc d2 None).
Proof.
  intros Hlen. rewrite !at_crc_reference. apply reference_checksum_xor, Hlen.
Qed.

Lemma at_crc_xor_witness :
  _at_crc (zip_with Z.lxor [0x07; 0x30; 0x00] [0x04; 0x11; 0x33]) None
  = Z.lxor (_at_crc [0x07; 0x30; 0x00] None) (_at_crc [0x04; 0x11; 0x33] None).
Proof. apply at_crc_xor. reflexivity. Defined.

Lemma fold_zero_bits (m : nat) :
  fold_left reference_bit (replicate m false) 0 = 0.
Proof. induction m as [|m IH]; [reflexivity | exact IH]. Qed.

Lemma zero_bytes_bits (n : nat) :
  replicate n 0 ≫= bits_lsb_first = replicate (8 * n) false.
Proof.
  induction n as [|n IH]; [reflexivity|].
  cbn [replicate]. rewrite bind_cons, IH.
  replace (8 * S n)%nat with (8 + 8 * n)%nat by lia.
  rewrite replicate_add. reflexivity.
Qed.

(** A zero data bit keeps a nonzero accumulator nonzero. *)
Lemma reference_bit_nonzero (acc : Z) :
  0 < acc < 2 ^ 16 -> 0 < reference_bit acc false < 2 ^ 16.
Proof.
  intros Hacc. pose proof (reference_bit_range acc false) as Hr.
  assert (Hne : reference_bit acc false <> 0); [|lia].
  unfold reference_bit. rewrite xorb_false_r.
  destruct (Z.testbit acc 15) eqn:Htop.
  - intros H0.
    assert (Hbit : Z.testbit (Z.lxor (Z.shiftl acc 1 mod 2 ^ 16) 0x8005) 0 = true).
    { rewrite Z.lxor_spec, <- Z.land_ones, Z.land_spec by lia.
      rewrite Z.shiftl_spec_low by lia. reflexivity. }
    rewrite H0, Z.bits_0 in Hbit. discriminate.
  - apply Z.testbit_false in Htop; [|lia].
    assert (Hq : 0 <= acc / 2 ^ 15 < 2).
    { split; [apply Z.div_pos; lia | apply Z.div_lt_upper_bound; lia]. }
    assert (Hsmall : acc < 2 ^ 15).
    { pose proof (Z.div_mod acc (2 ^ 15) ltac:(lia)) as Hdm.
      pose proof (Z.mod_pos_bound acc (2 ^ 15) ltac:(lia)) as Hm.
      assert (Hq0 : acc / 2 ^ 15 = 0).
      { destruct (Z.eq_dec (acc / 2 ^ 15) 0) as [|Hn]; [assumption|].
        assert (Hq1 : acc / 2 ^ 15 = 1) by lia.
        rewrite Hq1 in Htop. discriminate. }
      rewrite Hq0 in Hdm. lia. }
    rewrite Z.shiftl_mul_pow2 by lia. change (2 ^ 1) with 2.
    rewrite Z.mod_small by lia. lia.
Qed.

Lemma fold_zero_bits_nonzero (m : nat) (acc : Z) :
  0 < acc < 2 ^ 16 ->
  0 < fold_left reference_bit (replicate m false) acc < 2 ^ 16.
Proof.
  revert acc. induction m as [|m IH]; intros acc Hacc; [exact Hacc|].
  cbn [replicate fold_left]. apply IH, reference_bit_nonzero, Hacc.
Qed.

(** Feeding the byte [2 ^ k] into a zero accumulator leaves it nonzero. *)
Lemma single_bit_byte (k : Z) :
  0 <= k < 8 ->
  0 < fold_left reference_bit (bits_lsb_first (2 ^ k)) 0 < 2 ^ 16.
Proof.
  intros Hk.
  assert (Hcases : k = 0 \/ k = 1 \/ k = 2 \/ k = 3 \/ k = 4 \/ k = 5 \/
                   k = 6 \/ k = 7) by lia.
  repeat (destruct Hcases as [->|Hcases]; [vm_compute; split; reflexivity|]).
  subst k. vm_compute. split; reflexivity.
Qed.

(** The checksum of a sequence that is zero but for one bit is not 0. *)
Lemma single_bit_checksum (i j : nat) (k : Z) :
  0 <= k < 8 ->
  reference_checksum (replicate i 0 ++ 2 ^ k :: replicate j 0) <> 0.
Proof.
  intros Hk. unfold reference_checksum.
  rewrite bind_app, bind_cons, !zero_bytes_bits, !fold_left_app, fold_zero_bits.
  pose proof (fold_zero_bits_nonzero (8 * j) _ (single_bit_byte k Hk)). lia.
Qed.

Lemma zip_lxor_zeros (l : list Z) (n : nat) :
  n = length l -> zip_with Z.lxor l (replicate n 0) = l.
Proof.
  intros ->. induction l as [|x l IH]; [reflexivity|].
  cbn [length replicate zip_with]. rewrite Z.lxor_0_r, IH. reflexivity.
Qed.

Lemma flip_bit_middle (pre post : list Z) (b k : Z) :
  flip_bit (pre ++ b :: post) (length pre) k = pre ++ Z.lxor b (2 ^ k) :: post.
Proof.
  unfold flip_bit. rewrite list_lookup_middle by reflexivity.
  rewrite insert_app_r_alt by lia. rewrite Nat.sub_diag. reflexivity.
Qed.

Lemma flip_bit_as_xor (pre post : list Z) (b k : Z) :
  pre ++ Z.lxor b (2 ^ k) :: post
  = zip_with Z.lxor (pre ++ b :: post)
             (replicate (length pre) 0 ++ 2 ^ k :: replicate (length post) 0).
Proof.
  rewrite zip_with_app by (rewrite length_replicate; reflexivity).
  cbn [zip_with]. rewrite !zip_lxor_zeros by reflexivity. reflexivity.
Qed.

Lemma lxor_fixed (x y : Z) : Z.lxor x y = x -> y = 0.
Proof.
  intros H. transitivity (Z.lxor x (Z.lxor x y)).
  - rewrite <- Z.lxor_assoc, Z.lxor_nilpotent, Z.lxor_0_l. reflexivity.
  - rewrite H. apply Z.lxor_nilpotent.
Qed.

Lemma lxor_bound (n x y : Z) :
  0 <= n -> 0 <= x < 2 ^ n -> 0 <= y < 2 ^ n -> 0 <= Z.lxor x y < 2 ^ n.
Proof.
  intros Hn Hx Hy.
  assert (Hnn : 0 <= Z.lxor x y) by (apply Z.lxor_nonneg; lia).
  split; [exact Hnn|].
  destruct (Z.eq_dec (Z.lxor x y) 0) as [->|Hne]; [lia|].
  apply Z.log2_lt_pow2; [lia|].
  eapply Z.le_lt_trans; [apply Z.log2_lxor; lia|].
  assert (Hlog : forall z, 0 <= z < 2 ^ n -> z <> 0 -> Z.log2 z < n)
    by (intros z Hz Hz0; apply Z.log2_lt_pow2; lia).
  destruct (Z.eq_dec x 0) as [->|Hx0]; destruct (Z.eq_dec y 0) as [->|Hy0];
    try (exfalso; apply Hne; reflexivity).
  - rewrite Z.max_r by (apply Z.log2_nonneg). apply Hlog; assumption.
  - rewrite Z.max_l by (apply Z.log2_nonneg). apply Hlog; assumption.
  - apply Z.max_lub_lt; apply Hlog; assumption.
Qed.

(** Flipping one bit of one byte changes the checksum. *)
Lemma at_crc_flip (data : list Z) (i : nat) (k : Z) :
  (i < length data)%nat -> 0 <= k < 8 ->
  _at_crc (flip_bit data i k) None <> _at_crc data None.
Proof.
  intros Hi Hk.
  destruct (lookup_lt_is_Some_2 data i Hi) as [b Hb].
  destruct (list_elem_of_split_length data i b Hb) as (pre & post & -> & ->).
  rewrite flip_bit_middle, flip_bit_as_xor, !at_crc_reference,
    reference_checksum_xor.
  - intros H. apply lxor_fixed in H.
    exact (single_bit_checksum _ _ k Hk H).
  - rewrite !length_app. cbn [length]. rewrite !length_replicate. reflexivity.
Qed.

Lemma flip_changes_byte (b k : Z) :
  is_byte b -> 0 <= k < 8 ->
  is_byte (Z.lxor b (2 ^ k)) /\ Z.lxor b (2 ^ k) <> b.
Proof.
  intros Hb Hk. split.
  - unfold is_byte in *. change 256 with (2 ^ 8).
    apply lxor_bound; [lia | exact Hb |].
    split; [apply Z.pow_nonneg; lia | apply Z.pow_lt_mono_r; lia].
  - intros H. apply lxor_fixed in H.
    pose proof (Z.pow_pos_nonneg 2 k ltac:(lia) ltac:(lia)). lia.
Qed.

Lemma flip_bit_body (body tail : list Z) (i : nat) (k : Z) :
  (i < length body)%nat ->
  flip_bit (body ++ tail) i k = flip_bit body i k ++ tail.
Proof.
  intros Hi. unfold flip_bit. rewrite lookup_app_l by exact Hi.
  destruct (lookup_lt_is_Some_2 body i Hi) as [b Hb]. rewrite Hb.
  apply insert_app_l, Hi.
Qed.

(** X2: a response of bytes that passes validation no longer passes
    once any single bit of any of its bytes (count byte, payload or
    checksum) is flipped: the corrupted response raises the
    checksum-mismatch error. *)
Theorem check_response_detects_bit_flip
        (response payload : list Z) (i : nat) (k : Z) :
  Forall is_byte response ->
  check_response response = Ok payload ->
  (i < length response)%nat -> 0 <= k < 8 ->
  check_response (flip_bit response i k) = Err (RuntimeError "CRC Mismatch").
Proof.
  intros Hbytes Hok Hi Hk.
  assert (Hlen : (2 <= length response)%nat).
  { destruct (Nat.lt_ge_cases (length response) 2) as [Hshort|]; [|assumption].
    unfold check_response in Hok. rewrite getitem_short in Hok by exact Hshort.
    discriminate. }
  destruct (split_trailer response Hlen) as (body & lo & hi & ->).
  rewrite check_response_trailer in Hok.
  destruct (Z.eqb_spec (Z.lor lo (Z.shiftl hi 8)) (_at_crc body None))
    as [Hcrc|]; [|discriminate].
  apply Forall_app in Hbytes. destruct Hbytes as [_ Htrailer].
  assert (Hlo : is_byte lo) by (inversion Htrailer; assumption).
  assert (Hhi : is_byte hi).
  { inversion Htrailer as [|? ? _ Hrest]. inversion Hrest. assumption. }
  pose proof (at_crc_range body None) as Hrange.
  apply (combine_bytes lo hi _ Hlo Hhi Hrange) in Hcrc. destruct Hcrc as [Hl Hh].
  rewrite length_app in Hi. cbn [length] in Hi.
  destruct (Nat.lt_ge_cases i (length body)) as [Hbody|Hge].
  - rewrite flip_bit_body by exact Hbody. rewrite check_response_trailer.
    destruct (Z.eqb_spec (Z.lor lo (Z.shiftl hi 8))
                         (_at_crc (flip_bit body i k) None)) as [Heq|_];
      [|reflexivity].
    exfalso. apply (at_crc_flip body i k Hbody Hk).
    pose proof (at_crc_range (flip_bit body i k) None) as Hrange'.
    apply (combine_bytes lo hi _ Hlo Hhi Hrange') in Heq.
    destruct Heq as [Hl' Hh'].
    pose proof (Z.div_mod (_at_crc body None) 256 ltac:(lia)) as H1.
    pose proof (Z.div_mod (_at_crc (flip_bit body i k) None) 256 ltac:(lia)) as H2.
    change 0xFF with (Z.ones 8) in Hl, Hl'.
    rewrite Z.land_ones in Hl, Hl' by lia.
    rewrite Z.shiftr_div_pow2 in Hh, Hh' by lia.
    change (2 ^ 8) with 256 in *. lia.
  - assert (Hcases : i = length body \/ i = S (length body)) by lia.
    destruct Hcases as [->| ->].
    + rewrite (flip_bit_middle body [hi] lo k).
      change (body ++ Z.lxor lo (2 ^ k) :: [hi])
        with (body ++ [Z.lxor lo (2 ^ k); hi]).
      rewrite check_response_trailer.
      destruct (flip_changes_byte lo k Hlo Hk) as [Hb Hne].
      destruct (Z.eqb_spec (Z.lor (Z.lxor lo (2 ^ k)) (Z.shiftl hi 8))
                           (_at_crc body None)) as [Heq|_]; [|reflexivity].
      apply (combine_bytes _ hi _ Hb Hhi Hrange) in Heq.
      destruct Heq as [Hl' _]. exfalso. apply Hne. congruence.
    + replace (body ++ [lo; hi]) with ((body ++ [lo]) ++ hi :: [])
        by (rewrite <- app_assoc; reflexivity).
      replace (S (length body)) with (length (body ++ [lo]))
        by (rewrite length_app; cbn; lia).
      rewrite (flip_bit_middle (body ++ [lo]) [] hi k), <- app_assoc.
      change ([lo] ++ [Z.lxor hi (2 ^ k)]) with [lo; Z.lxor hi (2 ^ k)].
      rewrite check_response_trailer.
      destruct (flip_changes_byte hi k Hhi Hk) as [Hb Hne].
      destruct (Z.eqb_spec (Z.lor lo (Z.shiftl (Z.lxor hi (2 ^ k)) 8))
                           (_at_crc body None)) as [Heq|_]; [|reflexivity].
      apply (combine_bytes lo _ _ Hlo Hb Hrange) in Heq.
      destruct Heq as [_ Hh']. exfalso. apply Hne. congruence.
Qed.

Lemma check_response_detects_bit_flip_witness :
  check_response (flip_bit [4; 0; 0x03; 0x40] 1 5)
  = Err (RuntimeError "CRC Mismatch").
Proof.
  assert (Hbytes : Forall is_byte [4; 0; 0x03; 0x40])
    by (repeat constructor; unfold is_byte; lia).
  apply (check_response_detects_bit_flip [4; 0; 0x03; 0x40] [0] 1 5 Hbytes);
    [reflexivity | cbn; lia | lia].
Defined.

(** X3: the [length] argument of [_at_crc] never shortens the input: any
    nonzero [length], smaller or larger than the data, gives the checksum
    of all of the data, and a [length] of 0 gives 0 whatever the data. *)
Theorem at_crc_length_argument (data : list Z) (n : Z) :
  (n <> 0 -> _at_crc data (Some n) = _at_crc data None) /\
  _at_crc data (Some 0) = 0.
Proof.
  split.
  - intros Hn. unfold _at_crc. destruct data as [|b data]; [reflexivity|].
    cbn [truthy negb orb].
    destruct (Z.eqb_spec n 0) as [?|_]; [contradiction|].
    destruct (Z.eqb_spec (Z.of_nat (length (b :: data))) 0) as [H0|_];
      [cbn in H0; lia | reflexivity].
  - unfold _at_crc. rewrite orb_true_r. reflexivity.
Qed.

Lemma at_crc_length_argument_witness :
  _at_crc [0x07; 0x30; 0; 0; 0] (Some 1) = _at_crc [0x07; 0x30; 0; 0; 0] None.
Proof.
  destruct (at_crc_length_argument [0x07; 0x30; 0; 0; 0] 1) as [H _].
  apply H. lia.
Defined.

(** X4: zero bytes in front do not change the checksum: the accumulator
    starts at 0 and stays 0 while only zero bits come in. *)
Theorem at_crc_leading_zeros (n : nat) (data : list Z) :
  _at_crc (replicate n 0 ++ data) None = _at_crc data None.
Proof.
  rewrite !at_crc_reference. unfold reference_checksum.
  rewrite bind_app, zero_bytes_bits, fold_left_app, fold_zero_bits.
  reflexivity.
Qed.

End ChecksumMore.

(** ** More on the command packet *)
Module FramingMore.
Import Bus Buffer Checksum Driver Wire Frames.
Import ChecksumProofs BufferProofs FramingProofs RunProofs.

Lemma byte_b_spec (v : Z) : byte_b v = true <-> is_byte v.
Proof.
  unfold byte_b, is_byte. rewrite andb_true_iff, Z.leb_le, Z.ltb_lt. tauto.
Qed.

Lemma byte_b_false (v : Z) : byte_b v = false <-> ~ is_byte v.
Proof.
  rewrite <- byte_b_spec. destruct (byte_b v); split; congruence.
Qed.

Lemma setitem_bad (b : list Z) (i v : Z) :
  ~ is_byte v -> setitem b i v = Err ValueError.
Proof.
  intros Hv. apply byte_b_false in Hv. unfold setitem.
  fold (byte_b v). rewrite Hv. reflexivity.
Qed.

Lemma len_insert (b : list Z) (i : nat) (v : Z) : len (<[i := v]> b) = len b.
Proof. unfold len. rewrite length_insert. reflexivity. Qed.

Lemma len_bytearray (n : Z) : 0 <= n -> len (bytearray n) = n.
Proof. intros Hn. unfold len, bytearray. rewrite length_replicate. lia. Qed.

(** The data loop stops with [ValueError] at the first item that is not
    a byte. *)
Lemma fill_data_bad (data : list Z) (cp : list Z) (j : Z) :
  ~ Forall is_byte data -> 0 <= j -> 6 + j + len data <= len cp ->
  fill_data cp (enumerate_from j data) = Err ValueError.
Proof.
  revert cp j. induction data as [|x data IH]; intros cp j Hbad Hj Hlen.
  - exfalso. apply Hbad. constructor.
  - cbn [enumerate_from fill_data]. rewrite len_cons in Hlen.
    pose proof (len_nonneg data) as Hnn.
    destruct (byte_b x) eqn:Hx.
    + apply byte_b_spec in Hx.
      rewrite setitem_nonneg by (try assumption; lia). cbn [rbind].
      apply IH; [|lia|rewrite len_insert; lia].
      intros Hrest. apply Hbad. constructor; assumption.
    + apply byte_b_false in Hx. rewrite setitem_bad by exact Hx. reflexivity.
Qed.

Lemma high_byte_iff (x : Z) : is_byte (Z.shiftr x 8) <-> 0 <= x < 2 ^ 16.
Proof.
  unfold is_byte. rewrite Z.shiftr_div_pow2 by lia. change (2 ^ 8) with 256.
  change (2 ^ 16) with 65536.
  pose proof (Z.div_mod x 256 ltac:(lia)) as Hdm.
  pose proof (Z.mod_pos_bound x 256 ltac:(lia)) as Hm. lia.
Qed.

(** Any argument that does not fit makes the assembling raise
    [ValueError]. *)
Lemma command_packet_invalid (opcode param_1 param_2 : Z) (data : list Z) :
  ~ valid_command opcode param_1 param_2 data ->
  command_packet opcode param_1 param_2 data = Err ValueError.
Proof.
  intros Hbad. unfold command_packet.
  pose proof (len_nonneg data) as Hnn.
  assert (Hlen0 : len (bytearray (8 + len data)) = 8 + len data)
    by (apply len_bytearray; lia).
  rewrite setitem_nonneg by (unfold is_byte; lia). cbn [rbind].
  rewrite len_insert, Hlen0.
  replace (8 + len data - 1) with (7 + len data) by lia.
  destruct (byte_b (7 + len data)) eqn:Hcount;
    [apply byte_b_spec in Hcount
    |apply byte_b_false in Hcount; rewrite setitem_bad by exact Hcount;
     reflexivity].
  rewrite setitem_nonneg
    by (try assumption; rewrite ?len_insert, Hlen0; lia).
  cbn [rbind].
  destruct (byte_b opcode) eqn:Hop;
    [apply byte_b_spec in Hop
    |apply byte_b_false in Hop; rewrite setitem_bad by exact Hop; reflexivity].
  rewrite setitem_nonneg
    by (try assumption; rewrite ?len_insert, Hlen0; lia).
  cbn [rbind].
  destruct (byte_b param_1) eqn:Hp1;
    [apply byte_b_spec in Hp1
    |apply byte_b_false in Hp1; rewrite setitem_bad by exact Hp1; reflexivity].
  rewrite setitem_nonneg
    by (try assumption; rewrite ?len_insert, Hlen0; lia).
  cbn [rbind].
  rewrite setitem_nonneg
    by (try apply low_byte_is_byte; rewrite ?len_insert, Hlen0; lia).
  cbn [rbind].
  destruct (byte_b (Z.shiftr param_2 8)) eqn:Hp2;
    [apply byte_b_spec in Hp2
    |apply byte_b_false in Hp2; rewrite setitem_bad by exact Hp2; reflexivity].
  rewrite setitem_nonneg
    by (try assumption; rewrite ?len_insert, Hlen0; lia).
  cbn [rbind]. unfold enumerate.
  rewrite fill_data_bad; [reflexivity| |lia|rewrite !len_insert, Hlen0; lia].
  intros Hdata. apply Hbad. unfold valid_command.
  apply high_byte_iff in Hp2. unfold is_byte in Hcount.
  refine (conj Hop (conj Hp1 (conj Hp2 (conj Hdata _)))). lia.
Qed.

(** X5: [_send_command] sends nothing it cannot frame: when the opcode
    or param1 is not a byte, param2 is not a 16-bit value, a data item is
    not a byte or the data is longer than 248 bytes, it raises
    [ValueError] before the wake-up, and the world is untouched; in every
    other case the packet assembles. *)
Theorem send_command_refuses_what_does_not_fit
        (self : ATECC) (opcode param_1 param_2 : Z) (data : list Z) (w : world) :
  (~ valid_command opcode param_1 param_2 data ->
   _send_command self opcode param_1 param_2 data w = (Err ValueError, w)) /\
  (valid_command opcode param_1 param_2 data ->
   command_packet opcode param_1 param_2 data
   = Ok (wire_packet opcode param_1 param_2 data)).
Proof.
  split.
  - intros Hbad. apply send_command_refused, command_packet_invalid, Hbad.
  - intros (Hop & Hp1 & Hp2 & Hdata & Hlen).
    apply command_packet_layout; assumption.
Qed.

Lemma send_command_refuses_what_does_not_fit_witness :
  _send_command device 0x47 0x01 64 (replicate 249 0) (steady [])
  = (Err ValueError, steady []) /\
  _send_command device 0x41 0x80 65536 [] (steady [])
  = (Err ValueError, steady []).
Proof.
  split.
  - apply (send_command_refuses_what_does_not_fit
             device 0x47 0x01 64 (replicate 249 0) (steady [])).
    intros (_ & _ & _ & _ & Hlen). vm_compute in Hlen. apply Hlen. reflexivity.
  - apply (send_command_refuses_what_does_not_fit device 0x41 0x80 65536 []
                                                  (steady [])).
    intros (_ & _ & Hp2 & _). lia.
Defined.

Lemma valid_command_dec (opcode param_1 param_2 : Z) (data : list Z) :
  valid_command opcode param_1 param_2 data \/
  ~ valid_command opcode param_1 param_2 data.
Proof.
  unfold valid_command.
  destruct (byte_b opcode) eqn:Hop;
    [apply byte_b_spec in Hop | apply byte_b_false in Hop; right; tauto].
  destruct (byte_b param_1) eqn:Hp1;
    [apply byte_b_spec in Hp1 | apply byte_b_false in Hp1; right; tauto].
  destruct (forallb byte_b data) eqn:Hdata.
  - assert (Hall : Forall is_byte data).
    { apply Forall_forall. intros x Hx. apply byte_b_spec.
      rewrite forallb_forall in Hdata. apply Hdata, list_elem_of_In, Hx. }
    destruct (Z_le_dec 0 param_2), (Z_lt_dec param_2 (2 ^ 16)),
      (Z_le_dec (len data) 248); try (right; lia); try tauto.
  - right. intros (_ & _ & _ & Hall & _).
    assert (Htrue : forallb byte_b data = true); [|congruence].
    apply forallb_forall. intros x Hx. apply byte_b_spec.
    rewrite Forall_forall in Hall. apply Hall, list_elem_of_In, Hx.
Qed.

Lemma split_crc (crc : Z) :
  0 <= crc < 2 ^ 16 ->
  Z.lor (Z.land crc 0xFF) (Z.shiftl (Z.shiftr crc 8) 8) = crc.
Proof.
  intros Hcrc.
  apply (combine_bytes _ _ crc (low_byte_is_byte crc)
                       (high_byte_is_byte crc Hcrc) Hcrc).
  split; reflexivity.
Qed.

(** A response built with the checksum passes validation and gives its
    payload back. *)
Lemma check_response_framed (payload : list Z) :
  check_response (framed payload) = Ok payload.
Proof.
  unfold framed. cbv zeta. rewrite check_response_trailer.
  rewrite split_crc by apply at_crc_range.
  rewrite Z.eqb_refl. reflexivity.
Qed.

(** X6: round trip of the framing: whenever [_send_command] assembles a
    packet, the packet without its word-address marker passes the
    response validation, which returns the opcode, the parameters and
    the data. *)
Theorem command_packet_round_trip
        (opcode param_1 param_2 : Z) (data pkt : list Z) :
  command_packet opcode param_1 param_2 data = Ok pkt ->
  check_response (slice pkt 1 (len pkt))
  = Ok (opcode :: param_1 :: Z.land param_2 0xFF :: Z.shiftr param_2 8 :: data).
Proof.
  intros Hpkt.
  destruct (valid_command_dec opcode param_1 param_2 data)
    as [(Hop & Hp1 & Hp2 & Hdata & Hlen)|Hbad].
  - rewrite command_packet_layout in Hpkt by assumption.
    injection Hpkt as <-. unfold wire_packet. cbv zeta.
    set (body := command_body opcode param_1 param_2 data).
    set (crc := _at_crc body None).
    assert (Hslice : slice (0x03 :: body ++ [Z.land crc 0xFF; Z.shiftr crc 8]) 1
                           (len (0x03 :: body ++ [Z.land crc 0xFF; Z.shiftr crc 8]))
                     = body ++ [Z.land crc 0xFF; Z.shiftr crc 8]).
    { unfold slice, clamp.
      pose proof (len_nonneg (body ++ [Z.land crc 0xFF; Z.shiftr crc 8])) as Hnn.
      rewrite len_cons.
      destruct (Z.ltb_spec 1 0) as [?|_]; [lia|].
      destruct (Z.ltb_spec (1 + len (body ++ [Z.land crc 0xFF; Z.shiftr crc 8])) 0)
        as [?|_]; [lia|].
      assert (Hone : 1 <= len (body ++ [Z.land crc 0xFF; Z.shiftr crc 8])).
      { rewrite len_app. pose proof (len_nonneg body). unfold len at 2.
        cbn [length]. lia. }
      rewrite (Z.min_r _ 1), (Z.max_r 0 1), Z.min_id, Z.max_r by lia.
      change (Z.to_nat 1) with 1%nat. cbn [drop].
      apply take_ge. unfold len. lia. }
    rewrite Hslice, check_response_trailer.
    unfold crc. rewrite split_crc by apply at_crc_range.
    rewrite Z.eqb_refl. reflexivity.
  - rewrite command_packet_invalid in Hpkt by exact Hbad. discriminate.
Qed.

Lemma command_packet_round_trip_witness :
  check_response [7; 0x30; 0; 0; 0; 0x03; 0x5D] = Ok [0x30; 0; 0; 0].
Proof.
  exact (command_packet_round_trip 0x30 0 0 []
           [0x03; 7; 0x30; 0; 0; 0; 0x03; 0x5D] eq_refl).
Defined.

End FramingMore.

(** ** More on polling *)
Module PollingMore.
Import Bus Buffer Checksum Driver Wire Frames.
Import ChecksumProofs BufferProofs FramingProofs RunProofs PollingProofs.

Lemma range_length_Z (n : Z) : length (range n) = Z.to_nat n.
Proof.
  unfold range, range3. rewrite length_fmap, length_seq.
  replace ((n - 0 + 1 - 1) / 1) with n by (rewrite Z.div_1_r; lia).
  reflexivity.
Qed.

(** The polling loop reads at most once for each attempt, and nothing
    else happens on the bus. *)
Lemma poll_bounded (self : ATECC) (length : Z) (attempts : list Z) (w : world) :
  exists n : nat,
    (n <= List.length attempts)%nat /\
    trace (snd (poll self length attempts w))
    = trace w ++ replicate n (I2cRead (_address self) (length + 3)).
Proof.
  revert w. induction attempts as [|x rest IH]; intros w.
  - exists 0%nat. split; [lia|]. cbn. rewrite app_nil_r. reflexivity.
  - cbn [poll]. unfold try_except. rewrite bus_run.
    destruct (env w (tick w)) as [d|e].
    + exists 1%nat. split; [cbn; lia | reflexivity].
    + destruct e;
        try (exists 1%nat; split; [cbn; lia | reflexivity]).
      destruct (IH (after w [I2cRead (_address self) (length + 3)] 1))
        as [n [Hn Htrace]].
      exists (S n). split; [cbn; lia|].
      rewrite Htrace. cbn [after trace]. rewrite <- app_assoc. reflexivity.
Qed.

(** X7: whatever the transport does and whatever [retries] is,
    [_get_response] reads at most [retries] times, always [length + 3]
    bytes, and puts no command on the bus; with [retries] of 0 or less
    it raises the device-unresponsive error without reading at all. *)
Theorem get_response_reads_at_most_retries
        (self : ATECC) (length retries : Z) (w : world) :
  let run := _get_response self length retries w in
  exists n : nat,
    (n <= Z.to_nat retries)%nat /\
    reads (trace (snd run))
    = reads (trace w) ++ replicate n (I2cRead (_address self) (length + 3)) /\
    packets (trace (snd run)) = packets (trace w) /\
    (retries <= 0 ->
     n = 0%nat /\ fst run = Err (RuntimeError "Failed to read data from chip")).
Proof.
  intros run. unfold run.
  destruct (quiet_get_response self length retries w) as [Hquiet _].
  unfold _get_response. rewrite (bind_ok _ _ _ _ _ (wakeup_run w)).
  destruct (poll_bounded self length (range retries)
              (after w [WriteByteData 0x00 0 0x00; Sleep 1] 1)) as [n [Hn Htrace]].
  rewrite range_length_Z in Hn.
  exists n. split; [exact Hn|].
  assert (Hreads : reads (trace (snd (poll self length (range retries)
                     (after w [WriteByteData 0x00 0 0x00; Sleep 1] 1))))
                   = reads (trace w)
                     ++ replicate n (I2cRead (_address self) (length + 3))).
  { rewrite Htrace. cbn [after trace]. rewrite !reads_app, reads_replicate.
    cbn [reads List.filter is_read]. rewrite app_nil_r. reflexivity. }
  split; [|split].
  - unfold bind at 1.
    destruct (poll self length (range retries)
                (after w [WriteByteData 0x00 0 0x00; Sleep 1] 1))
      as [[response|e] w2]; cbn [snd] in *; [|exact Hreads].
    rewrite (bind_ok _ _ _ _ _ (received_print_run self response w2)).
    unfold lift. cbn [snd after trace].
    rewrite reads_app, reads_received, app_nil_r. exact Hreads.
  - unfold _get_response in Hquiet.
    rewrite (bind_ok _ _ _ _ _ (wakeup_run w)) in Hquiet. exact Hquiet.
  - intros Hle. split; [lia|].
    assert (Hnil : range retries = []).
    { apply length_zero_iff_nil. rewrite range_length_Z. lia. }
    rewrite Hnil. reflexivity.
Qed.

Lemma get_response_reads_at_most_retries_witness :
  fst (_get_response device 4 0 (steady (framed [1; 2; 3; 4])))
  = Err (RuntimeError "Failed to read data from chip").
Proof.
  destruct (get_response_reads_at_most_retries device 4 0
              (steady (framed [1; 2; 3; 4]))) as (n & _ & _ & _ & H).
  apply H. lia.
Defined.

End PollingMore.

(** ** The other operations: one exchange each *)
Module OperationMore.
Import Bus Buffer Checksum Driver Wire Text Operations Frames.
Import ChecksumProofs BufferProofs FramingProofs RunProofs PollingProofs.
Import OperationProofs FramingMore.

Lemma exec_sleep_table (op ms : Z) (w : world) :
  In (op, ms) EXEC_TIME -> exec_sleep op w = (Ok tt, after w [Sleep ms] 0).
Proof.
  unfold EXEC_TIME. cbn [In]. intros H.
  repeat (destruct H as [H|H]; [inversion H; subst; reflexivity|]).
  contradiction.
Qed.

Lemma getitem_head (x : Z) (l : list Z) : getitem (x :: l) 0 = Ok x.
Proof.
  unfold getitem. rewrite len_cons. pose proof (len_nonneg l).
  cbn [Z.ltb Z.compare Z.leb].
  destruct (Z.ltb_spec 0 (1 + len l)) as [_|?]; [reflexivity | lia].
Qed.

Lemma getitem_nil (i : Z) : getitem [] i = Err IndexError.
Proof.
  unfold getitem. change (len (@nil Z)) with 0. rewrite Z.add_0_r.
  destruct (Z.ltb_spec i 0); destruct (Z.leb_spec 0 i);
    destruct (Z.ltb_spec i 0); try lia; reflexivity.
Qed.

Lemma assert_run (cond : bool) (msg : string) (w : world) :
  assert_ cond msg w = (if cond then Ok tt else Err (AssertionError msg), w).
Proof. destruct cond; reflexivity. Qed.

Lemma lock_packet_ok (zone : Z) :
  is_byte (Z.lor 0x80 zone) ->
  command_packet 0x17 (Z.lor 0x80 zone) 0x0000 [] = Ok (lock_packet zone).
Proof.
  intros Hz. apply command_packet_layout; try assumption;
    try (unfold is_byte; lia); [constructor | unfold len; cbn; lia].
Qed.

(** [lock] on a transport that takes the command and answers the first
    read with a valid response of status [st]. *)
Lemma lock_run (self : ATECC) (zone : Z) (w : world)
      (d1 response rest : list Z) (st : Z) :
  is_byte (Z.lor 0x80 zone) ->
  env w (2 + tick w)%nat = Done d1 ->
  env w (4 + tick w)%nat = Done response ->
  check_response response = Ok (st :: rest) ->
  lock self zone w =
  if st =? 0
  then idle self
         (after w (probe ++ exchange_events self (lock_packet zone) 32 1 response) 5)
  else (Err (AssertionError "Failed locking ATECC!"),
        after w (probe ++ exchange_events self (lock_packet zone) 32 1 response) 5).
Proof.
  intros Hz Hd1 Hresp Hcheck. unfold lock.
  rewrite (bind_ok _ _ _ _ _ (wakeup_run w)).
  rewrite (exchange_with self 0x17 _ 0 [] _ (exec_sleep OP_LOCK) 32 1 _
             (after w [WriteByteData 0x00 0 0x00; Sleep 1] 1) d1 response
             (lock_packet_ok zone Hz)
             (fun w' => exec_sleep_table OP_LOCK 32 w' ltac:(cbn; tauto))
             Hd1 Hresp).
  rewrite Hcheck, after_after. unfold lift.
  rewrite (bind_ok _ _ _ _ st (f_equal (fun r => (r, _)) (getitem_head st rest))).
  unfold bind at 1. rewrite assert_run.
  destruct (st =? 0); reflexivity.
Qed.

Lemma idle_raises (self : ATECC) (w : world) (e : exn) :
  env w (tick w) = Raise e ->
  idle self w = (Err e, after w [WriteByteData (_address self) 0 0x02] 1).
Proof. intros H. unfold idle, bind. rewrite bus_run, H. reflexivity. Qed.

Lemma packets_probe_exchange (self : ATECC) (w : world) (pkt : list Z)
      (ms length : Z) (response : list Z) (n : nat) :
  packets (trace (after w (probe ++ exchange_events self pkt ms length response) n))
  = packets (trace w) ++ [pkt].
Proof.
  cbn [after trace]. rewrite !packets_app, packets_exchange. reflexivity.
Qed.

(** X8: [lock] sends the Lock command with param1 [0x80 | zone] and looks
    at the first byte of a valid response: on status 0 the call writes
    the idle byte to the device as its last bus operation and returns;
    on any other status it raises the assertion error right after the
    read, and the world ends with the exchange: the chip is not put to
    idle.  The worlds are given whole, debug output included. *)
Theorem lock_checks_status (self : ATECC) (zone : Z) (w : world)
        (response rest : list Z) (st : Z) :
  is_byte (Z.lor 0x80 zone) ->
  takes w 2 -> answers w 4 response ->
  check_response response = Ok (st :: rest) ->
  let run := lock self zone w in
  let exchange :=
    probe ++ exchange_events self (lock_packet zone) 32 1 response in
  packets (trace (snd run)) = packets (trace w) ++ [lock_packet zone] /\
  (st = 0 -> takes w 5 ->
   run = (Ok tt, after w (exchange ++ idle_events self) 6)) /\
  (st <> 0 ->
   run = (Err (AssertionError "Failed locking ATECC!"), after w exchange 5)).
Proof.
  intros Hz [d1 Hd1] Hresp Hcheck run exchange. unfold run, exchange.
  rewrite (lock_run self zone w d1 response rest st Hz Hd1 Hresp Hcheck).
  destruct (Z.eqb_spec st 0) as [->|Hne].
  - split; [|split].
    + destruct (quiet_idle self
                  (after w (probe ++ exchange_events self (lock_packet zone) 32 1
                                                     response) 5)) as [Hp _].
      rewrite Hp. apply packets_probe_exchange.
    + intros _ [d2 Hd2].
      set (W := after w _ 5).
      assert (HW : env W (tick W) = Done d2) by exact Hd2.
      rewrite (idle_ok self W d2 HW). unfold W.
      rewrite after_after. reflexivity.
    + intros H. contradiction.
  - split; [apply packets_probe_exchange|].
    split; [intros H; contradiction|]. intros _. reflexivity.
Qed.

Lemma lock_checks_status_witness :
  (fst (lock device 0 (steady (status_response 0))) = Ok tt /\
   last (trace (snd (lock device 0 (steady (status_response 0)))))
   = Some (Sleep 1) /\
   In (WriteByteData (_address device) 0 0x02)
      (trace (snd (lock device 0 (steady (status_response 0)))))) /\
  (fst (lock device 0 (steady (status_response 0x0F)))
   = Err (AssertionError "Failed locking ATECC!") /\
   ~ In (WriteByteData (_address device) 0 0x02)
        (trace (snd (lock device 0 (steady (status_response 0x0F)))))).
Proof.
  assert (Hz : is_byte (Z.lor 0x80 0))
    by (change (Z.lor 0x80 0) with 128; unfold is_byte; lia).
  destruct (lock_checks_status device 0 (steady (status_response 0))
              (status_response 0) [] 0 Hz (ex_intro _ _ eq_refl) eq_refl eq_refl)
    as (_ & Hok & _).
  destruct (lock_checks_status device 0 (steady (status_response 0x0F))
              (status_response 0x0F) [] 0x0F Hz (ex_intro _ _ eq_refl)
              eq_refl eq_refl) as (_ & _ & Hbad).
  split.
  - rewrite (Hok eq_refl (ex_intro _ _ eq_refl)).
    split; [reflexivity|]. split; [reflexivity|].
    vm_compute. tauto.
  - rewrite (Hbad ltac:(discriminate)).
    split; [reflexivity|]. vm_compute.
    intros H. repeat (destruct H as [H|H]; [discriminate H|]). exact H.
Defined.

(** X9: [lock_all_zones] locks zone 0 and then zone 1: when both answers
    carry status 0 the Lock commands for 0x80 and 0x81 go out in that
    order and nothing else; when the answer for zone 0 carries another
    status the call raises and no command for zone 1 is sent. *)
Theorem lock_all_zones_in_order (self : ATECC) (w : world)
        (r0 rest0 : list Z) (st0 : Z) :
  takes w 2 -> answers w 4 r0 -> check_response r0 = Ok (st0 :: rest0) ->
  let run := lock_all_zones self w in
  (st0 <> 0 ->
   fst run = Err (AssertionError "Failed locking ATECC!") /\
   packets (trace (snd run)) = packets (trace w) ++ [lock_packet 0]) /\
  (st0 = 0 ->
   forall (r1 rest1 : list Z),
     takes w 5 -> takes w 8 -> answers w 10 r1 ->
     check_response r1 = Ok (0 :: rest1) -> takes w 11 ->
     fst run = Ok tt /\
     packets (trace (snd run))
     = packets (trace w) ++ [lock_packet 0; lock_packet 1]).
Proof.
  intros [d1 Hd1] Hr0 Hcheck0 run. unfold run, lock_all_zones.
  assert (Hz0 : is_byte (Z.lor 0x80 0))
    by (change (Z.lor 0x80 0) with 128; unfold is_byte; lia).
  assert (Hz1 : is_byte (Z.lor 0x80 1))
    by (change (Z.lor 0x80 1) with 129; unfold is_byte; lia).
  pose proof (lock_run self 0 w d1 r0 rest0 st0 Hz0 Hd1 Hr0 Hcheck0) as Hfirst.
  split.
  - intros Hne. destruct (Z.eqb_spec st0 0) as [?|_]; [contradiction|].
    rewrite (bind_err _ _ _ _ _ Hfirst). split; [reflexivity|].
    apply packets_probe_exchange.
  - intros -> r1 rest1 [d2 Hd2] [d3 Hd3] Hr1 Hcheck1 [d4 Hd4].
    cbn [Z.eqb] in Hfirst.
    set (W1 := after w (probe ++ exchange_events self (lock_packet 0) 32 1 r0) 5)
      in Hfirst.
    assert (HW1 : env W1 (tick W1) = Done d2) by exact Hd2.
    rewrite (idle_ok self W1 d2 HW1) in Hfirst.
    rewrite (bind_ok _ _ _ _ _ Hfirst).
    set (W2 := after W1 [WriteByteData (_address self) 0 0x02; Sleep 1] 1).
    assert (Hd3' : env W2 (2 + tick W2)%nat = Done d3) by exact Hd3.
    assert (Hr1' : env W2 (4 + tick W2)%nat = Done r1) by exact Hr1.
    rewrite (lock_run self 1 W2 d3 r1 rest1 0 Hz1 Hd3' Hr1' Hcheck1).
    cbn [Z.eqb].
    set (W3 := after W2 (probe ++ exchange_events self (lock_packet 1) 32 1 r1) 5).
    assert (HW3 : env W3 (tick W3) = Done d4) by exact Hd4.
    rewrite (idle_ok self W3 d4 HW3).
    split; [reflexivity|]. unfold W3, W2, W1.
    cbn [snd after trace]. rewrite !packets_app, !packets_exchange.
    cbn [packets omap probe app]. rewrite <- !app_assoc. reflexivity.
Qed.

Lemma lock_all_zones_in_order_witness :
  fst (lock_all_zones device (steady (status_response 0))) = Ok tt /\
  packets (trace (snd (lock_all_zones device (steady (status_response 0)))))
  = [[0x03; 7; 0x17; 0x80; 0; 0; 0x39; 0x8D]; [0x03; 7; 0x17; 0x81; 0; 0; 0x3A; 0x07]].
Proof.
  destruct (lock_all_zones_in_order device (steady (status_response 0))
              (status_response 0) [] 0 (ex_intro _ _ eq_refl) eq_refl eq_refl)
    as [_ Hok].
  destruct (Hok eq_refl (status_response 0) [] (ex_intro _ _ eq_refl)
                (ex_intro _ _ eq_refl) eq_refl eq_refl (ex_intro _ _ eq_refl))
    as [Hres Hp].
  split; [exact Hres | exact Hp].
Defined.

End OperationMore.

(** ** The other operations: guards and results *)
Module GuardProofs.
Import Bus Buffer Checksum Driver Wire Text Operations Frames.
Import ChecksumProofs BufferProofs FramingProofs RunProofs PollingProofs.
Import OperationProofs FramingMore OperationMore.

Lemma valid_packet (opcode param_1 param_2 : Z) (data : list Z) :
  valid_command opcode param_1 param_2 data ->
  command_packet opcode param_1 param_2 data
  = Ok (wire_packet opcode param_1 param_2 data).
Proof.
  intros (Hop & Hp1 & Hp2 & Hdata & Hlen).
  apply command_packet_layout; assumption.
Qed.

Lemma sleep_run (ms : Z) (w : world) :
  time_sleep ms w = (Ok tt, after w [Sleep ms] 0).
Proof. reflexivity. Qed.

(** The end of an operation: idle the chip and return [x]. *)
Lemma idle_then_ret {A} (self : ATECC) (x : A) (w : world) (d : list Z) :
  env w (tick w) = Done d ->
  bind (idle self) (fun _ => ret x) w
  = (Ok x, after w [WriteByteData (_address self) 0 0x02; Sleep 1] 1).
Proof. intros H. rewrite (bind_ok _ _ _ _ _ (idle_ok self w d H)). reflexivity. Qed.

Lemma nonce_pass_through_length (self : ATECC) (data : list Z) (zero : Z)
      (w : world) :
  len data <> 32 ->
  nonce self data 3 zero w
  = (Err (AssertionError "Data value must be 32 bytes long."), after w probe 1).
Proof.
  intros Hlen. unfold nonce.
  rewrite (bind_ok _ _ _ _ _ (wakeup_run w)). cbn [Z.eqb orb].
  destruct (Z.eqb_spec (len data) 32) as [?|_]; [contradiction|].
  reflexivity.
Qed.

(** X10: [nonce] checks its mode and the length of its data after the
    wake-up and before any command: a mode other than 0, 1 and 3 raises
    the invalid-mode error; mode 0 or 1 with [zero] 0 and data that is
    not 20 bytes long, and mode 3 with data that is not 32 bytes long,
    raise the assertion error; in each case only the wake-up probe has
    happened on the bus. *)
Theorem nonce_refuses_before_sending
        (self : ATECC) (data : list Z) (mode zero : Z) (w : world) :
  (mode <> 0 -> mode <> 1 -> mode <> 3 ->
   nonce self data mode zero w
   = (Err (RuntimeError "Invalid mode specified!"), after w probe 1)) /\
  (mode = 0 \/ mode = 1 -> zero = 0 -> len data <> 20 ->
   nonce self data mode zero w
   = (Err (AssertionError "Data value must be 20 bytes long."), after w probe 1)) /\
  (mode = 3 -> len data <> 32 ->
   nonce self data mode zero w
   = (Err (AssertionError "Data value must be 32 bytes long."), after w probe 1)).
Proof.
  split; [|split].
  - intros H0 H1 H3. unfold nonce.
    rewrite (bind_ok _ _ _ _ _ (wakeup_run w)).
    destruct (Z.eqb_spec mode 0) as [?|_]; [contradiction|].
    destruct (Z.eqb_spec mode 1) as [?|_]; [contradiction|].
    destruct (Z.eqb_spec mode 3) as [?|_]; [contradiction|].
    reflexivity.
  - intros Hmode -> Hlen. unfold nonce.
    rewrite (bind_ok _ _ _ _ _ (wakeup_run w)).
    assert (Hm : (mode =? 0) || (mode =? 1) = true).
    { destruct Hmode as [-> | ->]; reflexivity. }
    rewrite Hm. cbn [Z.eqb].
    destruct (Z.eqb_spec (len data) 20) as [?|_]; [contradiction|].
    reflexivity.
  - intros -> Hlen. apply nonce_pass_through_length, Hlen.
Qed.

Lemma nonce_refuses_before_sending_witness :
  fst (nonce device (replicate 20 0) 2 0 (steady []))
  = Err (RuntimeError "Invalid mode specified!") /\
  fst (nonce device (replicate 19 0) 0 0 (steady []))
  = Err (AssertionError "Data value must be 20 bytes long.") /\
  fst (nonce device (replicate 20 0) 3 0 (steady []))
  = Err (AssertionError "Data value must be 32 bytes long.").
Proof.
  destruct (nonce_refuses_before_sending device (replicate 20 0) 2 0 (steady []))
    as (H1 & _ & _).
  destruct (nonce_refuses_before_sending device (replicate 19 0) 0 0 (steady []))
    as (_ & H2 & _).
  destruct (nonce_refuses_before_sending device (replicate 20 0) 3 0 (steady []))
    as (_ & _ & H3).
  rewrite H1, H2, H3 by (try (left; reflexivity); try reflexivity;
                         try discriminate; lia).
  repeat split; reflexivity.
Defined.

Lemma bind_ret_l {A B} (a : A) (g : A -> M B) : bind (ret a) g = g a.
Proof. reflexivity. Qed.

Lemma bind_assoc {A B C} (m : M A) (f : A -> M B) (g : B -> M C) (w : world) :
  bind (bind m f) g w = bind m (fun x => bind (f x) g) w.
Proof.
  unfold bind. destruct (m w) as [[a|e] w']; reflexivity.
Qed.

(** [nonce] in mode 0 or 1 once its checks have passed. *)
Lemma nonce_random_mode (self : ATECC) (data : list Z) (mode zero : Z) (w : world) :
  mode = 0 \/ mode = 1 -> (zero = 0 -> len data = 20) ->
  nonce self data mode zero w =
  (wakeup ;;;
   _send_command self OP_NONCE mode zero data ;;;
   exec_sleep OP_NONCE ;;;
   let* calculated_nonce := _get_response self 32 default_retries in
   time_sleep 1 ;;;
   idle self ;;;
   ret calculated_nonce) w.
Proof.
  intros Hmode Hlen. unfold nonce.
  assert (Hm : (mode =? 0) || (mode =? 1) = true)
    by (destruct Hmode as [-> | ->]; reflexivity).
  assert (H3 : (mode =? 3) = false)
    by (destruct Hmode as [-> | ->]; reflexivity).
  rewrite Hm, H3.
  rewrite !(bind_ok _ _ _ _ _ (wakeup_run w)).
  rewrite bind_assoc.
  assert (Hcheck : forall w',
             (if zero =? 0
              then assert_ (len data =? 20) "Data value must be 20 bytes long."
              else ret tt) w' = (Ok tt, w')).
  { intros w'. destruct (Z.eqb_spec zero 0) as [Hz|_]; [|reflexivity].
    rewrite (Hlen Hz). reflexivity. }
  rewrite (bind_ok _ _ _ _ _ (Hcheck _)).
  rewrite bind_assoc, bind_ret_l. reflexivity.
Qed.

(** X11: [nonce] in mode 0 or 1 (with 20 bytes of data when [zero] is 0;
    with [zero] nonzero the length is not checked) sends the Nonce
    command with the data, reads a 35-byte response and returns the
    payload of a valid response as it is. *)
Theorem nonce_returns_payload
        (self : ATECC) (data : list Z) (mode zero : Z) (w : world)
        (response payload : list Z) :
  mode = 0 \/ mode = 1 -> (zero = 0 -> len data = 20) ->
  0 <= zero < 2 ^ 16 -> Forall is_byte data -> len data <= 248 ->
  takes w 2 -> answers w 4 response -> check_response response = Ok payload ->
  takes w 5 ->
  let run := nonce self data mode zero w in
  fst run = Ok payload /\
  packets (trace (snd run))
  = packets (trace w) ++ [wire_packet OP_NONCE mode zero data] /\
  reads (trace (snd run)) = reads (trace w) ++ [I2cRead (_address self) 35].
Proof.
  intros Hmode Hlen Hzero Hbytes Hmax [d1 Hd1] Hresp Hcheck [d2 Hd2] run.
  unfold run. rewrite (nonce_random_mode self data mode zero w Hmode Hlen).
  rewrite (bind_ok _ _ _ _ _ (wakeup_run w)).
  assert (Hvalid : valid_command OP_NONCE mode zero data).
  { refine (conj _ (conj _ (conj Hzero (conj Hbytes Hmax))));
      [unfold is_byte, OP_NONCE; lia
      |destruct Hmode as [-> | ->]; unfold is_byte; lia]. }
  rewrite (exchange_with self OP_NONCE mode zero data _ (exec_sleep OP_NONCE) 7 32 _
             (after w [WriteByteData 0x00 0 0x00; Sleep 1] 1) d1 response
             (valid_packet _ _ _ _ Hvalid)
             (fun w' => exec_sleep_table OP_NONCE 7 w' ltac:(cbn; tauto))
             Hd1 Hresp).
  rewrite Hcheck, after_after.
  rewrite (bind_ok _ _ _ _ _ (sleep_run 1 _)), after_after.
  set (W := after w _ _).
  assert (HW : env W (tick W) = Done d2) by exact Hd2.
  rewrite (idle_then_ret self payload W d2 HW). unfold W.
  cbn [fst snd after trace].
  rewrite !packets_app, !reads_app, packets_exchange, reads_exchange.
  split; [reflexivity|]. split; rewrite <- ?app_assoc; reflexivity.
Qed.

Lemma nonce_returns_payload_witness :
  fst (nonce device (replicate 20 0x11) 0 0 (steady (framed (replicate 32 0x22))))
  = Ok (replicate 32 0x22).
Proof.
  assert (Hbytes : Forall is_byte (replicate 20 0x11))
    by (apply Forall_replicate; unfold is_byte; lia).
  destruct (nonce_returns_payload device (replicate 20 0x11) 0 0
              (steady (framed (replicate 32 0x22)))
              (framed (replicate 32 0x22)) (replicate 32 0x22)
              (or_introl eq_refl) (fun _ => eq_refl) ltac:(lia) Hbytes
              ltac:(vm_compute; discriminate)
              (ex_intro _ _ eq_refl) eq_refl eq_refl (ex_intro _ _ eq_refl))
    as [H _].
  exact H.
Defined.

(** [nonce] in pass-through mode once its length check has passed. *)
Lemma nonce_pass_through_mode (self : ATECC) (data : list Z) (zero : Z) (w : world) :
  len data = 32 ->
  nonce self data 3 zero w =
  (wakeup ;;;
   _send_command self OP_NONCE 3 zero data ;;;
   exec_sleep OP_NONCE ;;;
   let* calculated_nonce := _get_response self 1 default_retries in
   time_sleep 1 ;;;
   (let* c0 := lift (getitem calculated_nonce 0) in
    assert_ (c0 =? 0x00) "Incorrectly calculated nonce in pass-thru mode") ;;;
   idle self ;;;
   ret calculated_nonce) w.
Proof.
  intros Hlen. unfold nonce.
  change ((3 =? 0) || (3 =? 1)) with false. change (3 =? 3) with true.
  cbv iota.
  rewrite !(bind_ok _ _ _ _ _ (wakeup_run w)).
  rewrite bind_assoc, Hlen. change (32 =? 32) with true.
  rewrite (bind_ok _ _ _ _ tt eq_refl).
  rewrite bind_assoc, bind_ret_l. reflexivity.
Qed.

(** [nonce] in pass-through mode on a transport that takes the command
    and answers the first read with a valid response of status [st]. *)
Lemma nonce_pass_through_run (self : ATECC) (data : list Z) (w : world)
      (d1 response rest : list Z) (st : Z) :
  len data = 32 -> Forall is_byte data ->
  env w (2 + tick w)%nat = Done d1 ->
  env w (4 + tick w)%nat = Done response ->
  check_response response = Ok (st :: rest) ->
  nonce self data 3 0 w =
  let W := after w (probe ++ exchange_events self (wire_packet OP_NONCE 3 0 data)
                                             7 1 response ++ [Sleep 1]) 5 in
  if st =? 0
  then bind (idle self) (fun _ => ret (st :: rest)) W
  else (Err (AssertionError "Incorrectly calculated nonce in pass-thru mode"), W).
Proof.
  intros Hlen Hbytes Hd1 Hresp Hcheck.
  rewrite (nonce_pass_through_mode self data 0 w Hlen).
  rewrite (bind_ok _ _ _ _ _ (wakeup_run w)).
  assert (Hvalid : valid_command OP_NONCE 3 0 data).
  { refine (conj _ (conj _ (conj _ (conj Hbytes _))));
      unfold is_byte, OP_NONCE; lia. }
  rewrite (exchange_with self OP_NONCE 3 0 data _ (exec_sleep OP_NONCE) 7 1 _
             (after w [WriteByteData 0x00 0 0x00; Sleep 1] 1) d1 response
             (valid_packet _ _ _ _ Hvalid)
             (fun w' => exec_sleep_table OP_NONCE 7 w' ltac:(cbn; tauto))
             Hd1 Hresp).
  rewrite Hcheck, after_after.
  rewrite (bind_ok _ _ _ _ _ (sleep_run 1 _)), after_after.
  rewrite bind_assoc. unfold lift at 1.
  rewrite (bind_ok _ _ _ _ st (f_equal (fun r => (r, _)) (getitem_head st rest))).
  unfold bind at 1. rewrite assert_run. cbv zeta.
  replace (([WriteByteData 0 0 0; Sleep 1] ++
            exchange_events self (wire_packet OP_NONCE 3 0 data) 7 1 response) ++
           [Sleep 1])
    with (probe ++ exchange_events self (wire_packet OP_NONCE 3 0 data) 7 1 response
                ++ [Sleep 1]) by (unfold probe; rewrite <- app_assoc; reflexivity).
  destruct (st =? 0); reflexivity.
Qed.

Lemma sign_packet_ok (slot_id : Z) :
  0 <= slot_id < 2 ^ 16 ->
  command_packet 0x41 0x80 slot_id [] = Ok (wire_packet 0x41 0x80 slot_id []).
Proof.
  intros Hs. apply command_packet_layout; try assumption;
    try (unfold is_byte; lia); [constructor | unfold len; cbn; lia].
Qed.

(** [sign] on a transport that takes the command, answers the first
    read with a valid response and takes the idle. *)
Lemma sign_run (self : ATECC) (slot_id : Z) (w : world)
      (d1 response signature d2 : list Z) :
  0 <= slot_id < 2 ^ 16 ->
  env w (2 + tick w)%nat = Done d1 ->
  env w (4 + tick w)%nat = Done response ->
  check_response response = Ok signature ->
  env w (5 + tick w)%nat = Done d2 ->
  sign self slot_id w =
  (Ok signature,
   after w (probe ++ exchange_events self (wire_packet 0x41 0x80 slot_id [])
                                     70 64 response
                  ++ [WriteByteData (_address self) 0 0x02; Sleep 1]) 6).
Proof.
  intros Hs Hd1 Hresp Hcheck Hd2. unfold sign.
  rewrite (bind_ok _ _ _ _ _ (wakeup_run w)).
  rewrite (exchange_with self 0x41 0x80 slot_id [] _ (exec_sleep OP_SIGN) 70 64 _
             (after w [WriteByteData 0x00 0 0x00; Sleep 1] 1) d1 response
             (sign_packet_ok slot_id Hs)
             (fun w' => exec_sleep_table OP_SIGN 70 w' ltac:(cbn; tauto))
             Hd1 Hresp).
  rewrite Hcheck, after_after.
  set (W := after w _ _).
  assert (HW : env W (tick W) = Done d2) by exact Hd2.
  rewrite (idle_then_ret self signature W d2 HW). unfold W.
  rewrite after_after. unfold probe. rewrite <- app_assoc. reflexivity.
Qed.

(** X12: [ecdsa_sign] loads the message with a pass-through Nonce command
    and then signs: a message that is not 32 bytes long raises before
    any command; a nonzero Nonce status raises and no Sign command is
    sent; with status 0 the Sign command follows and the payload of its
    response is the signature returned. *)
Theorem ecdsa_sign_loads_then_signs
        (self : ATECC) (slot : Z) (message : list Z) (w : world) :
  let run := ecdsa_sign self slot message w in
  (len message <> 32 ->
   run = (Err (AssertionError "Data value must be 32 bytes long."),
          after w probe 1)) /\
  (forall (r0 rest0 : list Z) (st : Z),
      len message = 32 -> Forall is_byte message -> 0 <= slot < 2 ^ 16 ->
      takes w 2 -> answers w 4 r0 -> check_response r0 = Ok (st :: rest0) ->
      (st <> 0 ->
       fst run
       = Err (AssertionError "Incorrectly calculated nonce in pass-thru mode") /\
       packets (trace (snd run))
       = packets (trace w) ++ [wire_packet OP_NONCE 3 0 message]) /\
      (st = 0 ->
       forall r1 signature : list Z,
         takes w 5 -> takes w 8 -> answers w 10 r1 ->
         check_response r1 = Ok signature -> takes w 11 ->
         fst run = Ok signature /\
         packets (trace (snd run))
         = packets (trace w) ++
           [wire_packet OP_NONCE 3 0 message; wire_packet 0x41 0x80 slot []])).
Proof.
  intros run. unfold run, ecdsa_sign. split.
  - intros Hlen.
    rewrite (bind_err _ _ _ _ _ (nonce_pass_through_length self message 0 w Hlen)).
    reflexivity.
  - intros r0 rest0 st Hlen Hbytes Hslot [d1 Hd1] Hr0 Hcheck0.
    pose proof (nonce_pass_through_run self message w d1 r0 rest0 st
                  Hlen Hbytes Hd1 Hr0 Hcheck0) as Hnonce.
    cbv zeta in Hnonce. split.
    + intros Hne. destruct (Z.eqb_spec st 0) as [?|_]; [contradiction|].
      rewrite (bind_err _ _ _ _ _ Hnonce). split; [reflexivity|].
      cbn [snd after trace]. rewrite !packets_app, packets_exchange.
      reflexivity.
    + intros -> r1 signature [d2 Hd2] [d3 Hd3] Hr1 Hcheck1 [d4 Hd4].
      cbn [Z.eqb] in Hnonce.
      set (W1 := after w _ 5) in Hnonce.
      assert (HW1 : env W1 (tick W1) = Done d2) by exact Hd2.
      rewrite (idle_then_ret self (0 :: rest0) W1 d2 HW1) in Hnonce.
      rewrite (bind_ok _ _ _ _ _ Hnonce).
      set (W2 := after W1 _ 1).
      assert (Hd3' : env W2 (2 + tick W2)%nat = Done d3) by exact Hd3.
      assert (Hr1' : env W2 (4 + tick W2)%nat = Done r1) by exact Hr1.
      assert (Hd4' : env W2 (5 + tick W2)%nat = Done d4) by exact Hd4.
      rewrite (bind_ok _ _ _ _ _
                 (sign_run self slot W2 d3 r1 signature d4 Hslot Hd3' Hr1'
                           Hcheck1 Hd4')).
      split; [reflexivity|]. unfold ret, W2, W1.
      cbn [snd after trace]. rewrite !packets_app, !packets_exchange.
      cbn [packets omap probe app]. rewrite <- !app_assoc. reflexivity.
Qed.

Lemma ecdsa_sign_loads_then_signs_witness :
  fst (ecdsa_sign device 0 (replicate 31 0xAA) (steady (status_response 0)))
  = Err (AssertionError "Data value must be 32 bytes long.") /\
  fst (ecdsa_sign device 0 (replicate 32 0xAA) (steady (status_response 0)))
  = Ok [0].
Proof.
  destruct (ecdsa_sign_loads_then_signs device 0 (replicate 31 0xAA)
              (steady (status_response 0))) as [Hshort _].
  destruct (ecdsa_sign_loads_then_signs device 0 (replicate 32 0xAA)
              (steady (status_response 0))) as [_ Hfull].
  assert (Hbytes : Forall is_byte (replicate 32 0xAA))
    by (apply Forall_replicate; unfold is_byte; lia).
  destruct (Hfull (status_response 0) [] 0 eq_refl Hbytes ltac:(lia)
                  (ex_intro _ _ eq_refl) eq_refl eq_refl) as [_ Hok].
  destruct (Hok eq_refl (status_response 0) [0] (ex_intro _ _ eq_refl)
                (ex_intro _ _ eq_refl) eq_refl eq_refl (ex_intro _ _ eq_refl))
    as [Hres _].
  split; [|exact Hres].
  rewrite Hshort by (vm_compute; discriminate). reflexivity.
Defined.

(** X13: [gen_key] checks the slot before anything else: a slot outside
    0..4 raises the assertion error and the world is untouched; a slot
    in 0..4 sends the GenKey command with param1 4 for a private key and
    0 otherwise and the slot as param2, reads 67 bytes and returns the
    payload of a valid response. *)
Theorem gen_key_checks_slot
        (self : ATECC) (slot_num : Z) (private_key : bool) (w : world) :
  let run := gen_key self slot_num private_key w in
  (~ 0 <= slot_num <= 4 ->
   run = (Err (AssertionError "Provided slot must be between 0 and 4."), w)) /\
  (forall response key : list Z,
      0 <= slot_num <= 4 ->
      takes w 2 -> answers w 4 response -> check_response response = Ok key ->
      takes w 5 ->
      fst run = Ok key /\
      packets (trace (snd run))
      = packets (trace w) ++
        [wire_packet OP_GEN_KEY (if private_key then 0x04 else 0x00) slot_num []] /\
      reads (trace (snd run)) = reads (trace w) ++ [I2cRead (_address self) 67]).
Proof.
  intros run. unfold run, gen_key. split.
  - intros Hbad.
    assert (Hb : (0 <=? slot_num) && (slot_num <=? 4) = false).
    { destruct (Z.leb_spec 0 slot_num), (Z.leb_spec slot_num 4);
        try reflexivity. lia. }
    rewrite Hb. reflexivity.
  - intros response key Hslot [d1 Hd1] Hresp Hcheck [d2 Hd2].
    assert (Hb : (0 <=? slot_num) && (slot_num <=? 4) = true).
    { destruct (Z.leb_spec 0 slot_num), (Z.leb_spec slot_num 4);
        try reflexivity; lia. }
    rewrite Hb. rewrite (bind_ok _ _ _ _ tt eq_refl).
    rewrite (bind_ok _ _ _ _ _ (wakeup_run w)).
    assert (Hsend : (if private_key
                     then _send_command self OP_GEN_KEY 0x04 slot_num []
                     else _send_command self OP_GEN_KEY 0x00 slot_num [])
                    = _send_command self OP_GEN_KEY
                                    (if private_key then 0x04 else 0x00) slot_num [])
      by (destruct private_key; reflexivity).
    rewrite Hsend.
    assert (Hvalid : valid_command OP_GEN_KEY (if private_key then 0x04 else 0x00)
                                   slot_num []).
    { refine (conj _ (conj _ (conj _ (conj (Forall_nil_2 _) _))));
        [unfold is_byte, OP_GEN_KEY; lia
        |destruct private_key; unfold is_byte; lia
        |lia
        |unfold len; cbn; lia]. }
    rewrite (exchange_with self OP_GEN_KEY _ slot_num [] _ (exec_sleep OP_GEN_KEY)
               115 64 _ (after w [WriteByteData 0x00 0 0x00; Sleep 1] 1) d1 response
               (valid_packet _ _ _ _ Hvalid)
               (fun w' => exec_sleep_table OP_GEN_KEY 115 w' ltac:(cbn; tauto))
               Hd1 Hresp).
    rewrite Hcheck, after_after.
    rewrite (bind_ok _ _ _ _ _ (sleep_run 1 _)), after_after.
    set (W := after w _ _).
    assert (HW : env W (tick W) = Done d2) by exact Hd2.
    rewrite (idle_then_ret self key W d2 HW). unfold W.
    cbn [fst snd after trace].
    rewrite !packets_app, !reads_app, packets_exchange, reads_exchange.
    split; [reflexivity|]. split; rewrite <- ?app_assoc; reflexivity.
Qed.

Lemma gen_key_checks_slot_witness :
  gen_key device 5 true (steady [])
  = (Err (AssertionError "Provided slot must be between 0 and 4."), steady []) /\
  fst (gen_key device 2 true (steady (framed (replicate 64 0x09))))
  = Ok (replicate 64 0x09).
Proof.
  destruct (gen_key_checks_slot device 5 true (steady [])) as [Hbad _].
  destruct (gen_key_checks_slot device 2 true (steady (framed (replicate 64 0x09))))
    as [_ Hok].
  destruct (Hok (framed (replicate 64 0x09)) (replicate 64 0x09) ltac:(lia)
                (ex_intro _ _ eq_refl) eq_refl eq_refl (ex_intro _ _ eq_refl))
    as [Hres _].
  split; [apply Hbad; lia | exact Hres].
Defined.

(** X14: [_read] accepts the lengths 4 and 32 only: any other length
    raises after the wake-up and no command is sent; for 32 the zone gets
    its bit 7 set, for 4 it goes out as given; the Read command is
    followed by a read of [length + 3] bytes and the payload of a valid
    response is returned. *)
Theorem read_accepts_4_and_32
        (self : ATECC) (zone address length : Z) (w : world) :
  let run := _read self zone address length w in
  let param1 := if length =? 32 then Z.lor zone 0x80 else zone in
  (length <> 4 -> length <> 32 ->
   run = (Err (RuntimeError "Only 4 and 32 byte reads supported"),
          after w probe 1)) /\
  (forall response payload : list Z,
      length = 4 \/ length = 32 ->
      is_byte param1 -> 0 <= address < 2 ^ 16 ->
      takes w 2 -> answers w 4 response -> check_response response = Ok payload ->
      takes w 5 ->
      fst run = Ok payload /\
      packets (trace (snd run))
      = packets (trace w) ++ [wire_packet 2 param1 address []] /\
      reads (trace (snd run))
      = reads (trace w) ++ [I2cRead (_address self) (length + 3)]).
Proof.
  intros run param1. unfold run, _read. split.
  - intros H4 H32. rewrite (bind_ok _ _ _ _ _ (wakeup_run w)).
    destruct (Z.eqb_spec length 4) as [?|_]; [contradiction|].
    destruct (Z.eqb_spec length 32) as [?|_]; [contradiction|].
    reflexivity.
  - intros response payload Hlen Hp1 Haddr [d1 Hd1] Hresp Hcheck [d2 Hd2].
    rewrite (bind_ok _ _ _ _ _ (wakeup_run w)).
    assert (Hguard : negb ((length =? 4) || (length =? 32)) = false)
      by (destruct Hlen as [-> | ->]; reflexivity).
    rewrite Hguard. rewrite (bind_ok _ _ _ _ tt eq_refl). fold param1.
    assert (Hvalid : valid_command 2 param1 address []).
    { refine (conj _ (conj Hp1 (conj Haddr (conj (Forall_nil_2 _) _))));
        [unfold is_byte; lia | unfold len; cbn; lia]. }
    rewrite (exchange_with self 2 param1 address [] _ (time_sleep 5) 5 length _
               (after w [WriteByteData 0x00 0 0x00; Sleep 1] 1) d1 response
               (valid_packet _ _ _ _ Hvalid) (sleep_run 5) Hd1 Hresp).
    rewrite Hcheck, after_after.
    rewrite (bind_ok _ _ _ _ _ (sleep_run 1 _)), after_after.
    set (W := after w _ _).
    assert (HW : env W (tick W) = Done d2) by exact Hd2.
    rewrite (idle_then_ret self payload W d2 HW). unfold W.
    cbn [fst snd after trace].
    rewrite !packets_app, !reads_app, packets_exchange, reads_exchange.
    split; [reflexivity|]. split; rewrite <- ?app_assoc; reflexivity.
Qed.

Lemma read_accepts_4_and_32_witness :
  fst (_read device 0 0 5 (steady (framed [1; 2; 3; 4])))
  = Err (RuntimeError "Only 4 and 32 byte reads supported") /\
  fst (_read device 0 0x15 4 (steady (framed [1; 2; 3; 4]))) = Ok [1; 2; 3; 4] /\
  packets (trace (snd (_read device 0 7 32 (steady (framed (replicate 32 0))))))
  = [[0x03; 7; 0x02; 0x80; 7; 0; 0x05; 0xED]].
Proof.
  destruct (read_accepts_4_and_32 device 0 0 5 (steady (framed [1; 2; 3; 4])))
    as [Hbad _].
  destruct (read_accepts_4_and_32 device 0 0x15 4 (steady (framed [1; 2; 3; 4])))
    as [_ H4].
  destruct (read_accepts_4_and_32 device 0 7 32 (steady (framed (replicate 32 0))))
    as [_ H32].
  destruct (H4 (framed [1; 2; 3; 4]) [1; 2; 3; 4] (or_introl eq_refl)
               ltac:(vm_compute; split; [discriminate | reflexivity]) ltac:(lia)
               (ex_intro _ _ eq_refl) eq_refl eq_refl (ex_intro _ _ eq_refl))
    as [Hres _].
  destruct (H32 (framed (replicate 32 0)) (replicate 32 0) (or_intror eq_refl)
                ltac:(vm_compute; split; [discriminate | reflexivity]) ltac:(lia)
                (ex_intro _ _ eq_refl) eq_refl eq_refl (ex_intro _ _ eq_refl))
    as (_ & Hp & _).
  split; [rewrite Hbad by lia; reflexivity|]. split; [exact Hres | exact Hp].
Defined.

Lemma write_bad_length (self : ATECC) (zone address : Z) (buffer : list Z)
      (w : world) :
  len buffer <> 4 -> len buffer <> 32 ->
  _write self zone address buffer w
  = (Err (RuntimeError "Only 4 or 32-byte writes supported."), after w probe 1).
Proof.
  intros H4 H32. unfold _write. rewrite (bind_ok _ _ _ _ _ (wakeup_run w)).
  destruct (Z.eqb_spec (len buffer) 4) as [?|_]; [contradiction|].
  destruct (Z.eqb_spec (len buffer) 32) as [?|_]; [contradiction|].
  reflexivity.
Qed.

(** X15: [_write] accepts buffers of 4 and 32 bytes only: any other
    length raises after the wake-up and no command is sent; a 4-byte
    buffer goes out with the zone as given and a 32-byte buffer with bit
    7 of the zone set, whatever the transport does afterwards; and on a
    transport that takes the command, answers the read with a valid
    response and takes the idle, the call returns, the response payload
    unused, after the 26 ms wait, one 4-byte read and the idle. *)
Theorem write_accepts_4_and_32
        (self : ATECC) (zone address : Z) (buffer : list Z) (w : world) :
  let run := _write self zone address buffer w in
  let param1 := if len buffer =? 32 then Z.lor zone 0x80 else zone in
  (len buffer <> 4 -> len buffer <> 32 ->
   run = (Err (RuntimeError "Only 4 or 32-byte writes supported."),
          after w probe 1)) /\
  (len buffer = 4 \/ len buffer = 32 -> Forall is_byte buffer ->
   is_byte param1 -> 0 <= address < 2 ^ 16 ->
   packets (trace (snd run))
   = packets (trace w) ++ [wire_packet 0x12 param1 address buffer] /\
   (forall response payload : list Z,
       takes w 2 -> answers w 4 response ->
       check_response response = Ok payload -> takes w 5 ->
       run = (Ok tt,
              after w (probe ++
                       exchange_events self
                         (wire_packet 0x12 param1 address buffer) 26 1 response ++
                       idle_events self) 6))).
Proof.
  intros run param1. unfold run, param1. split.
  - apply write_bad_length.
  - intros Hlen Hbytes Hzone Haddr. split.
    + unfold _write.
      rewrite (bind_ok _ _ _ _ _ (wakeup_run w)).
      assert (Hguard : negb ((len buffer =? 4) || (len buffer =? 32)) = false)
        by (destruct Hlen as [-> | ->]; reflexivity).
      rewrite Hguard. rewrite (bind_ok _ _ _ _ tt eq_refl). cbv zeta.
      assert (Hvalid : valid_command 0x12
                         (if len buffer =? 32 then Z.lor zone 0x80 else zone)
                         address buffer).
      { refine (conj _ (conj Hzone (conj Haddr (conj Hbytes _))));
          [unfold is_byte; lia | destruct Hlen as [-> | ->]; lia]. }
      destruct (send_then_quiet self 0x12 _ address buffer _
                  (fun _ => time_sleep 26 ;;;
                            let* status := _get_response self 1 default_retries in
                            idle self)
                  (after w [WriteByteData 0x00 0 0x00; Sleep 1] 1)
                  (valid_packet _ _ _ _ Hvalid)) as [Hp _].
      * intros _. apply quiet_bind; [apply quiet_sleep|]. intros _.
        apply quiet_bind; [apply quiet_get_response|]. intros status.
        apply quiet_idle.
      * rewrite Hp. cbn [after trace]. rewrite packets_app.
        cbn [packets omap]. rewrite app_nil_r. reflexivity.
    + intros response payload [d1 Hd1] Hresp Hcheck [d2 Hd2].
      rewrite (write_run self zone address buffer w d1 response payload d2
                 Hlen Hbytes Hzone Haddr Hd1 Hresp Hcheck Hd2).
      reflexivity.
Qed.

Lemma write_accepts_4_and_32_witness :
  fst (_write device 0 4 [1; 2; 3] (steady (status_response 0)))
  = Err (RuntimeError "Only 4 or 32-byte writes supported.") /\
  (fst (_write device 0 4 [1; 2; 3; 4] (steady (status_response 0))) = Ok tt /\
   packets (trace (snd (_write device 0 4 [1; 2; 3; 4]
                               (steady (status_response 0)))))
   = [wire_packet 0x12 0 4 [1; 2; 3; 4]]) /\
  packets (trace (snd (_write device 2 8 (replicate 32 0)
                              (steady (status_response 0)))))
  = [wire_packet 0x12 0x82 8 (replicate 32 0)].
Proof.
  destruct (write_accepts_4_and_32 device 0 4 [1; 2; 3]
              (steady (status_response 0))) as [Hbad _].
  destruct (write_accepts_4_and_32 device 0 4 [1; 2; 3; 4]
              (steady (status_response 0))) as [_ H4].
  destruct (write_accepts_4_and_32 device 2 8 (replicate 32 0)
              (steady (status_response 0))) as [_ H32].
  split; [|split].
  - rewrite Hbad by (vm_compute; discriminate). reflexivity.
  - destruct H4 as [Hp Hrun];
      [left; reflexivity
      |repeat constructor; unfold is_byte; lia
      |vm_compute; split; [discriminate | reflexivity]
      |lia|].
    split; [|exact Hp].
    rewrite (Hrun (status_response 0) [0] (ex_intro _ _ eq_refl) eq_refl eq_refl
                  (ex_intro _ _ eq_refl)).
    reflexivity.
  - apply H32; [right; reflexivity
               |apply Forall_replicate; unfold is_byte; lia
               |vm_compute; split; [discriminate | reflexivity]
               |lia].
Defined.

(** [_read] of 4 bytes on a transport that takes the command, answers the
    first read with a valid response and takes the idle. *)
Lemma read_word_run (self : ATECC) (zone address : Z) (w : world)
      (d1 response payload d2 : list Z) :
  is_byte zone -> 0 <= address < 2 ^ 16 ->
  env w (2 + tick w)%nat = Done d1 ->
  env w (4 + tick w)%nat = Done response ->
  check_response response = Ok payload ->
  env w (5 + tick w)%nat = Done d2 ->
  _read self zone address 4 w =
  (Ok payload,
   after w (probe ++ exchange_events self (wire_packet 2 zone address []) 5 4 response
                  ++ [Sleep 1; WriteByteData (_address self) 0 0x02; Sleep 1]) 6).
Proof.
  intros Hzone Haddr Hd1 Hresp Hcheck Hd2. unfold _read.
  rewrite (bind_ok _ _ _ _ _ (wakeup_run w)).
  change (negb ((4 =? 4) || (4 =? 32))) with false.
  change (4 =? 32) with false. cbv iota.
  rewrite (bind_ok _ _ _ _ tt eq_refl).
  assert (Hvalid : valid_command 2 zone address []).
  { refine (conj _ (conj Hzone (conj Haddr (conj (Forall_nil_2 _) _))));
      [unfold is_byte; lia | unfold len; cbn; lia]. }
  rewrite (exchange_with self 2 zone address [] _ (time_sleep 5) 5 4 _
             (after w [WriteByteData 0x00 0 0x00; Sleep 1] 1) d1 response
             (valid_packet _ _ _ _ Hvalid) (sleep_run 5) Hd1 Hresp).
  rewrite Hcheck, after_after.
  rewrite (bind_ok _ _ _ _ _ (sleep_run 1 _)), after_after.
  set (W := after w _ _).
  assert (HW : env W (tick W) = Done d2) by exact Hd2.
  rewrite (idle_then_ret self payload W d2 HW). unfold W.
  rewrite after_after. unfold probe. rewrite <- !app_assoc. reflexivity.
Qed.

(** X16: [locked] reads the configuration word at address 0x15 and, on a
    valid 4-byte payload, answers whether its bytes 2 and 3 are both 0. *)
Theorem locked_tests_bytes_2_and_3
        (self : ATECC) (w : world) (response : list Z) (c0 c1 c2 c3 : Z) :
  takes w 2 -> answers w 4 response ->
  check_response response = Ok [c0; c1; c2; c3] -> takes w 5 ->
  let run := locked self w in
  fst run = Ok ((c2 =? 0) && (c3 =? 0)) /\
  packets (trace (snd run)) = packets (trace w) ++ [wire_packet 2 0 0x15 []] /\
  reads (trace (snd run)) = reads (trace w) ++ [I2cRead (_address self) 7].
Proof.
  intros [d1 Hd1] Hresp Hcheck [d2 Hd2] run. unfold run, locked.
  rewrite (bind_ok _ _ _ _ _
             (read_word_run self 0 0x15 w d1 response [c0; c1; c2; c3] d2
                ltac:(unfold is_byte; lia) ltac:(lia) Hd1 Hresp Hcheck Hd2)).
  rewrite (bind_ok _ _ _ _ _ (sleep_run 1 _)), after_after.
  unfold lift.
  rewrite (bind_ok _ _ _ _ c2 eq_refl).
  assert (Hres : forall W,
             (if c2 =? 0
              then let* c3' := (fun w0 => (getitem [c0; c1; c2; c3] 3, w0)) in
                   ret (c3' =? 0)
              else ret false) W = (Ok ((c2 =? 0) && (c3 =? 0)), W)).
  { intros W. destruct (c2 =? 0); reflexivity. }
  rewrite Hres. cbn [fst snd after trace].
  rewrite !packets_app, !reads_app, packets_exchange, reads_exchange.
  split; [reflexivity|]. split; rewrite <- ?app_assoc; reflexivity.
Qed.

Lemma locked_tests_bytes_2_and_3_witness :
  fst (locked device (steady (framed [0x55; 0x55; 0; 0]))) = Ok true /\
  fst (locked device (steady (framed [0x55; 0x55; 0; 0x55]))) = Ok false.
Proof.
  destruct (locked_tests_bytes_2_and_3 device (steady (framed [0x55; 0x55; 0; 0]))
              (framed [0x55; 0x55; 0; 0]) 0x55 0x55 0 0
              (ex_intro _ _ eq_refl) eq_refl eq_refl (ex_intro _ _ eq_refl))
    as [H1 _].
  destruct (locked_tests_bytes_2_and_3 device
              (steady (framed [0x55; 0x55; 0; 0x55]))
              (framed [0x55; 0x55; 0; 0x55]) 0x55 0x55 0 0x55
              (ex_intro _ _ eq_refl) eq_refl eq_refl (ex_intro _ _ eq_refl))
    as [H2 _].
  split; [exact H1 | exact H2].
Defined.

(** X17: [sha_update] always declares 64 as the length parameter,
    whatever the length of the message it sends (at most 248 bytes fit
    the packet); on a valid response with status 0 the call writes the
    idle byte as its last bus operation and returns the response
    payload; any other status raises the assertion error right after
    the read, the chip not put to idle.  The worlds are given whole. *)
Theorem sha_update_declares_64
        (self : ATECC) (message : list Z) (w : world) :
  Forall is_byte message -> len message <= 248 ->
  let run := sha_update self message w in
  packets (trace (snd run))
  = packets (trace w) ++ [wire_packet OP_SHA 0x01 64 message] /\
  (exists lo hi,
      wire_packet OP_SHA 0x01 64 message
      = 0x03 :: (7 + len message) :: 0x47 :: 0x01 :: 64 :: 0 ::
        message ++ [lo; hi]) /\
  (forall (response rest : list Z) (st : Z),
      takes w 2 -> answers w 4 response ->
      check_response response = Ok (st :: rest) ->
      let exchange :=
        probe ++
        exchange_events self (wire_packet OP_SHA 0x01 64 message) 47 1 response in
      (st = 0 -> takes w 5 ->
       run = (Ok (st :: rest), after w (exchange ++ idle_events self) 6)) /\
      (st <> 0 ->
       run = (Err (AssertionError "Error during SHA Update"),
              after w exchange 5))).
Proof.
  intros Hbytes Hlen run.
  assert (Hvalid : valid_command OP_SHA 0x01 64 message).
  { refine (conj _ (conj _ (conj _ (conj Hbytes Hlen))));
      unfold is_byte, OP_SHA; lia. }
  split; [|split].
  - unfold run, sha_update. rewrite (bind_ok _ _ _ _ _ (wakeup_run w)).
    destruct (send_then_quiet self OP_SHA 0x01 64 message _
                (fun _ => exec_sleep OP_SHA ;;;
                          let* status := _get_response self 1 default_retries in
                          let* status0 := lift (getitem status 0) in
                          assert_ (status0 =? 0x00) "Error during SHA Update" ;;;
                          idle self ;;; ret status)
                (after w [WriteByteData 0x00 0 0x00; Sleep 1] 1)
                (valid_packet _ _ _ _ Hvalid)) as [Hp _].
    + intros _. apply quiet_bind; [apply DigestClaims.quiet_exec_sleep|].
      intros _. apply quiet_bind; [apply quiet_get_response|]. intros status.
      apply quiet_bind; [apply quiet_lift|]. intros status0.
      apply quiet_bind;
        [unfold assert_; destruct (_ =? _); [apply quiet_ret | apply quiet_raise]|].
      intros _. apply quiet_bind; [apply quiet_idle|]. intros _. apply quiet_ret.
    + rewrite Hp. cbn [after trace]. rewrite packets_app.
      cbn [packets omap]. rewrite app_nil_r. reflexivity.
  - unfold wire_packet, command_body. eexists _, _. reflexivity.
  - intros response rest st [d1 Hd1] Hresp Hcheck exchange.
    unfold run, exchange, sha_update.
    rewrite (bind_ok _ _ _ _ _ (wakeup_run w)).
    rewrite (exchange_with self OP_SHA 0x01 64 message _ (exec_sleep OP_SHA) 47 1 _
               (after w [WriteByteData 0x00 0 0x00; Sleep 1] 1) d1 response
               (valid_packet _ _ _ _ Hvalid)
               (fun w' => exec_sleep_table OP_SHA 47 w' ltac:(cbn; tauto))
               Hd1 Hresp).
    rewrite Hcheck, after_after. unfold lift.
    rewrite (bind_ok _ _ _ _ st (f_equal (fun r => (r, _)) (getitem_head st rest))).
    unfold bind at 1. rewrite assert_run. split.
    + intros -> [d2 Hd2]. cbn [Z.eqb].
      set (W := after w _ _).
      assert (HW : env W (tick W) = Done d2) by exact Hd2.
      rewrite (idle_then_ret self (0 :: rest) W d2 HW). unfold W.
      rewrite after_after. reflexivity.
    + intros Hne. destruct (Z.eqb_spec st 0) as [?|_]; [contradiction|].
      reflexivity.
Qed.

Lemma sha_update_declares_64_witness :
  packets (trace (snd (sha_update device [0x61; 0x62; 0x63]
                                  (steady (status_response 0)))))
  = [wire_packet OP_SHA 0x01 64 [0x61; 0x62; 0x63]] /\
  fst (sha_update device [0x61; 0x62; 0x63] (steady (status_response 0))) = Ok [0].
Proof.
  assert (Hbytes : Forall is_byte [0x61; 0x62; 0x63])
    by (repeat constructor; unfold is_byte; lia).
  destruct (sha_update_declares_64 device [0x61; 0x62; 0x63]
              (steady (status_response 0)) Hbytes ltac:(vm_compute; discriminate))
    as (Hp & _ & Hst).
  destruct (Hst (status_response 0) [] 0 (ex_intro _ _ eq_refl) eq_refl eq_refl)
    as [Hok _].
  split; [exact Hp|].
  rewrite (Hok eq_refl (ex_intro _ _ eq_refl)). reflexivity.
Defined.

Lemma info_packet_ok (mode : Z) :
  is_byte mode ->
  command_packet OP_INFO mode 0x00 [] = Ok (wire_packet OP_INFO mode 0 []).
Proof.
  intros Hm. apply command_packet_layout; try assumption;
    try (unfold is_byte, OP_INFO; lia); [constructor | unfold len; cbn; lia].
Qed.

(** [info] without parameter on a transport that takes the command,
    answers the first read with a valid response and takes the idle. *)
Lemma info_run (self : ATECC) (mode : Z) (w : world)
      (d1 response payload d2 : list Z) :
  is_byte mode ->
  env w (2 + tick w)%nat = Done d1 ->
  env w (4 + tick w)%nat = Done response ->
  check_response response = Ok payload ->
  env w (5 + tick w)%nat = Done d2 ->
  info self mode None w =
  (Ok payload,
   after w (probe ++ exchange_events self (wire_packet OP_INFO mode 0 []) 1 4 response
                  ++ [WriteByteData (_address self) 0 0x02; Sleep 1]) 6).
Proof.
  intros Hm Hd1 Hresp Hcheck Hd2. unfold info.
  rewrite (bind_ok _ _ _ _ _ (wakeup_run w)). cbv iota.
  rewrite (exchange_with self OP_INFO mode 0 [] _ (exec_sleep OP_INFO) 1 4 _
             (after w [WriteByteData 0x00 0 0x00; Sleep 1] 1) d1 response
             (info_packet_ok mode Hm)
             (fun w' => exec_sleep_table OP_INFO 1 w' ltac:(cbn; tauto))
             Hd1 Hresp).
  rewrite Hcheck, after_after.
  set (W := after w _ _).
  assert (HW : env W (tick W) = Done d2) by exact Hd2.
  rewrite (idle_then_ret self payload W d2 HW). unfold W.
  rewrite after_after. unfold probe. rewrite <- !app_assoc. reflexivity.
Qed.

(** [version] on a transport that takes every write and answers the Info
    command with a valid 4-byte payload. *)
Lemma version_run (self : ATECC) (w : world)
      (d0 d1 response d2 : list Z) (v0 v1 v2 v3 : Z) :
  env w (1 + tick w)%nat = Done d0 ->
  env w (4 + tick w)%nat = Done d1 ->
  env w (6 + tick w)%nat = Done response ->
  check_response response = Ok [v0; v1; v2; v3] ->
  env w (7 + tick w)%nat = Done d2 ->
  exists w',
    version self w = (Ok (Z.lor (Z.shiftl v2 8) v3), w') /\
    packets (trace w') = packets (trace w) ++ [wire_packet OP_INFO 0 0 []].
Proof.
  intros Hd0 Hd1 Hresp Hcheck Hd2. unfold version.
  rewrite (bind_ok _ _ _ _ _ (wakeup_run w)).
  set (W1 := after w _ 1).
  assert (HW1 : env W1 (tick W1) = Done d0) by exact Hd0.
  rewrite (bind_ok _ _ _ _ _ (idle_ok self W1 d0 HW1)).
  set (W2 := after W1 _ 1).
  assert (Hd1' : env W2 (2 + tick W2)%nat = Done d1) by exact Hd1.
  assert (Hr' : env W2 (4 + tick W2)%nat = Done response) by exact Hresp.
  assert (Hd2' : env W2 (5 + tick W2)%nat = Done d2) by exact Hd2.
  rewrite (bind_ok _ _ _ _ _
             (info_run self 0 W2 d1 response [v0; v1; v2; v3] d2
                       ltac:(unfold is_byte; lia) Hd1' Hr' Hcheck Hd2')).
  unfold lift. rewrite (bind_ok _ _ _ _ v2 eq_refl).
  rewrite (bind_ok _ _ _ _ v3 eq_refl). unfold ret.
  eexists. split; [reflexivity|].
  unfold W2, W1. cbn [after trace].
  rewrite !packets_app, packets_exchange. cbn [packets omap probe app].
  rewrite <- !app_assoc. reflexivity.
Qed.

(** The whole run of [version] on such a transport: wake-up, idle, then
    the Info exchange with its own wake-ups and idle. *)
Lemma version_world (self : ATECC) (w : world)
      (d0 d1 response d2 : list Z) (v0 v1 v2 v3 : Z) :
  env w (1 + tick w)%nat = Done d0 ->
  env w (4 + tick w)%nat = Done d1 ->
  env w (6 + tick w)%nat = Done response ->
  check_response response = Ok [v0; v1; v2; v3] ->
  env w (7 + tick w)%nat = Done d2 ->
  version self w =
  (Ok (Z.lor (Z.shiftl v2 8) v3),
   after w (probe ++ idle_events self ++ probe ++
            exchange_events self (wire_packet OP_INFO 0 0 []) 1 4 response ++
            idle_events self) 8).
Proof.
  intros Hd0 Hd1 Hresp Hcheck Hd2. unfold version.
  rewrite (bind_ok _ _ _ _ _ (wakeup_run w)).
  set (W1 := after w _ 1).
  assert (HW1 : env W1 (tick W1) = Done d0) by exact Hd0.
  rewrite (bind_ok _ _ _ _ _ (idle_ok self W1 d0 HW1)).
  set (W2 := after W1 _ 1).
  assert (Hd1' : env W2 (2 + tick W2)%nat = Done d1) by exact Hd1.
  assert (Hr' : env W2 (4 + tick W2)%nat = Done response) by exact Hresp.
  assert (Hd2' : env W2 (5 + tick W2)%nat = Done d2) by exact Hd2.
  rewrite (bind_ok _ _ _ _ _
             (info_run self 0 W2 d1 response [v0; v1; v2; v3] d2
                       ltac:(unfold is_byte; lia) Hd1' Hr' Hcheck Hd2')).
  unfold lift. rewrite (bind_ok _ _ _ _ v2 eq_refl).
  rewrite (bind_ok _ _ _ _ v3 eq_refl). unfold ret.
  unfold W2, W1. rewrite !after_after. unfold probe, idle_events.
  rewrite <- ?app_assoc. reflexivity.
Qed.

Lemma high_byte_of_version (v2 v3 : Z) :
  is_byte v3 -> Z.shiftr (Z.lor (Z.shiftl v2 8) v3) 8 = v2.
Proof.
  intros Hv3. unfold is_byte in Hv3.
  rewrite Z.shiftr_lor, Z.shiftr_shiftl_l by lia.
  rewrite Z.sub_diag, Z.shiftl_0_r.
  rewrite (Z.shiftr_div_pow2 v3) by lia. rewrite Z.div_small by (cbn; lia).
  apply Z.lor_0_r.
Qed.

(** X18: [version] wakes and idles the chip, asks for Info in mode 0 and
    combines bytes 2 and 3 of a valid 4-byte payload as
    [(vers[2] << 8) | vers[3]]: the run is given whole, the wake-up
    probe, the idle write, then the Info exchange with its own wake-ups
    and its idle, 8 bus operations in all; when byte 3 is a byte, byte 2
    is read back as the value shifted right by 8. *)
Theorem version_combines_bytes_2_and_3
        (self : ATECC) (w : world) (response : list Z) (v0 v1 v2 v3 : Z) :
  takes w 1 -> takes w 4 -> answers w 6 response ->
  check_response response = Ok [v0; v1; v2; v3] -> takes w 7 ->
  let run := version self w in
  run = (Ok (Z.lor (Z.shiftl v2 8) v3),
         after w (probe ++ idle_events self ++ probe ++
                  exchange_events self (wire_packet OP_INFO 0 0 []) 1 4 response ++
                  idle_events self) 8) /\
  packets (trace (snd run)) = packets (trace w) ++ [wire_packet OP_INFO 0 0 []] /\
  (is_byte v3 -> Z.shiftr (Z.lor (Z.shiftl v2 8) v3) 8 = v2).
Proof.
  intros [d0 Hd0] [d1 Hd1] Hresp Hcheck [d2 Hd2] run. unfold run.
  split; [apply (version_world self w d0 d1 response d2 v0 v1 v2 v3);
          assumption|].
  destruct (version_run self w d0 d1 response d2 v0 v1 v2 v3
              Hd0 Hd1 Hresp Hcheck Hd2) as (w' & Hrun & Hp).
  rewrite Hrun. split; [exact Hp|].
  apply high_byte_of_version.
Qed.

Lemma version_combines_bytes_2_and_3_witness :
  fst (version device (steady (framed [0; 0; 0x60; 0x02]))) = Ok 0x6002 /\
  take 4 (trace (snd (version device (steady (framed [0; 0; 0x60; 0x02])))))
  = [WriteByteData 0 0 0; Sleep 1; WriteByteData 0x60 0 0x02; Sleep 1].
Proof.
  destruct (version_combines_bytes_2_and_3 device
              (steady (framed [0; 0; 0x60; 0x02])) (framed [0; 0; 0x60; 0x02])
              0 0 0x60 0x02 (ex_intro _ _ eq_refl) (ex_intro _ _ eq_refl)
              eq_refl eq_refl (ex_intro _ _ eq_refl)) as [H _].
  rewrite H. split; reflexivity.
Defined.

(** X19: constructing the device wakes the chip and reads its version:
    on a valid 4-byte Info payload whose byte 3 is a byte, construction
    succeeds exactly when byte 2 is 0x50 or 0x60 and raises the
    chip-not-found error otherwise; and when the transport rejects the
    idle write that precedes the Info command, construction raises that
    exception and no command has been sent. *)
Theorem init_checks_chip_family (address : Z) (debug : bool) (w : world) :
  let run := __init__ address debug w in
  (forall (response : list Z) (v0 v1 v2 v3 : Z),
      takes w 2 -> takes w 5 -> answers w 7 response ->
      check_response response = Ok [v0; v1; v2; v3] -> is_byte v3 ->
      takes w 8 ->
      fst run =
      if (v2 =? 0x50) || (v2 =? 0x60)
      then Ok (Device debug address)
      else Err (RuntimeError
                  "Failed to find 608 or 508 chip. Please check your wiring.")) /\
  (forall e : exn,
      env w (2 + tick w)%nat = Raise e ->
      fst run = Err e /\ packets (trace (snd run)) = packets (trace w)).
Proof.
  intros run. unfold run, __init__. cbv zeta. split.
  - intros response v0 v1 v2 v3 [d0 Hd0] [d1 Hd1] Hresp Hcheck Hv3 [d2 Hd2].
    rewrite (bind_ok _ _ _ _ _ (wakeup_run w)).
    set (W1 := after w _ 1).
    assert (Hd0' : env W1 (1 + tick W1)%nat = Done d0) by exact Hd0.
    assert (Hd1' : env W1 (4 + tick W1)%nat = Done d1) by exact Hd1.
    assert (Hr' : env W1 (6 + tick W1)%nat = Done response) by exact Hresp.
    assert (Hd2' : env W1 (7 + tick W1)%nat = Done d2) by exact Hd2.
    destruct (version_run (Device debug address) W1 d0 d1 response d2 v0 v1 v2 v3
                Hd0' Hd1' Hr' Hcheck Hd2') as (w' & Hrun & _).
    rewrite (bind_ok _ _ _ _ _ Hrun).
    rewrite (high_byte_of_version v2 v3 Hv3).
    unfold _ATECC_508_VER, _ATECC_608_VER.
    destruct ((v2 =? 0x50) || (v2 =? 0x60)); reflexivity.
  - intros e He.
    rewrite (bind_ok _ _ _ _ _ (wakeup_run w)).
    unfold version. rewrite (bind_assoc wakeup).
    rewrite (bind_ok _ _ _ _ _ (wakeup_run _)).
    set (W1 := after (after w _ 1) _ 1).
    assert (HW1 : env W1 (tick W1) = Raise e) by exact He.
    rewrite bind_assoc.
    rewrite (bind_err _ _ _ _ _ (idle_raises (Device debug address) W1 e HW1)).
    split; [reflexivity|]. unfold W1. cbn [snd after trace].
    rewrite !packets_app. cbn [packets omap]. rewrite !app_nil_r. reflexivity.
Qed.

Lemma init_checks_chip_family_witness :
  fst (__init__ 0x60 false (steady (framed [0; 0; 0x60; 0x02])))
  = Ok (Device false 0x60) /\
  fst (__init__ 0x60 false (steady (framed [0; 0; 0x61; 0x02])))
  = Err (RuntimeError "Failed to find 608 or 508 chip. Please check your wiring.") /\
  fst (__init__ 0x60 false dead) = Err OSError.
Proof.
  destruct (init_checks_chip_family 0x60 false (steady (framed [0; 0; 0x60; 0x02])))
    as [Hok _].
  destruct (init_checks_chip_family 0x60 false (steady (framed [0; 0; 0x61; 0x02])))
    as [Hbad _].
  destruct (init_checks_chip_family 0x60 false dead) as [_ Hdead].
  split; [|split].
  - exact (Hok (framed [0; 0; 0x60; 0x02]) 0 0 0x60 0x02 (ex_intro _ _ eq_refl)
               (ex_intro _ _ eq_refl) eq_refl eq_refl
               ltac:(unfold is_byte; lia) (ex_intro _ _ eq_refl)).
  - exact (Hbad (framed [0; 0; 0x61; 0x02]) 0 0 0x61 0x02 (ex_intro _ _ eq_refl)
                (ex_intro _ _ eq_refl) eq_refl eq_refl
                ltac:(unfold is_byte; lia) (ex_intro _ _ eq_refl)).
  - destruct (Hdead OSError eq_refl) as [H _]. exact H.
Defined.

Lemma to_bytes_ok (l : list Z) : Forall is_byte l -> to_bytes l = Ok l.
Proof.
  intros Hl. unfold to_bytes.
  assert (H : forallb (fun v => (0 <=? v) && (v <? 256)) l = true).
  { apply forallb_forall. intros x Hx.
    rewrite Forall_forall in Hl. apply list_elem_of_In, Hl in Hx.
    apply (proj2 (byte_b_spec x)), Hx. }
  rewrite H. reflexivity.
Qed.

Lemma hex_digit_round_trip (n : Z) :
  0 <= n < 16 -> digit_value (upper_char (hexdigit n)) = Some n.
Proof.
  intros Hn. rewrite <- (Z2Nat.id n) by lia.
  assert (Hk : (Z.to_nat n < 16)%nat) by lia.
  revert Hk. generalize (Z.to_nat n) as k. intros k Hk.
  do 16 (destruct k as [|k]; [reflexivity|]). lia.
Qed.

(** The hexadecimal text of a byte string reads back as the bytes. *)
Lemma unhex_upper_hexlify (l : list Z) :
  Forall is_byte l -> unhex (upper (hexlify l)) = Some l.
Proof.
  induction 1 as [|x l Hx _ IH]; [reflexivity|].
  cbn [hexlify upper unhex]. unfold is_byte in Hx.
  pose proof (Z.div_mod x 16 ltac:(lia)) as Hdm.
  pose proof (Z.mod_pos_bound x 16 ltac:(lia)) as Hm.
  assert (Hq : 0 <= x / 16 < 16)
    by (split; [apply Z.div_pos; lia | apply Z.div_lt_upper_bound; lia]).
  rewrite !hex_digit_round_trip by assumption. rewrite IH.
  f_equal. f_equal. lia.
Qed.

Lemma upper_hexlify_length (l : list Z) :
  String.length (upper (hexlify l)) = (2 * length l)%nat.
Proof.
  induction l as [|x l IH]; [reflexivity|].
  cbn [hexlify upper String.length length]. rewrite IH. lia.
Qed.

(** X20: [serial_number] reads the words at addresses 0, 2 and 3 and
    renders the 4 + 4 + 1 bytes it keeps (only the first byte of the
    third word) as uppercase hexadecimal: on valid responses the text
    has two characters for each byte kept, 18 for 4-byte payloads, and
    reads back as exactly those bytes. *)
Theorem serial_number_is_hex_of_nine_bytes
        (self : ATECC) (w : world) (r0 r1 r2 p0 p1 p2 : list Z) :
  takes w 2 -> answers w 4 r0 -> takes w 5 ->
  takes w 8 -> answers w 10 r1 -> takes w 11 ->
  takes w 14 -> answers w 16 r2 -> takes w 17 ->
  check_response r0 = Ok p0 -> check_response r1 = Ok p1 ->
  check_response r2 = Ok p2 ->
  Forall is_byte (p0 ++ p1 ++ take 1 p2) ->
  let run := serial_number self w in
  let kept := p0 ++ p1 ++ take 1 p2 in
  exists s : string,
    fst run = Ok s /\
    unhex s = Some kept /\
    String.length s = (2 * length kept)%nat /\
    packets (trace (snd run))
    = packets (trace w) ++
      [wire_packet 2 0 0x00 []; wire_packet 2 0 0x02 []; wire_packet 2 0 0x03 []].
Proof.
  intros [a0 Ha0] Hr0 [b0 Hb0] [a1 Ha1] Hr1 [b1 Hb1] [a2 Ha2] Hr2 [b2 Hb2]
         Hc0 Hc1 Hc2 Hbytes run kept.
  unfold run, serial_number.
  assert (Hz : is_byte 0) by (unfold is_byte; lia).
  rewrite (bind_ok _ _ _ _ _
             (read_word_run self 0 0x00 w a0 r0 p0 b0 Hz ltac:(lia)
                            Ha0 Hr0 Hc0 Hb0)).
  rewrite (bind_ok _ _ _ _ _ (sleep_run 1 _)), after_after.
  set (W1 := after w _ _).
  assert (Ha1' : env W1 (2 + tick W1)%nat = Done a1) by exact Ha1.
  assert (Hr1' : env W1 (4 + tick W1)%nat = Done r1) by exact Hr1.
  assert (Hb1' : env W1 (5 + tick W1)%nat = Done b1) by exact Hb1.
  rewrite (bind_ok _ _ _ _ _
             (read_word_run self 0 0x02 W1 a1 r1 p1 b1 Hz ltac:(lia)
                            Ha1' Hr1' Hc1 Hb1')).
  rewrite (bind_ok _ _ _ _ _ (sleep_run 1 _)), after_after.
  set (W2 := after W1 _ _).
  assert (Ha2' : env W2 (2 + tick W2)%nat = Done a2) by exact Ha2.
  assert (Hr2' : env W2 (4 + tick W2)%nat = Done r2) by exact Hr2.
  assert (Hb2' : env W2 (5 + tick W2)%nat = Done b2) by exact Hb2.
  rewrite (bind_ok _ _ _ _ _
             (read_word_run self 0 0x03 W2 a2 r2 p2 b2 Hz ltac:(lia)
                            Ha2' Hr2' Hc2 Hb2')).
  rewrite (bind_ok _ _ _ _ _ (sleep_run 1 _)), after_after.
  rewrite slice_prefix by lia. change (Z.to_nat 1) with 1%nat.
  rewrite <- app_assoc. fold kept. unfold lift.
  rewrite (bind_ok _ _ _ _ kept (f_equal (fun r => (r, _)) (to_bytes_ok kept Hbytes))).
  unfold ret. eexists. split; [reflexivity|].
  split; [apply unhex_upper_hexlify, Hbytes|].
  split; [apply upper_hexlify_length|].
  unfold W2, W1. cbn [snd after trace].
  rewrite !packets_app, !packets_exchange. cbn [packets omap probe app].
  rewrite <- !app_assoc. reflexivity.
Qed.

Lemma serial_number_is_hex_of_nine_bytes_witness :
  exists s : string,
    fst (serial_number device (steady (framed [0x01; 0x23; 0xAB; 0xFF]))) = Ok s /\
    unhex s = Some [0x01; 0x23; 0xAB; 0xFF; 0x01; 0x23; 0xAB; 0xFF; 0x01] /\
    String.length s = 18%nat.
Proof.
  assert (Hbytes : Forall is_byte ([0x01; 0x23; 0xAB; 0xFF] ++
                                   [0x01; 0x23; 0xAB; 0xFF] ++
                                   take 1 [0x01; 0x23; 0xAB; 0xFF]))
    by (repeat constructor; unfold is_byte; lia).
  destruct (serial_number_is_hex_of_nine_bytes device
              (steady (framed [0x01; 0x23; 0xAB; 0xFF]))
              (framed [0x01; 0x23; 0xAB; 0xFF]) (framed [0x01; 0x23; 0xAB; 0xFF])
              (framed [0x01; 0x23; 0xAB; 0xFF])
              [0x01; 0x23; 0xAB; 0xFF] [0x01; 0x23; 0xAB; 0xFF]
              [0x01; 0x23; 0xAB; 0xFF]
              (ex_intro _ _ eq_refl) eq_refl (ex_intro _ _ eq_refl)
              (ex_intro _ _ eq_refl) eq_refl (ex_intro _ _ eq_refl)
              (ex_intro _ _ eq_refl) eq_refl (ex_intro _ _ eq_refl)
              eq_refl eq_refl eq_refl Hbytes) as (s & Hs & Hun & Hlen & _).
  exists s. split; [exact Hs|]. split; [exact Hun | exact Hlen].
Defined.

(** The loop of [_random] never returns more than one chunk. *)
Lemma random_loop_at_most_32 (self : ATECC) (fuel : nat) (data : list Z)
      (data_len : Z) :
  0 <= data_len <= Z.of_nat fuel ->
  (data_len = 0 -> (length data <= 32)%nat) ->
  returns_only (fun d => (length d <= 32)%nat)
               (random_loop self fuel data data_len).
Proof.
  revert data data_len. induction fuel as [|fuel IH]; intros data data_len Hdl Hdata.
  - intros w. cbn. apply Hdata. lia.
  - rewrite random_loop_step.
    destruct (Z.eqb_spec data_len 0) as [H0|Hne].
    + intros w. cbn. apply Hdata, H0.
    + apply DigestClaims.returns_only_bind. intros _.
      apply DigestClaims.returns_only_bind. intros _.
      apply DigestClaims.returns_only_bind. intros resp.
      apply IH; [lia|]. intros _.
      rewrite slice_prefix by lia. rewrite length_take. lia.
Qed.

(** X21: [_random] never returns more than 32 bytes, however long the
    buffer it is asked to fill and whatever the transport does: each
    round of its loop replaces the data by one chunk of at most 32 bytes
    instead of adding to it. *)
Theorem random_returns_at_most_32_bytes (self : ATECC) (data : list Z) (w : world) :
  match fst (_random self data w) with
  | Ok d => (length d <= 32)%nat
  | Err _ => True
  end.
Proof.
  revert w. change (returns_only (fun d => (length d <= 32)%nat) (_random self data)).
  unfold _random. apply DigestClaims.returns_only_bind. intros _.
  intros w. unfold bind.
  pose proof (random_loop_at_most_32 self (length data) data (len data)) as Hloop.
  assert (Hfuel : 0 <= len data <= Z.of_nat (length data)) by (unfold len; lia).
  assert (Hempty : len data = 0 -> (length data <= 32)%nat) by (unfold len; lia).
  specialize (Hloop Hfuel Hempty w).
  destruct (random_loop self (length data) data (len data) w) as [[d|e] w'];
    cbn [fst] in *; [|exact I].
  destruct (idle self w') as [[[]|e] w'']; [exact Hloop | exact I].
Qed.

(** X22: the wake-up probe swallows every failure: [wakeup] returns
    normally whatever the transport answers; [idle] and [sleep] write
    their control byte (0x02, 0x01) to the device address and raise what
    the transport raises, without the settle delay that follows a write
    that went through. *)
Theorem power_calls (self : ATECC) (w : world) :
  wakeup w = (Ok tt, after w probe 1) /\
  (forall e, env w (tick w) = Raise e ->
     idle self w = (Err e, after w [WriteByteData (_address self) 0 0x02] 1) /\
     sleep self w = (Err e, after w [WriteByteData (_address self) 0 0x01] 1)) /\
  (forall d, env w (tick w) = Done d ->
     idle self w
     = (Ok tt, after w [WriteByteData (_address self) 0 0x02; Sleep 1] 1) /\
     sleep self w
     = (Ok tt, after w [WriteByteData (_address self) 0 0x01; Sleep 1] 1)).
Proof.
  split; [apply wakeup_run|]. split.
  - intros e He. split; [apply idle_raises, He|].
    unfold sleep, bind. rewrite bus_run, He. reflexivity.
  - intros d Hd. split; [apply (idle_ok self w d Hd)|].
    unfold sleep, bind. rewrite bus_run, Hd, time_sleep_run, after_after.
    reflexivity.
Qed.

Lemma power_calls_witness :
  wakeup dead = (Ok tt, after dead probe 1) /\
  fst (idle device dead) = Err OSError.
Proof.
  destruct (power_calls device dead) as (Hwake & Hfail & _).
  destruct (Hfail OSError eq_refl) as [Hidle _].
  split; [exact Hwake | rewrite Hidle; reflexivity].
Defined.

(** X23: whatever the transport does, a value [random] returns lies in
    the range it draws from: with [lo] the forced [rnd_min], it is at
    least [lo] and below [rnd_max] when [lo < rnd_max], and it is [lo]
    itself otherwise. *)
Theorem random_stays_in_range
        (self : ATECC) (rnd_min rnd_max : Z) (w : world) :
  let lo := effective_min rnd_min rnd_max in
  match fst (random self rnd_min rnd_max w) with
  | Ok v => (lo < rnd_max -> lo <= v < rnd_max) /\ (lo >= rnd_max -> v = lo)
  | Err _ => True
  end.
Proof.
  intros lo. revert w.
  change (returns_only
            (fun v => (lo < rnd_max -> lo <= v < rnd_max) /\
                      (lo >= rnd_max -> v = lo))
            (random self rnd_min rnd_max)).
  rewrite RandomClaims.random_start. cbv zeta. fold lo.
  destruct (Z.geb_spec lo rnd_max) as [Hge|Hlt].
  - intros w. cbn. split; [lia | reflexivity].
  - apply DigestClaims.returns_only_bind. intros r.
    apply DigestClaims.returns_only_bind. intros data.
    intros w. cbn [ret fst]. split; [|lia]. intros _.
    pose proof (Z.mod_pos_bound (if data <? 0 then - data else data)
                                (rnd_max - lo) ltac:(lia)). lia.
Qed.

Lemma random_stays_in_range_witness :
  exists v : Z,
    fst (random device 0 10 (steady (framed (replicate 32 0x01)))) = Ok v /\
    0 <= v < 10.
Proof.
  pose proof (random_stays_in_range device 0 10
                (steady (framed (replicate 32 0x01)))) as H.
  cbv zeta in H.
  change (fst (random device 0 10 (steady (framed (replicate 32 0x01)))))
    with (@Ok Z 6) in H.
  cbv iota in H. destruct H as [H _].
  exists 6. split; [reflexivity | apply H; reflexivity].
Defined.

Lemma slice_word_app {A} (l extra : list A) (i : Z) :
  0 <= i -> i + 4 <= len l ->
  slice (l ++ extra) i (i + 4) = slice l i (i + 4).
Proof.
  intros Hi Hlen.
  rewrite !slice_word by (try assumption; rewrite ?len_app;
                          pose proof (len_nonneg extra); lia).
  unfold len in Hlen.
  rewrite drop_app_le by lia. apply take_app_le.
  rewrite length_drop. lia.
Qed.

Lemma write_words_ignore_tail (self : ATECC) (data extra : list Z)
      (offsets : list Z) (w : world) :
  Forall (in_buffer data) offsets ->
  write_words self (data ++ extra) offsets w = write_words self data offsets w.
Proof.
  intros Hoffsets. revert w.
  induction Hoffsets as [|i rest (Hi0 & Hi4 & _) _ IH]; intros w; [reflexivity|].
  cbn [write_words]. rewrite slice_word_app by assumption.
  apply RandomClaims.bind_ext. intros _ w'. apply IH.
Qed.

(** X24: [write_config] never looks past byte 127 of its buffer: a longer
    buffer gives the same run, command for command, as its first 128
    bytes. *)
Theorem write_config_ignores_bytes_from_128
        (self : ATECC) (data extra : list Z) (w : world) :
  len data = 128 ->
  write_config self (data ++ extra) w = write_config self data w.
Proof.
  intros Hlen. unfold write_config.
  apply write_words_ignore_tail, ConfigClaims.config_offsets_in_buffer, Hlen.
Qed.

Lemma write_config_ignores_bytes_from_128_witness :
  write_config device (replicate 128 0x07 ++ [0x20; 0x20; 0x20])
               (steady (status_response 0))
  = write_config device (replicate 128 0x07) (steady (status_response 0)).
Proof. apply write_config_ignores_bytes_from_128. reflexivity. Defined.

(** X25: [write_config] on a buffer shorter than 20 bytes cannot cut its
    first word: it raises the unsupported-length error right after the
    wake-up, and no command is sent. *)
Theorem write_config_short_buffer (self : ATECC) (data : list Z) (w : world) :
  len data < 20 ->
  write_config self data w
  = (Err (RuntimeError "Only 4 or 32-byte writes supported."), after w probe 1).
Proof.
  intros Hlen. unfold write_config.
  change (range3 16 128 4) with (16 :: range3 20 128 4).
  cbn [write_words]. change (16 =? 84) with false. cbv iota.
  assert (Hshort : len (slice data 16 (16 + 4)) < 4).
  { unfold slice, clamp. change (16 <? 0) with false.
    change (16 + 4 <? 0) with false. cbv iota.
    unfold len in *. rewrite length_take, length_drop. lia. }
  rewrite (bind_err _ _ _ _ _
             (write_bad_length self 0 (16 / 4) (slice data 16 (16 + 4)) w
                               ltac:(lia) ltac:(lia))).
  reflexivity.
Qed.

Lemma write_config_short_buffer_witness :
  fst (write_config device (replicate 19 0x07) (steady (status_response 0)))
  = Err (RuntimeError "Only 4 or 32-byte writes supported.").
Proof.
  rewrite (write_config_short_buffer device (replicate 19 0x07)
             (steady (status_response 0))) by (vm_compute; reflexivity).
  reflexivity.
Defined.

End GuardProofs.
